(** * django-newsletter: subscriptions, submissions and bounce handling

    A shallow embedding of [newsletter/bounces.py] and of the model methods
    of [newsletter/models.py] that drive the subscription state machine,
    the suppression query, the submission engine and the bounce scan.

    Conventions.
    - Python [str] values are lists of characters ([text]); the
      characters are the code points below 256.
    - A nullable column or a missing header is an [option].
    - A database table keyed by its primary key is a [gmap positive row];
      a table whose row order matters is a list.
    - An expression that can raise returns a [result]; a method runs in
      the state-and-exception monad [M] on the world and its instance.
      The exception classes that occur are the constructors of [exn].
    - What the process does to the outside (mail handed to the transport,
      IMAP commands, log lines) is recorded in a trace. *)

From Stdlib Require Import ZArith Ascii String List.
From stdpp Require Import base decidable option list gmap strings.

Open Scope Z_scope.

(** ** Text *)

Abbreviation text := (list ascii).

Definition txt (s : string) : text := list_ascii_of_string s.
Arguments txt _%_string : simpl never.

(** Truth value of a Python string: the empty string is false. *)
Definition truthy (s : text) : bool :=
  match s with [] => false | _ => true end.

(** Truth value of a possibly-[None] string. *)
Definition otruthy (s : option text) : bool :=
  match s with Some t => truthy t | None => false end.

(** [s.startswith(p)] *)
Fixpoint startswith (p s : text) : bool :=
  match p, s with
  | [], _ => true
  | c :: p', x :: s' => bool_decide (x = c) && startswith p' s'
  | _ :: _, [] => false
  end.

(** [p in s] for strings: [p] occurs as a contiguous substring. *)
Fixpoint contains (p s : text) : bool :=
  startswith p s ||
  match s with
  | [] => false
  | _ :: s' => contains p s'
  end.

(** [s.replace(p, "")]: every non-overlapping occurrence of [p], scanned
    from the left, is removed.  [fuel] bounds the scan by the length of
    the input. *)
Fixpoint remove_all_fuel (fuel : nat) (p s : text) : text :=
  match fuel with
  | O => s
  | S fuel' =>
      match s with
      | [] => []
      | x :: s' =>
          if startswith p s
          then remove_all_fuel fuel' p (drop (length p) s)
          else x :: remove_all_fuel fuel' p s'
      end
  end.

Definition remove_all (p s : text) : text :=
  match p with
  | [] => s
  | _ => remove_all_fuel (length s) p s
  end.

(** The characters [str.strip()] removes, those for which [str.isspace()]
    holds: of the code points below 256 these are 9 to 13 (tab to carriage
    return), 28 to 31 (the information separators), 32 (space), 133 (next
    line) and 160 (no-break space). *)
Definition is_space (c : ascii) : bool :=
  let n := nat_of_ascii c in
  (((9 <=? n) && (n <=? 13)) || ((28 <=? n) && (n <=? 32)) ||
   (n =? 133) || (n =? 160))%nat.

Fixpoint lstrip (s : text) : text :=
  match s with
  | c :: s' => if is_space c then lstrip s' else s
  | [] => []
  end.

Definition strip (s : text) : text := rev (lstrip (rev (lstrip s))).

(** ASCII lower-casing, for case-insensitive comparisons. *)
Definition lower (c : ascii) : ascii :=
  let n := nat_of_ascii c in
  if ((65 <=? n) && (n <=? 90))%nat then ascii_of_nat (n + 32) else c.

Definition iequal (a b : text) : bool :=
  bool_decide (map lower a = map lower b).

(** ** Exceptions and results *)

Inductive exn :=
| AssertionError
| TypeError
| ValueError
| ValidationError
| DoesNotExist
| IntegrityError
| TemplateError
| SMTPError
| IMAPError.

Inductive result (A : Type) :=
| Ok (a : A)
| Raise (e : exn).
Arguments Ok {A} a.
Arguments Raise {A} e.

#[global] Instance result_ret : MRet result := fun _ a => Ok a.

#[global] Instance result_bind : MBind result := fun _ _ k r =>
  match r with
  | Ok a => k a
  | Raise e => Raise e
  end.

(** [assert b] *)
Definition assert (b : bool) : result unit :=
  if b then Ok tt else Raise AssertionError.

(** ** VERP decoding: [verp_re] *)

Module Verp.

(** The regular expressions of the source are sequences of literal
    characters and greedy one-or-more repetitions of a character class,
    some of them named groups. *)
Inductive item :=
| Lit (c : ascii)
| Many1 (cls : ascii -> bool) (grp : option string).

Definition groups := list (string * text).

Definition bind_group (g : option string) (cap : text) (gs : groups) : groups :=
  match g with
  | Some name => (name, cap) :: gs
  | None => gs
  end.

(** Greedy repetition with backtracking: consume one more character of the
    class, first try to consume even more, and only when the rest of the
    pattern fails there give the characters consumed so far to the
    continuation. *)
Fixpoint greedy {R} (cls : ascii -> bool) (cont : text -> text -> option R)
    (acc s : text) : option R :=
  match s with
  | x :: s' =>
      if cls x then
        match greedy cls cont (acc ++ [x]) s' with
        | Some r => Some r
        | None => cont (acc ++ [x]) s'
        end
      else None
  | [] => None
  end.

(** [pattern.match(s)]: anchored at the start of [s], not at its end. *)
Fixpoint rmatch (items : list item) (s : text) {struct items} : option groups :=
  match items with
  | [] => Some []
  | Lit c :: k =>
      match s with
      | x :: s' => if bool_decide (x = c) then rmatch k s' else None
      | [] => None
      end
  | Many1 cls g :: k =>
      greedy cls (fun cap rest => bind_group g cap <$> rmatch k rest) [] s
  end.

Definition group (name : string) (gs : groups) : text :=
  match list_find (fun '(n, _) => n = name) gs with
  | Some (_, (_, v)) => v
  | None => []
  end.

Definition not_char (c : ascii) : ascii -> bool :=
  fun x => negb (bool_decide (x = c)).

Definition newline : ascii := ascii_of_nat 10.
Definition c_plus : ascii := "+"%char.
Definition c_eq : ascii := "="%char.
Definition c_at : ascii := "@"%char.

(** [verp_re = re.compile(r'[^\+]+\+(?P<user>[^=]+)=(?P<domain>[^@]+)@.+')] *)
Definition verp_re : list item :=
  [ Many1 (not_char c_plus) None; Lit c_plus;
    Many1 (not_char c_eq) (Some "user"%string); Lit c_eq;
    Many1 (not_char c_at) (Some "domain"%string); Lit c_at;
    Many1 (not_char newline) None ].

(** [res = verp_re.match(ndr_to)]; on a match the recovered address is
    ['%s@%s' % (res.group('user'), res.group('domain'))]. *)
Definition decode (address : text) : option (text * text) :=
  gs ← rmatch verp_re address;
  Some (group "user" gs, group "domain" gs).

Definition recipient (ud : text * text) : text :=
  ud.1 ++ c_at :: ud.2.

(** The form named by the specification: [anything+user=domain@anything],
    read generously, every one of the four parts being non-empty. *)
Definition verp_form (s : text) : Prop :=
  ∃ a u d b : text,
    a ≠ [] ∧ u ≠ [] ∧ d ≠ [] ∧ b ≠ [] ∧
    s = a ++ c_plus :: u ++ c_eq :: d ++ c_at :: b.

(** The form the expression accepts. *)
Definition verp_shape (s u d : text) : Prop :=
  ∃ a b : text,
    a ≠ [] ∧ (c_plus ∉ a) ∧
    u ≠ [] ∧ (c_eq ∉ u) ∧
    d ≠ [] ∧ (c_at ∉ d) ∧
    (∃ x b', b = x :: b' ∧ x ≠ newline) ∧
    s = a ++ c_plus :: u ++ c_eq :: d ++ c_at :: b.

End Verp.

(** ** Hard and soft bounces *)

Definition MAILBOX_FULL : text := txt "5.2.2".

(** [hard = status.startswith('5') and status != MAILBOX_FULL] *)
Definition is_hard (status : text) : bool :=
  startswith (txt "5") status && negb (bool_decide (status = MAILBOX_FULL)).


(** ** State and exceptions

    A method runs on a state, may change it, and either returns or raises;
    the changes made before an exception stay. *)

Definition M (S A : Type) : Type := S -> S * result A.

Definition ret {S A} (a : A) : M S A := fun s => (s, Ok a).

Definition raise {S A} (e : exn) : M S A := fun s => (s, Raise e).

Definition bindM {S A B} (m : M S A) (k : A -> M S B) : M S B :=
  fun s =>
    match m s with
    | (s', Ok a) => k a s'
    | (s', Raise e) => (s', Raise e)
    end.

Declare Scope M_scope.
Delimit Scope M_scope with M.
Notation "x <- m ;; k" := (bindM m (fun x => k))
  (at level 100, m at level 99, k at level 200, right associativity,
   only parsing) : M_scope.
Notation "m ;; k" := (bindM m (fun _ => k))
  (at level 100, k at level 200, right associativity, only parsing) : M_scope.

Definition get {S} : M S S := fun s => (s, Ok s).

Definition modify {S} (f : S -> S) : M S unit := fun s => (f s, Ok tt).

Definition lift {S A} (r : result A) : M S A := fun s => (s, r).

(** [try: body finally: fin] *)
Definition try_finally {S A} (body : M S A) (fin : M S unit) : M S A :=
  fun s =>
    let '(s1, r) := body s in
    match fin s1 with
    | (s2, Ok _) => (s2, r)
    | (s2, Raise e) => (s2, Raise e)
    end.

(** [try: body except <class> as e: handler]; [caught] tells which
    exceptions belong to the class. *)
Definition try_except {S A} (caught : exn -> bool) (body : M S A)
    (handler : exn -> M S A) : M S A :=
  fun s =>
    match body s with
    | (s1, Ok a) => (s1, Ok a)
    | (s1, Raise e) => if caught e then handler e s1 else (s1, Raise e)
    end.

(** [for x in xs: body x]; a [break] or [continue] is written in the body
    of the loops that have one. *)
Fixpoint for_each {S A} (xs : list A) (body : A -> M S unit) : M S unit :=
  match xs with
  | [] => ret tt
  | x :: xs' => (body x ;; for_each xs' body)%M
  end.

(** ** Rows

    Columns that Django fills by itself ([date_create], [date_modify]) and
    the columns that only the admin and the templates read are left out. *)

(** [AUTH_USER_MODEL]: the e-mail address is all the models read of it. *)
Record user := { user_email : text }.

Record newsletter := {
  nl_pk : positive;
  nl_slug : text;
  nl_email : text;
  nl_sender : text
}.

(** An in-memory [Subscription]; [sub_pk] is [None] until the first save.
    [sub_user] is the foreign key to the linked account. *)
Record subscription := {
  sub_pk : option positive;
  sub_user : option positive;
  sub_name_field : option text;
  sub_email_field : option text;
  sub_newsletter : positive;
  sub_subscribed : bool;
  sub_subscribe_date : option Z;
  sub_unsubscribed : bool;
  sub_unsubscribe_date : option Z
}.

Record bounce := {
  bn_subscription : positive;
  bn_hard : bool;
  bn_status_code : text;
  bn_content : text
}.

Record message := {
  msg_pk : option positive;
  msg_title : text;
  msg_slug : text;
  msg_newsletter : option positive
}.

Record submission := {
  sm_pk : option positive;
  sm_newsletter : option positive;
  sm_message : option positive;
  sm_publish_date : option Z;
  sm_publish : bool;
  sm_prepared : bool;
  sm_sent : bool;
  sm_sending : bool
}.

(** ** The database *)

Record DB := {
  users : gmap positive user;
  newsletters : list newsletter;          (* in the table's default order *)
  subscriptions : gmap positive subscription;
  bounces : list bounce;                  (* rows in order of creation *)
  messages : gmap positive message;
  submissions : gmap positive submission;
  (* the many-to-many table behind [Submission.subscriptions] *)
  submission_subscriptions : list (positive * positive)
}.

Definition set_subscriptions (t : gmap positive subscription) (d : DB) : DB :=
  {| users := users d; newsletters := newsletters d; subscriptions := t;
     bounces := bounces d; messages := messages d;
     submissions := submissions d;
     submission_subscriptions := submission_subscriptions d |}.

Definition set_bounces (t : list bounce) (d : DB) : DB :=
  {| users := users d; newsletters := newsletters d;
     subscriptions := subscriptions d; bounces := t; messages := messages d;
     submissions := submissions d;
     submission_subscriptions := submission_subscriptions d |}.

Definition set_messages (t : gmap positive message) (d : DB) : DB :=
  {| users := users d; newsletters := newsletters d;
     subscriptions := subscriptions d; bounces := bounces d; messages := t;
     submissions := submissions d;
     submission_subscriptions := submission_subscriptions d |}.

Definition set_submissions (t : gmap positive submission) (d : DB) : DB :=
  {| users := users d; newsletters := newsletters d;
     subscriptions := subscriptions d; bounces := bounces d;
     messages := messages d; submissions := t;
     submission_subscriptions := submission_subscriptions d |}.

(** The rows of a table, in the order a query without [order_by] yields
    them. *)
Definition rows {A} (t : gmap positive A) : list A := (map_to_list t).*2.

(** ** Parsed mail

    [EmailParser().parsestr] is the standard library's; the scan reads its
    result through [msgobj[name]], [name in msgobj], [get_content_type()]
    and [walk()]. *)

Inductive email :=
| Email (headers : list (text * text)) (content_type : text)
        (payload : list email).

Definition headers_of (m : email) : list (text * text) :=
  match m with Email hs _ _ => hs end.

Definition get_content_type (m : email) : text :=
  match m with Email _ ct _ => ct end.

(** [msgobj[name]]: the first header of that name, names compared without
    regard to case; [None] when there is none. *)
Definition header (name : text) (m : email) : option text :=
  snd <$> (snd <$> list_find (fun h => iequal h.1 name = true) (headers_of m)).

(** [name in msgobj] *)
Definition has_header (name : text) (m : email) : bool :=
  bool_decide (is_Some (header name m)).

(** [msgobj.walk()]: the message, then its parts, depth first. *)
Fixpoint walk (m : email) : list email :=
  match m with
  | Email _ _ ps => m :: flat_map walk ps
  end.

(** ** The environment: settings and collaborators *)

(** [settings.BOUNCE_ACCOUNT]; only the ['email'] key is optional. *)
Record bounce_account := {
  ba_host : text;
  ba_port : text;
  ba_username : text;
  ba_password : text;
  ba_use_ssl : bool;
  ba_email : option text
}.

(** What the IMAP server answers for one message of the inbox. *)
Inductive fetched :=
| FetchRaises                               (* [imaplib.IMAP4.error] *)
| FetchEmpty                                (* no data *)
| Fetched (raw : text) (msgobj : email).    (* the bytes and their parse *)

Inductive copied :=
| CopyRaises
| CopyRefused                               (* a status other than 'OK' *)
| CopyOK.

(** [conn.store(num, '+FLAGS', r'\Deleted')]: its status is not read. *)
Inductive stored :=
| StoreRaises
| StoreRefused                              (* answered, flag not set *)
| StoreOK.

Record imap_message := {
  im_num : nat;
  im_fetch : fetched;
  im_copy : copied;
  im_store : stored
}.

(** The mailbox as the scan meets it.  The commands whose outcome the
    scan depends on have one here: [login], the first [select], and for
    each message [fetch], [copy] and [store].  The settings are taken to
    be complete, the connection to be made, and [create], the second
    [select], [search], [expunge], [close] and [logout] to be answered. *)
Record imap_server := {
  login_ok : bool;
  archive_exists : bool;
  inbox : list imap_message
}.

Record Env := {
  (* the successive readings of [now()] *)
  clock : nat -> Z;
  BOUNCE_ACCOUNT : option bounce_account;
  (* rendering the templates for one recipient: the exception, if any *)
  render : submission -> subscription -> option exn;
  (* [message.send()] for one recipient: the exception, if any *)
  transport : subscription -> option exn;
  (* the mailbox behind [conn] *)
  conn : imap_server
}.

(** ** The world: the database and what the process did to the outside *)

Inductive event :=
| CallSubmit (self : submission)
| CallCheckBounces
| MailSend (to : subscription)              (* [message.send()] was called *)
| LogError (e : exn)
| ImapCreate                                (* archive folder created *)
| ImapCopy (num : nat)                      (* copied to the archive folder *)
| ImapDeleted (num : nat)                   (* flagged [\Deleted] *)
| ImapExpunge.

Record World := {
  db : DB;
  trace : list event;                       (* oldest event first *)
  ticks : nat                               (* readings of the clock so far *)
}.

Definition set_db (d : DB) (w : World) : World :=
  {| db := d; trace := trace w; ticks := ticks w |}.

Definition emit_w (e : event) (w : World) : World :=
  {| db := db w; trace := trace w ++ [e]; ticks := ticks w |}.

Definition tick (w : World) : World :=
  {| db := db w; trace := trace w; ticks := S (ticks w) |}.

(** A method of a model instance runs on the world and the instance. *)
Abbreviation Method O A := (M (World * O) A).

Definition self {O} : Method O O := fun s => (s, Ok s.2).

Definition world {O} : Method O World := fun s => (s, Ok s.1).

Definition set_self {O} (f : O -> O) : Method O unit :=
  fun s => ((s.1, f s.2), Ok tt).

Definition set_world {O} (f : World -> World) : Method O unit :=
  fun s => ((f s.1, s.2), Ok tt).

Definition emit {O} (e : event) : Method O unit := set_world (emit_w e).

(** [now()] *)
Definition now {O} (env : Env) : Method O Z :=
  fun s => ((tick s.1, s.2), Ok (clock env (ticks s.1))).

(** Calling a method of [obj] from code that holds no instance. *)
Definition call {O A} (obj : O) (m : Method O A) : M World A :=
  fun w => let '((w', _), r) := m (w, obj) in (w', r).


(** ** [Newsletter] and the suppression query *)

Module SubscribedQuerySet.

(** [annotate] joins the bounce table with a LEFT OUTER JOIN: one joined
    row per bounce of the subscription, or a single row of NULLs when it
    has none. *)
Definition join_bounces (bs : list bounce) (s : subscription)
    : list (option bounce) :=
  match filter (fun b => Some (bn_subscription b) = sub_pk s) bs with
  | [] => [None]
  | l => Some <$> l
  end.

(** [Case(When(bounce__hard=True, then=1), default=0)] on a joined row. *)
Definition case_hard (row : option bounce) : option Z :=
  match row with
  | Some b => if bn_hard b then Some 1 else Some 0
  | None => Some 0
  end.

(** SQL [SUM]: NULL values are skipped, and the sum of no value is NULL. *)
Definition sql_sum (vs : list (option Z)) : option Z :=
  match omap id vs with
  | [] => None
  | l => Some (foldr Z.add 0 l)
  end.

Definition num_hard_bounces (bs : list bounce) (s : subscription)
    : option Z :=
  sql_sum (case_hard <$> join_bounces bs s).

(** [self.annotate(num_hard_bounces=Sum(...)).filter(subscribed=True,
    num_hard_bounces=0)] *)
Definition subscribed (bs : list bounce) (qs : list subscription)
    : list subscription :=
  filter (fun s => sub_subscribed s = true ∧ num_hard_bounces bs s = Some 0)
         qs.

End SubscribedQuerySet.

Module Newsletter.

(** [cls.objects.all()[0]], [None] on [IndexError] *)
Definition get_default (d : DB) : option newsletter := head (newsletters d).

(** [Subscription.objects.filter(newsletter=self).subscribed()] *)
Definition get_subscriptions (d : DB) (nl : newsletter)
    : list subscription :=
  SubscribedQuerySet.subscribed (bounces d)
    (filter (fun s => sub_newsletter s = nl_pk nl) (rows (subscriptions d))).

End Newsletter.

(** ** [Subscription] *)

Module Subscription.

Definition with_pk (k : positive) (s : subscription) : subscription :=
  {| sub_pk := Some k; sub_user := sub_user s;
     sub_name_field := sub_name_field s;
     sub_email_field := sub_email_field s;
     sub_newsletter := sub_newsletter s;
     sub_subscribed := sub_subscribed s;
     sub_subscribe_date := sub_subscribe_date s;
     sub_unsubscribed := sub_unsubscribed s;
     sub_unsubscribe_date := sub_unsubscribe_date s |}.

Definition with_subscribed (b : bool) (s : subscription) : subscription :=
  {| sub_pk := sub_pk s; sub_user := sub_user s;
     sub_name_field := sub_name_field s;
     sub_email_field := sub_email_field s;
     sub_newsletter := sub_newsletter s;
     sub_subscribed := b;
     sub_subscribe_date := sub_subscribe_date s;
     sub_unsubscribed := sub_unsubscribed s;
     sub_unsubscribe_date := sub_unsubscribe_date s |}.

Definition with_unsubscribed (b : bool) (s : subscription) : subscription :=
  {| sub_pk := sub_pk s; sub_user := sub_user s;
     sub_name_field := sub_name_field s;
     sub_email_field := sub_email_field s;
     sub_newsletter := sub_newsletter s;
     sub_subscribed := sub_subscribed s;
     sub_subscribe_date := sub_subscribe_date s;
     sub_unsubscribed := b;
     sub_unsubscribe_date := sub_unsubscribe_date s |}.

Definition with_subscribe_date (t : Z) (s : subscription) : subscription :=
  {| sub_pk := sub_pk s; sub_user := sub_user s;
     sub_name_field := sub_name_field s;
     sub_email_field := sub_email_field s;
     sub_newsletter := sub_newsletter s;
     sub_subscribed := sub_subscribed s;
     sub_subscribe_date := Some t;
     sub_unsubscribed := sub_unsubscribed s;
     sub_unsubscribe_date := sub_unsubscribe_date s |}.

Definition with_unsubscribe_date (t : Z) (s : subscription) : subscription :=
  {| sub_pk := sub_pk s; sub_user := sub_user s;
     sub_name_field := sub_name_field s;
     sub_email_field := sub_email_field s;
     sub_newsletter := sub_newsletter s;
     sub_subscribed := sub_subscribed s;
     sub_subscribe_date := sub_subscribe_date s;
     sub_unsubscribed := sub_unsubscribed s;
     sub_unsubscribe_date := Some t |}.

(** [self.user] as a truth value: an instance is true, [None] false. *)
Definition has_user (s : subscription) : bool :=
  bool_decide (is_Some (sub_user s)).

(** [self.email_field] as a truth value. *)
Definition has_email (s : subscription) : bool :=
  otruthy (sub_email_field s).

Definition _subscribe (env : Env) : Method subscription unit :=
  (t <- now env ;;
   set_self (with_subscribe_date t) ;;
   set_self (with_subscribed true) ;;
   set_self (with_unsubscribed false))%M.

Definition _unsubscribe (env : Env) : Method subscription unit :=
  (set_self (with_subscribed false) ;;
   set_self (with_unsubscribed true) ;;
   t <- now env ;;
   set_self (with_unsubscribe_date t))%M.

(** [Subscription.objects.filter(pk=k).count()]: the table is keyed by
    the primary key. *)
Definition count_pk (d : DB) (k : positive) : nat :=
  length (option_list (subscriptions d !! k)).

(** [Subscription.objects.get(pk=k)] *)
Definition objects_get (d : DB) (k : positive) : result subscription :=
  match subscriptions d !! k with
  | Some r => Ok r
  | None => Raise DoesNotExist
  end.

(** The columns the database constrains: the three of
    [unique_together = ('user', 'email_field', 'newsletter')], two of
    them foreign keys. *)
Definition identity (s : subscription)
    : option positive * option text * positive :=
  (sub_user s, sub_email_field s, sub_newsletter s).

(** Two rows clash on [unique_together] when they agree on the three
    columns and none of the values is NULL: to SQL a NULL is equal to
    nothing. *)
Definition clashes (i j : option positive * option text * positive) : bool :=
  bool_decide (i = j) &&
  bool_decide (is_Some i.1.1) && bool_decide (is_Some i.1.2).

(** What the database holds against a row with the columns [i] written
    under the key [k]: another row that clashes with it, a [newsletter]
    that is no row of its table, a [user] that is no row of its table. *)
Definition violates (d : DB) (k : positive)
    (i : option positive * option text * positive) : bool :=
  bool_decide (∃ j r, subscriptions d !! j = Some r ∧ j ≠ k ∧
                      clashes i (identity r) = true)
  || bool_decide (Forall (fun nl => nl_pk nl ≠ i.2) (newsletters d))
  || match i.1.1 with
     | Some u => negb (bool_decide (is_Some (users d !! u)))
     | None => false
     end.

(** The rows of the table have been accepted by the database, so an
    UPDATE that leaves the constrained columns of its row as they are is
    accepted; an INSERT, and an UPDATE that changes them, is checked. *)
Definition refused (d : DB) (k : positive)
    (i : option positive * option text * positive) : bool :=
  match subscriptions d !! k with
  | Some r => if bool_decide (identity r = i) then false else violates d k i
  | None => violates d k i
  end.

(** [super(Subscription, self).save()]: a new instance gets the next
    unused key, an existing one overwrites its row; a row the database
    refuses raises [IntegrityError] and nothing is written. *)
Definition base_save : Method subscription unit :=
  fun '(w, s) =>
    let t := subscriptions (db w) in
    let k := default (fresh (dom t)) (sub_pk s) in
    let s' := with_pk k s in
    if refused (db w) k (identity s) then ((w, s), Raise IntegrityError)
    else ((set_db (set_subscriptions (<[k := s']> t) (db w)) w, s'), Ok tt).

Arguments identity : simpl never.
Arguments refused : simpl never.

Definition save (env : Env) : Method subscription unit :=
  (s <- self ;;
   lift (assert (has_user s || has_email s)) ;;
   lift (assert ((has_user s && negb (has_email s)) ||
                 (has_email s && negb (has_user s)))) ;;
   match sub_pk s with
   | Some k =>
       w <- world ;;
       lift (assert (bool_decide (count_pk (db w) k = 1%nat))) ;;
       subscription <- lift (objects_get (db w) k) ;;
       let old_subscribed := sub_subscribed subscription in
       let old_unsubscribed := sub_unsubscribed subscription in
       if (sub_subscribed s && negb old_subscribed) ||
          (old_unsubscribed && negb (sub_unsubscribed s))
       then
         _subscribe env ;;
         s1 <- self ;;
         lift (assert (negb (sub_unsubscribed s1))) ;;
         lift (assert (sub_subscribed s1))
       else if (sub_unsubscribed s && negb old_unsubscribed) ||
               (old_subscribed && negb (sub_subscribed s))
       then
         _unsubscribe env ;;
         s1 <- self ;;
         lift (assert (negb (sub_subscribed s1))) ;;
         lift (assert (sub_unsubscribed s1))
       else ret tt
   | None =>
       if sub_subscribed s then _subscribe env
       else if sub_unsubscribed s then _unsubscribe env
       else ret tt
   end ;;
   base_save)%M.

Definition update (env : Env) (action : text) : Method subscription unit :=
  (lift (assert (bool_decide
      (action ∈ [txt "subscribe"; txt "update"; txt "unsubscribe"]))) ;;
   (if bool_decide (action = txt "subscribe") ||
       bool_decide (action = txt "update")
    then set_self (with_subscribed true)
    else set_self (with_unsubscribed true)) ;;
   save env)%M.

End Subscription.

(** ** [Message] *)

Module Message.

Definition with_pk (k : positive) (m : message) : message :=
  {| msg_pk := Some k; msg_title := msg_title m; msg_slug := msg_slug m;
     msg_newsletter := msg_newsletter m |}.

Definition with_newsletter (n : option positive) (m : message) : message :=
  {| msg_pk := msg_pk m; msg_title := msg_title m; msg_slug := msg_slug m;
     msg_newsletter := n |}.

(** The columns of [unique_together = ('slug', 'newsletter')], the
    second a foreign key. *)
Definition identity (m : message) : text * option positive :=
  (msg_slug m, msg_newsletter m).

(** What the database holds against a row with the columns [i] written
    under the key [k]: another row with the same slug in the same
    newsletter, or a newsletter that is no row of its table. *)
Definition violates (d : DB) (k : positive) (i : text * option positive)
    : bool :=
  bool_decide (∃ j r, messages d !! j = Some r ∧ j ≠ k ∧ identity r = i)
  || match i.2 with
     | Some n => bool_decide (Forall (fun nl => nl_pk nl ≠ n) (newsletters d))
     | None => false
     end.

(** As for subscriptions, an UPDATE that leaves the constrained columns
    of its row as they are is accepted. *)
Definition refused (d : DB) (k : positive) (i : text * option positive)
    : bool :=
  match messages d !! k with
  | Some r => if bool_decide (identity r = i) then false else violates d k i
  | None => violates d k i
  end.

(** [super(Message, self).save()]; the [newsletter] column is declared
    without [null=True], so a row without one is refused, and so is a row
    that breaks [unique_together] or names no newsletter.  The columns
    [date_create] and [date_modify] are left out, their readings of the
    clock with them. *)
Definition base_save : Method message unit :=
  fun '(w, m) =>
    match msg_newsletter m with
    | None => ((w, m), Raise IntegrityError)
    | Some _ =>
        let t := messages (db w) in
        let k := default (fresh (dom t)) (msg_pk m) in
        let m' := with_pk k m in
        if refused (db w) k (identity m) then ((w, m), Raise IntegrityError)
        else ((set_db (set_messages (<[k := m']> t) (db w)) w, m'), Ok tt)
    end.

Arguments identity : simpl never.
Arguments refused : simpl never.

Definition save : Method message unit :=
  (m <- self ;;
   match msg_pk m with
   | None =>
       w <- world ;;
       set_self (with_newsletter (nl_pk <$> Newsletter.get_default (db w)))
   | Some _ => ret tt
   end ;;
   base_save)%M.

End Message.

(** ** The bounce scan: [check_bounces] *)

Definition DELIVERY_STATUS : text := txt "message/delivery-status".
Definition RFC822 : text := txt "rfc822;".

(** One turn of the loop over [part.walk()], up to its [break] test. *)
Definition scan_subpart (st : option text * option text) (subpart : email)
    : option text * option text :=
  let '(addr, status) := st in
  let addr :=
    if negb (otruthy addr) then
      let addr :=
        if has_header (txt "Original-Recipient") subpart
        then strip <$> header (txt "Original-Recipient") subpart
        else if has_header (txt "Final-Recipient") subpart
        then strip <$> header (txt "Final-Recipient") subpart
        else addr in
      match addr with
      | Some a =>
          if truthy a && contains RFC822 a
          then Some (remove_all RFC822 a) else addr
      | None => addr
      end
    else addr in
  let status :=
    if has_header (txt "Status") subpart
    then header (txt "Status") subpart
    else status in
  (addr, status).

(** [for subpart in part.walk(): ...; if addr and status: break] *)
Fixpoint scan_subparts (st : option text * option text)
    (subparts : list email) : option text * option text :=
  match subparts with
  | [] => st
  | subpart :: rest =>
      let st' := scan_subpart st subpart in
      if otruthy st'.1 && otruthy st'.2 then st'
      else scan_subparts st' rest
  end.

(** The outer loop stops at the first part of type
    [message/delivery-status]. *)
Definition scan_parts (addr : option text) (msgobj : email)
    : option text * option text :=
  match list_find (fun part => get_content_type part = DELIVERY_STATUS)
                  (walk msgobj) with
  | Some (_, part) => scan_subparts (addr, None) (walk part)
  | None => (addr, None)
  end.

(** [verp_re.match(ndr_to)] and the address built from it; matching
    [None], the value of a missing header, raises [TypeError]. *)
Definition verp_address (ndr_to : option text) : result (option text) :=
  match ndr_to with
  | None => Raise TypeError
  | Some s => Ok (Verp.recipient <$> Verp.decode s)
  end.

(** Address and status of one parsed message. *)
Definition recover (msgobj : email) : result (option text * option text) :=
  addr ← verp_address (header (txt "To") msgobj);
  Ok (scan_parts addr msgobj).

(** [Subscription.objects.filter(Q(user__email__iexact=addr) |
    Q(email_field__iexact=addr))] *)
Definition matches_address (d : DB) (addr : text) (s : subscription) : bool :=
  match sub_user s with
  | Some k =>
      match users d !! k with
      | Some u => iequal (user_email u) addr
      | None => false
      end
  | None => false
  end
  || match sub_email_field s with
     | Some e => iequal e addr
     | None => false
     end.

Definition subscriptions_for (d : DB) (addr : text) : list subscription :=
  filter (fun s => matches_address d addr s = true) (rows (subscriptions d)).

(** [Bounce.objects.create(subscription=subscr, hard=hard,
    status_code=status, content=data[0][1])]: a subscription without a key
    cannot be referred to; [date_create] is declared [auto_now_add], so
    the clock is read once for the row. *)
Definition create_bounce (subscr : subscription) (status raw : text)
    : M World unit :=
  match sub_pk subscr with
  | Some k =>
      let hard := is_hard status in
      modify (fun w =>
        tick (set_db (set_bounces
                        (bounces (db w) ++
                         [{| bn_subscription := k; bn_hard := hard;
                             bn_status_code := status; bn_content := raw |}])
                        (db w)) w))
  | None => raise ValueError
  end.

(** The body of the loop over the message numbers of the inbox. *)
Definition handle_message (m : imap_message) : M World unit :=
  match im_fetch m with
  | FetchRaises => raise IMAPError
  | FetchEmpty => ret tt
  | Fetched raw msgobj =>
      (r <- lift (recover msgobj) ;;
       match r with
       | (Some addr, Some status) =>
           if negb (truthy addr) || negb (truthy status) then ret tt
           else
             w <- get ;;
             for_each (subscriptions_for (db w) addr)
                      (fun subscr => create_bounce subscr status raw) ;;
             match im_copy m with
             | CopyRaises => raise IMAPError
             | CopyRefused => ret tt
             | CopyOK =>
                 modify (emit_w (ImapCopy (im_num m))) ;;
                 match im_store m with
                 | StoreRaises => raise IMAPError
                 | StoreRefused => ret tt
                 | StoreOK => modify (emit_w (ImapDeleted (im_num m)))
                 end
             end
       | _ => ret tt
       end)%M
  end.

Definition is_imap_error (e : exn) : bool :=
  match e with IMAPError => true | _ => false end.

(** [check_bounces]: nothing is done without [settings.BOUNCE_ACCOUNT];
    the [except] clause catches [imaplib.IMAP4.error] and no other
    exception. *)
Definition check_bounces (env : Env) : M World unit :=
  (modify (emit_w CallCheckBounces) ;;
   match BOUNCE_ACCOUNT env with
   | None => ret tt
   | Some _ =>
       try_except is_imap_error
         ((if login_ok (conn env) then ret tt else raise IMAPError) ;;
          (if archive_exists (conn env) then ret tt
           else modify (emit_w ImapCreate)) ;;
          for_each (inbox (conn env)) handle_message ;;
          modify (emit_w ImapExpunge))
         (fun e => modify (emit_w (LogError e)))
   end)%M.

(** ** [Submission] *)

Module Submission.

Definition with_pk (k : positive) (s : submission) : submission :=
  {| sm_pk := Some k; sm_newsletter := sm_newsletter s;
     sm_message := sm_message s; sm_publish_date := sm_publish_date s;
     sm_publish := sm_publish s; sm_prepared := sm_prepared s;
     sm_sent := sm_sent s; sm_sending := sm_sending s |}.

Definition with_newsletter (n : positive) (s : submission) : submission :=
  {| sm_pk := sm_pk s; sm_newsletter := Some n;
     sm_message := sm_message s; sm_publish_date := sm_publish_date s;
     sm_publish := sm_publish s; sm_prepared := sm_prepared s;
     sm_sent := sm_sent s; sm_sending := sm_sending s |}.

Definition with_sent (b : bool) (s : submission) : submission :=
  {| sm_pk := sm_pk s; sm_newsletter := sm_newsletter s;
     sm_message := sm_message s; sm_publish_date := sm_publish_date s;
     sm_publish := sm_publish s; sm_prepared := sm_prepared s;
     sm_sent := b; sm_sending := sm_sending s |}.

Definition with_sending (b : bool) (s : submission) : submission :=
  {| sm_pk := sm_pk s; sm_newsletter := sm_newsletter s;
     sm_message := sm_message s; sm_publish_date := sm_publish_date s;
     sm_publish := sm_publish s; sm_prepared := sm_prepared s;
     sm_sent := sm_sent s; sm_sending := b |}.

(** [self.message.newsletter]: both foreign keys are followed, the
    message row and then the newsletter row are read; a key that is not
    set, or that points to no row, raises [DoesNotExist].  The result is
    the key of the newsletter found. *)
Definition message_newsletter (d : DB) (s : submission) : result positive :=
  match sm_message s with
  | Some k =>
      match messages d !! k with
      | Some m =>
          match msg_newsletter m with
          | Some n =>
              match list_find (fun nl => nl_pk nl = n) (newsletters d) with
              | Some _ => Ok n
              | None => Raise DoesNotExist
              end
          | None => Raise DoesNotExist
          end
      | None => Raise DoesNotExist
      end
  | None => Raise DoesNotExist
  end.

(** [super(Submission, self).save()] *)
Definition base_save : Method submission unit :=
  fun '(w, s) =>
    let t := submissions (db w) in
    let k := default (fresh (dom t)) (sm_pk s) in
    let s' := with_pk k s in
    ((set_db (set_submissions (<[k := s']> t) (db w)) w, s'), Ok tt).

(** [save]: a model instance is always true, so the [assert] on
    [self.message.newsletter] can only fail by the lookup raising. *)
Definition save : Method submission unit :=
  (s <- self ;;
   w <- world ;;
   n <- lift (message_newsletter (db w) s) ;;
   set_self (with_newsletter n) ;;
   base_save)%M.

(** [self.subscriptions]: the subscriptions linked to the submission,
    which has to be saved for the relation to be readable. *)
Definition linked (d : DB) (k : positive) : list subscription :=
  omap (fun '(sm, sb) =>
          if bool_decide (sm = k) then subscriptions d !! sb else None)
       (submission_subscriptions d).

(** [self.subscriptions.subscribed()], evaluated on the database [d]. *)
Definition recipients (d : DB) (k : positive) : list subscription :=
  SubscribedQuerySet.subscribed (bounces d) (linked d k).

(** [message.send()] *)
Definition message_send (env : Env) (subscription : subscription)
    : Method submission unit :=
  (emit (MailSend subscription) ;;
   match transport env subscription with
   | Some e => raise e
   | None => ret tt
   end)%M.

(** [send_message]: the message is rendered and built outside the [try],
    only [message.send()] is inside it. *)
Definition send_message (env : Env) (subscription : subscription)
    : Method submission unit :=
  (s <- self ;;
   match render env s subscription with
   | Some e => raise e
   | None => ret tt
   end ;;
   try_except (fun _ => true)
     (message_send env subscription)
     (fun e => emit (LogError e)))%M.

(** [self.publish_date < now()]; comparing [None] with a date raises
    [TypeError]. *)
Definition date_lt (d : option Z) (t : Z) : result bool :=
  match d with
  | Some d => Ok (bool_decide (d < t))
  | None => Raise TypeError
  end.

Definition submit (env : Env) : Method submission unit :=
  (s <- self ;;
   emit (CallSubmit s) ;;
   k <- lift (match sm_pk s with
              | Some k => Ok k
              | None => Raise ValueError
              end) ;;
   t <- now env ;;
   b <- lift (date_lt (sm_publish_date s) t) ;;
   lift (assert b) ;;
   set_self (with_sending true) ;;
   save ;;
   try_finally
     (w <- world ;;
      for_each (recipients (db w) k) (send_message env) ;;
      set_self (with_sent true))
     (set_self (with_sending false) ;;
      save))%M.

(** The rows picked by [cls.objects.filter(prepared=True, sent=False,
    sending=False, publish_date__lt=t)]; a NULL date is never picked. *)
Definition due (t : Z) (s : submission) : bool :=
  sm_prepared s && negb (sm_sent s) && negb (sm_sending s) &&
  match sm_publish_date s with
  | Some d => bool_decide (d < t)
  | None => false
  end.

Definition submit_queue (env : Env) : M World unit :=
  (t <- call tt (now env) ;;
   w <- get ;;
   let todo :=
     filter (fun s => due t s = true) (rows (submissions (db w))) in
   for_each todo (fun submission => call submission (submit env)) ;;
   check_bounces env)%M.

End Submission.

(** ** Reading a trace *)

(** The recipients [message.send()] was called for, in order. *)
Definition sends (tr : list event) : list subscription :=
  omap (fun e => match e with MailSend to => Some to | _ => None end) tr.

(** The errors written to the log, in order. *)
Definition logged (tr : list event) : list exn :=
  omap (fun e => match e with LogError x => Some x | _ => None end) tr.

(** The calls of [submit] and [check_bounces], in order. *)
Definition is_call (e : event) : bool :=
  match e with
  | CallSubmit _ | CallCheckBounces => true
  | _ => false
  end.

Definition calls (tr : list event) : list event :=
  filter (fun e => is_call e = true) tr.

(** A row created for the subscriptions [subs] out of the mail [raw] and
    its status [status]. *)
Definition created_for (subs : list subscription) (status raw : text)
    (b : bounce) : Prop :=
  bn_hard b = is_hard status ∧ bn_status_code b = status ∧
  bn_content b = raw ∧
  ∃ subscr, subscr ∈ subs ∧ sub_pk subscr = Some (bn_subscription b).

(** What the scan does to a non-empty recipient field: every "rfc822;" in
    it is cut out. *)
Definition cut_rfc822 (a : text) : text :=
  if truthy a && contains RFC822 a then remove_all RFC822 a else a.

(** ** The specification's own words, for comparison with the code *)

(** The hard bounces associated with a subscription. *)
Definition hard_bounces (bs : list bounce) (s : subscription) : list bounce :=
  filter (fun b => bn_hard b = true)
         (filter (fun b => Some (bn_subscription b) = sub_pk s) bs).

(** "Subscribed, and the count of associated hard bounces is zero." *)
Definition sendable (bs : list bounce) (s : subscription) : Prop :=
  sub_subscribed s = true ∧ length (hard_bounces bs s) = 0%nat.

(** ** Sample data *)

Module Sample.

Definition nl1 : newsletter :=
  {| nl_pk := 1; nl_slug := txt "news"; nl_email := txt "news@example.net";
     nl_sender := txt "News" |}.

Definition nl2 : newsletter :=
  {| nl_pk := 2; nl_slug := txt "other";
     nl_email := txt "other@example.net"; nl_sender := txt "Other" |}.

Definition sub (k : positive) (e : string) : subscription :=
  {| sub_pk := Some k; sub_user := None; sub_name_field := None;
     sub_email_field := Some (txt e); sub_newsletter := 1;
     sub_subscribed := true; sub_subscribe_date := Some 5;
     sub_unsubscribed := false; sub_unsubscribe_date := None |}.

(** A subscription not saved yet, with an e-mail address only. *)
Definition new_sub : subscription :=
  {| sub_pk := None; sub_user := None; sub_name_field := None;
     sub_email_field := Some (txt "dan@example.org"); sub_newsletter := 1;
     sub_subscribed := false; sub_subscribe_date := None;
     sub_unsubscribed := false; sub_unsubscribe_date := None |}.

(** The same with a linked account as well, and with no identity. *)
Definition both_sub : subscription :=
  {| sub_pk := None; sub_user := Some 1%positive; sub_name_field := None;
     sub_email_field := Some (txt "dan@example.org"); sub_newsletter := 1;
     sub_subscribed := false; sub_subscribe_date := None;
     sub_unsubscribed := false; sub_unsubscribe_date := None |}.



(** One for a newsletter that does not exist. *)
Definition stray_sub : subscription :=
  {| sub_pk := None; sub_user := None; sub_name_field := None;
     sub_email_field := Some (txt "dan@example.org"); sub_newsletter := 9;
     sub_subscribed := false; sub_subscribe_date := None;
     sub_unsubscribed := false; sub_unsubscribe_date := None |}.

Definition msg1 : message :=
  {| msg_pk := Some 1%positive; msg_title := txt "Issue 1";
     msg_slug := txt "issue-1"; msg_newsletter := Some 1%positive |}.

(** A message not saved yet, built for the second newsletter. *)
Definition new_msg : message :=
  {| msg_pk := None; msg_title := txt "Issue 2";
     msg_slug := txt "issue-2"; msg_newsletter := Some 2%positive |}.

(** Another one, built for the second newsletter with the slug that the
    first message has in the first. *)
Definition clashing_msg : message :=
  {| msg_pk := None; msg_title := txt "Issue 1, again";
     msg_slug := txt "issue-1"; msg_newsletter := Some 2%positive |}.

Definition sm (k : positive) (date : Z) (prepared : bool) : submission :=
  {| sm_pk := Some k; sm_newsletter := Some 1%positive;
     sm_message := Some 1%positive; sm_publish_date := Some date;
     sm_publish := true; sm_prepared := prepared; sm_sent := false;
     sm_sending := false |}.

(** Three subscribers of one newsletter, one message and three
    submissions of it: one due, one not prepared, one dated in the
    future. *)
Definition db0 : DB :=
  {| users := {[ 1%positive := {| user_email := txt "eve@example.org" |} ]};
     newsletters := [nl1; nl2];
     subscriptions :=
       <[1%positive := sub 1 "ann@example.org"]>
         (<[2%positive := sub 2 "bob@example.org"]>
            (<[3%positive := sub 3 "cat@example.org"]> ∅));
     bounces := [];
     messages := {[ 1%positive := msg1 ]};
     submissions :=
       <[1%positive := sm 1 10 true]>
         (<[2%positive := sm 2 10 false]>
            (<[3%positive := sm 3 1000 true]> ∅));
     submission_subscriptions :=
       [(1, 1); (1, 2); (1, 3); (3, 1)]%positive |}.

Definition w0 : World := {| db := db0; trace := []; ticks := 0 |}.

(** The same after two bounces: a hard one for the second subscriber, a
    soft one (mailbox full) for the third. *)
Definition db1 : DB :=
  set_bounces
    [ {| bn_subscription := 2; bn_hard := true;
         bn_status_code := txt "5.1.1"; bn_content := txt "raw" |};
      {| bn_subscription := 3; bn_hard := false;
         bn_status_code := txt "5.2.2"; bn_content := txt "raw" |} ]
    db0.

(** A delivery-status notification for [bob@example.org], with and
    without a [To] header. *)
Definition dsn (hs : list (text * text)) : email :=
  Email hs (txt "multipart/report")
    [ Email [] (txt "text/plain") [];
      Email [] DELIVERY_STATUS
        [ Email [(txt "Reporting-MTA", txt "dns; mx.example.org")]
                (txt "text/plain") [];
          Email [(txt "Final-Recipient", txt "rfc822;bob@example.org");
                 (txt "Status", txt "5.1.1")]
                (txt "text/plain") [] ] ].

Definition dsn_verp : email :=
  dsn [(txt "To", txt "bounce+bob=example.org@example.net")].

Definition dsn_plain : email :=
  dsn [(txt "To", txt "bounce@example.net")].

Definition dsn_no_to : email :=
  dsn [(txt "From", txt "MAILER-DAEMON@mx.example.org")].

(** A mail that is no bounce at all. *)
Definition not_a_bounce : email :=
  Email [(txt "To", txt "bounce@example.net")] (txt "text/plain") [].

Definition account : bounce_account :=
  {| ba_host := txt "imap.example.net"; ba_port := txt "143";
     ba_username := txt "bounce"; ba_password := txt "secret";
     ba_use_ssl := false; ba_email := Some (txt "bounce@example.net") |}.

Definition server (msgs : list email) : imap_server :=
  {| login_ok := true; archive_exists := true;
     inbox := imap (fun i m => {| im_num := S i;
                                  im_fetch := Fetched (txt "raw") m;
                                  im_copy := CopyOK;
                                  im_store := StoreOK |}) msgs |}.

(** The second subscriber's mail server refuses the message. *)
Definition env0 (msgs : list email) : Env :=
  {| clock := fun n => 100 + Z.of_nat n;
     BOUNCE_ACCOUNT := Some account;
     render := fun _ _ => None;
     transport := fun s =>
       if bool_decide (sub_pk s = Some 2%positive)
       then Some SMTPError else None;
     conn := server msgs |}.

(** The templates fail for the second subscriber. *)
Definition env_unrendered : Env :=
  {| clock := fun n => 100 + Z.of_nat n;
     BOUNCE_ACCOUNT := None;
     render := fun _ s =>
       if bool_decide (sub_pk s = Some 2%positive)
       then Some TemplateError else None;
     transport := fun _ => None;
     conn := server [] |}.

End Sample.

(** ** More of the models *)

(** *** The e-mail address of a subscription *)

(** [get_email]: the linked account's address when there is an account. *)
Definition Subscription_get_email (d : DB) (s : subscription)
    : result (option text) :=
  match sub_user s with
  | Some k =>
      match users d !! k with
      | Some u => Ok (Some (user_email u))
      | None => Raise DoesNotExist
      end
  | None => Ok (sub_email_field s)
  end.

Definition with_email_field (e : option text) (s : subscription)
    : subscription :=
  {| sub_pk := sub_pk s; sub_user := sub_user s;
     sub_name_field := sub_name_field s;
     sub_email_field := e;
     sub_newsletter := sub_newsletter s;
     sub_subscribed := sub_subscribed s;
     sub_subscribe_date := sub_subscribe_date s;
     sub_unsubscribed := sub_unsubscribed s;
     sub_unsubscribe_date := sub_unsubscribe_date s |}.

(** [set_email]: ignored when an account is linked. *)
Definition Subscription_set_email (e : text) (s : subscription)
    : subscription :=
  if Subscription.has_user s then s else with_email_field (Some e) s.

(** *** [Submission.from_message] *)

(** [cls()]: the defaults of the columns; [publish_date] defaults to
    [now]. *)
Definition Submission_new (env : Env) : M World submission :=
  (t <- call tt (now env) ;;
   ret {| sm_pk := None; sm_newsletter := None; sm_message := None;
          sm_publish_date := Some t; sm_publish := true;
          sm_prepared := false; sm_sent := false; sm_sending := false |})%M.

(** [message.newsletter]: the row the foreign key points to. *)
Definition Message_newsletter (d : DB) (m : message) : result newsletter :=
  match msg_newsletter m with
  | Some k =>
      match list_find (fun n => nl_pk n = k) (newsletters d) with
      | Some (_, n) => Ok n
      | None => Raise DoesNotExist
      end
  | None => Raise DoesNotExist
  end.

Definition with_message (k : option positive) (s : submission) : submission :=
  {| sm_pk := sm_pk s; sm_newsletter := sm_newsletter s;
     sm_message := k; sm_publish_date := sm_publish_date s;
     sm_publish := sm_publish s; sm_prepared := sm_prepared s;
     sm_sent := sm_sent s; sm_sending := sm_sending s |}.

Definition set_submission_subscriptions (t : list (positive * positive))
    (d : DB) : DB :=
  {| users := users d; newsletters := newsletters d;
     subscriptions := subscriptions d; bounces := bounces d;
     messages := messages d; submissions := submissions d;
     submission_subscriptions := t |}.

(** [submission.subscriptions = queryset]: the links of the submission are
    cleared and one is added per subscription; an instance without a key
    cannot be linked. *)
Definition assign_subscriptions (subs : list subscription)
    : Method submission unit :=
  (s <- self ;;
   k <- lift (match sm_pk s with
              | Some k => Ok k
              | None => Raise ValueError
              end) ;;
   pks <- lift (match mapM sub_pk subs with
                | Some pks => Ok pks
                | None => Raise ValueError
                end) ;;
   set_world (fun w =>
     set_db (set_submission_subscriptions
               (filter (fun l => l.1 ≠ k) (submission_subscriptions (db w))
                ++ ((fun p => (k, p)) <$> pks))
               (db w)) w))%M.

Definition Submission_from_message (env : Env) (message : message)
    : M World submission :=
  (submission <- Submission_new env ;;
   fun w =>
     let '((w', s'), r) :=
       (set_self (with_message (msg_pk message)) ;;
        n <- lift (Message_newsletter (db w) message) ;;
        set_self (Submission.with_newsletter (nl_pk n)) ;;
        Submission.save ;;
        w1 <- world ;;
        assign_subscriptions (Newsletter.get_subscriptions (db w1) n))%M
       (w, submission) in
     (w', match r with Ok _ => Ok s' | Raise e => Raise e end))%M.

(** *** Articles and their sort order

    The article table is kept apart from the other tables: nothing else
    reads it. *)

Record article := {
  art_pk : option positive;
  art_sortorder : option nat;
  art_title : text;
  art_text : text;
  art_post : positive
}.

Abbreviation articles_table := (gmap positive article).

(** [self.articles.aggregate(models.Max('sortorder'))['sortorder__max']]:
    [None] for a message without articles. *)
Definition max_sortorder (t : articles_table) (post : positive) : option nat :=
  match omap (fun a => if bool_decide (art_post a = post)
                       then art_sortorder a else None) (rows t) with
  | [] => None
  | l => Some (max_list l)
  end.

(** [Message.get_next_article_sortorder]; a maximum of 0 is false. *)
Definition get_next_article_sortorder (t : articles_table) (post : positive)
    : nat :=
  match max_sortorder t post with
  | Some (S n) => S n + 10
  | _ => 10
  end.

Definition with_sortorder (n : nat) (a : article) : article :=
  {| art_pk := art_pk a; art_sortorder := Some n; art_title := art_title a;
     art_text := art_text a; art_post := art_post a |}.

Definition art_with_pk (k : positive) (a : article) : article :=
  {| art_pk := Some k; art_sortorder := art_sortorder a;
     art_title := art_title a; art_text := art_text a;
     art_post := art_post a |}.

(** Another row with the same message and sort order:
    [unique_together = ('post', 'sortorder')]. *)
Definition sortorder_taken (t : articles_table) (k : positive) (a : article)
    : bool :=
  bool_decide (∃ j b, t !! j = Some b ∧ j ≠ k ∧ art_post b = art_post a ∧
                      art_sortorder b = art_sortorder a).

(** [super(Article, self).save()]: the column is not nullable and the
    pair (message, sort order) is unique; these are the two refusals
    modelled, the range of the column and the row of the message are not
    looked at. *)
Definition Article_base_save : M (articles_table * article) unit :=
  fun '(t, a) =>
    let k := default (fresh (dom t)) (art_pk a) in
    match art_sortorder a with
    | None => ((t, a), Raise IntegrityError)
    | Some _ =>
        if sortorder_taken t k a then ((t, a), Raise IntegrityError)
        else ((<[k := art_with_pk k a]> t, art_with_pk k a), Ok tt)
    end.

Definition Article_save : M (articles_table * article) unit :=
  (st <- get ;;
   match art_sortorder st.2 with
   | None =>
       modify (fun st => (st.1, with_sortorder
                                  (get_next_article_sortorder st.1
                                     (art_post st.2)) st.2))
   | Some _ => ret tt
   end ;;
   Article_base_save)%M.

(** *** [Bounce.status_string] *)

(** [SMTP_ERROR_CODES] *)
Definition SMTP_ERROR_CODES : list (text * text) :=
  [ (txt "5.0.0", txt "Other undefined Status");
    (txt "5.1.0", txt "Other address status");
    (txt "5.1.1", txt "Bad destination mailbox address");
    (txt "5.1.2", txt "Bad destination system address");
    (txt "5.1.3", txt "Bad destination mailbox address syntax");
    (txt "5.1.4", txt "Destination mailbox address ambiguous");
    (txt "5.1.6", txt "Destination mailbox has moved, No forwarding address");
    (txt "5.1.7", txt "Bad sender's mailbox address syntax");
    (txt "5.1.8", txt "Bad sender's system address");
    (txt "5.2.0", txt "Other or undefined mailbox status");
    (txt "5.2.1", txt "Mailbox disabled, not accepting messages");
    (txt "5.2.2", txt "Mailbox full");
    (txt "5.2.3", txt "Message length exceeds administrative limit");
    (txt "5.2.4", txt "Mailing list expansion problem");
    (txt "5.3.0", txt "Other or undefined mail system status");
    (txt "5.3.1", txt "Mail system full");
    (txt "5.3.2", txt "System not accepting network messages");
    (txt "5.3.3", txt "System not capable of selected features");
    (txt "5.3.4", txt "Message too big for system");
    (txt "5.3.5", txt "System incorrectly configured");
    (txt "5.4.0", txt "Other or undefined network or routing status");
    (txt "5.4.1", txt "No answer from host");
    (txt "5.4.2", txt "Bad connection");
    (txt "5.4.3", txt "Directory server failure");
    (txt "5.4.4", txt "Unable to route");
    (txt "5.4.5", txt "Mail system congestion");
    (txt "5.4.6", txt "Routing loop detected");
    (txt "5.4.7", txt "Delivery time expired");
    (txt "5.5.0", txt "Other or undefined protocol status");
    (txt "5.5.1", txt "Invalid command");
    (txt "5.5.2", txt "Syntax error");
    (txt "5.5.3", txt "Too many recipients");
    (txt "5.5.4", txt "Invalid command arguments");
    (txt "5.5.5", txt "Wrong protocol version");
    (txt "5.6.0", txt "Other or undefined media error");
    (txt "5.6.1", txt "Media not supported");
    (txt "5.6.2", txt "Conversion required and prohibited");
    (txt "5.6.3", txt "Conversion required but not supported");
    (txt "5.6.4", txt "Conversion with loss performed");
    (txt "5.6.5", txt "Conversion Failed");
    (txt "5.7.0", txt "Other or undefined security status");
    (txt "5.7.1", txt "Delivery not authorized, message refused");
    (txt "5.7.2", txt "Mailing list expansion prohibited");
    (txt "5.7.3", txt "Security conversion required but not possible");
    (txt "5.7.4", txt "Security features not supported");
    (txt "5.7.5", txt "Cryptographic failure");
    (txt "5.7.6", txt "Cryptographic algorithm not supported");
    (txt "5.7.7", txt "Message integrity failure");
    (txt "5.7.606", txt "Access denied, banned sending IP") ].

(** [status_string]: the text of the code, or a fixed text on
    [KeyError]. *)
Definition status_string (b : bounce) : text :=
  match list_find (fun kv => kv.1 = bn_status_code b) SMTP_ERROR_CODES with
  | Some (_, (_, v)) => v
  | None => txt "Unknown error code"
  end.

(** *** Reading the IMAP commands off a trace *)

Definition copies (tr : list event) : list nat :=
  omap (fun e => match e with ImapCopy n => Some n | _ => None end) tr.

Definition deletions (tr : list event) : list nat :=
  omap (fun e => match e with ImapDeleted n => Some n | _ => None end) tr.

(** The subscription table keyed as Django keys it: a row sits under its
    own primary key. *)
Definition keyed (t : gmap positive subscription) : Prop :=
  ∀ k s, t !! k = Some s -> sub_pk s = Some k.

(** No row is both subscribed and unsubscribed. *)
Definition flags_exclusive (t : gmap positive subscription) : Prop :=
  ∀ k s, t !! k = Some s ->
         ¬ (sub_subscribed s = true ∧ sub_unsubscribed s = true).

(** No two articles of a message share a sort order. *)
Definition sortorders_unique (t : articles_table) : Prop :=
  ∀ j k a b, t !! j = Some a -> t !! k = Some b ->
             art_post a = art_post b -> art_sortorder a = art_sortorder b ->
             j = k.


(** The recipient field the scan reads in a sub-part:
    [Original-Recipient], and [Final-Recipient] only without it. *)
Definition recipient_field (subpart : email) : option text :=
  match header (txt "Original-Recipient") subpart with
  | Some v => Some v
  | None => header (txt "Final-Recipient") subpart
  end.

(** * Properties *)

(** ** The VERP expression *)

Section Greedy.
Context {R : Type} (cls : ascii -> bool) (cont : text -> text -> option R).

(** Whatever a greedy repetition returns was returned by the continuation
    after a non-empty run of class characters. *)
Lemma greedy_Some_inv acc s r :
  Verp.greedy cls cont acc s = Some r ->
  ∃ pre rest, s = pre ++ rest ∧ pre ≠ [] ∧
    Forall (fun x => cls x = true) pre ∧ cont (acc ++ pre) rest = Some r.
Proof.
  revert acc. induction s as [|x s IH]; intros acc H; simpl in H; [done|].
  destruct (cls x) eqn:Hx; [|done].
  destruct (Verp.greedy cls cont (acc ++ [x]) s) as [r'|] eqn:Hg.
  - simplify_eq. apply IH in Hg as (pre & rest & -> & _ & Hall & Hc).
    exists (x :: pre), rest. rewrite <- app_assoc in Hc. simpl in Hc.
    repeat split; [done|by constructor|congruence].
  - exists [x], s. repeat split; [done|by repeat constructor|done].
Qed.

(** When the continuation cannot start on a class character, the
    repetition has one way to succeed: the whole run. *)
Hypothesis cont_stops : ∀ cap x r, cls x = true -> cont cap (x :: r) = None.

Lemma greedy_run acc pre rest :
  pre ≠ [] ->
  Forall (fun x => cls x = true) pre ->
  (∀ x r, rest = x :: r -> cls x = false) ->
  Verp.greedy cls cont acc (pre ++ rest) = cont (acc ++ pre) rest.
Proof.
  intros Hne Hall Hrest. revert acc.
  induction Hall as [|x pre Hx Hall IH]; intros acc; [done|].
  simpl. rewrite Hx.
  destruct pre as [|y pre].
  - simpl. destruct rest as [|z rest]; simpl; [done|].
    by rewrite (Hrest z rest eq_refl).
  - rewrite IH by done. rewrite <- app_assoc. simpl.
    destruct (cont (acc ++ x :: y :: pre) rest) eqn:Hc; [done|].
    apply cont_stops. by inversion Hall.
Qed.
End Greedy.

Lemma not_char_true c x : Verp.not_char c x = true <-> x ≠ c.
Proof. unfold Verp.not_char. rewrite negb_true_iff, bool_decide_eq_false. done. Qed.

Lemma not_char_false c x : Verp.not_char c x = false <-> x = c.
Proof. unfold Verp.not_char. rewrite negb_false_iff, bool_decide_eq_true. done. Qed.

Lemma Forall_not_char c (l : text) :
  Forall (fun x => Verp.not_char c x = true) l <-> c ∉ l.
Proof.
  rewrite Forall_forall. split.
  - intros H Hin. by apply H, not_char_true in Hin.
  - intros H x Hin. apply not_char_true. intros ->. done.
Qed.

(** A literal after a repetition of every other character stops it. *)
Lemma lit_stops c (k : list Verp.item) g cap x r :
  Verp.not_char c x = true ->
  Verp.bind_group g cap <$> Verp.rmatch (Verp.Lit c :: k) (x :: r) = None.
Proof.
  intros Hx%not_char_true. simpl. by rewrite bool_decide_eq_false_2.
Qed.

Lemma rmatch_lit_inv c k s gs :
  Verp.rmatch (Verp.Lit c :: k) s = Some gs ->
  ∃ s', s = c :: s' ∧ Verp.rmatch k s' = Some gs.
Proof.
  simpl. destruct s as [|x s']; [done|]. case_bool_decide; [|done].
  subst. eauto.
Qed.

Lemma rmatch_many1_inv cls g k s gs :
  Verp.rmatch (Verp.Many1 cls g :: k) s = Some gs ->
  ∃ pre rest gs', s = pre ++ rest ∧ pre ≠ [] ∧
    Forall (fun x => cls x = true) pre ∧
    Verp.rmatch k rest = Some gs' ∧ gs = Verp.bind_group g pre gs'.
Proof.
  simpl. intros (pre & rest & -> & Hne & Hall & Hc)%greedy_Some_inv.
  apply fmap_Some in Hc as (gs' & Hk & ->). simpl. eauto 10.
Qed.

Lemma decode_Some_shape s u d :
  Verp.decode s = Some (u, d) -> Verp.verp_shape s u d.
Proof.
  unfold Verp.decode. intros H.
  destruct (Verp.rmatch Verp.verp_re s) as [gs|] eqn:Hm; simpl in H; [|done].
  unfold Verp.verp_re in Hm.
  apply rmatch_many1_inv in Hm as (a & r1 & g1 & -> & Ha & Hfa & Hm & ->).
  apply rmatch_lit_inv in Hm as (r2 & -> & Hm).
  apply rmatch_many1_inv in Hm as (u' & r3 & g2 & -> & Hu & Hfu & Hm & ->).
  apply rmatch_lit_inv in Hm as (r4 & -> & Hm).
  apply rmatch_many1_inv in Hm as (d' & r5 & g3 & -> & Hd & Hfd & Hm & ->).
  apply rmatch_lit_inv in Hm as (r6 & -> & Hm).
  apply rmatch_many1_inv in Hm as (b & r7 & g4 & -> & Hb & Hfb & Hm & ->).
  simpl in Hm. injection Hm as <-. unfold Verp.group in H. simpl in H.
  repeat case_decide; try done. injection H as <- <-.
  exists a, (b ++ r7).
  rewrite Forall_not_char in Hfa, Hfu, Hfd.
  repeat split; try done.
  destruct b as [|x b]; [done|]. exists x, (b ++ r7). split; [done|].
  inversion Hfb; subst. by apply not_char_true.
Qed.

Lemma rmatch_many1_lit c g k pre rest :
  pre ≠ [] -> c ∉ pre ->
  Verp.rmatch (Verp.Many1 (Verp.not_char c) g :: Verp.Lit c :: k)
              (pre ++ c :: rest)
  = Verp.bind_group g pre <$> Verp.rmatch k rest.
Proof.
  intros Hne Hnotin.
  change (Verp.rmatch (Verp.Many1 (Verp.not_char c) g :: Verp.Lit c :: k)
                      (pre ++ c :: rest))
    with (Verp.greedy (Verp.not_char c)
            (fun cap r => Verp.bind_group g cap <$>
                            Verp.rmatch (Verp.Lit c :: k) r)
            [] (pre ++ c :: rest)).
  rewrite greedy_run.
  - simpl. by rewrite bool_decide_eq_true_2.
  - intros cap x r Hx. by apply lit_stops.
  - done.
  - by apply Forall_not_char.
  - intros x r [= <- <-]. by apply not_char_false.
Qed.

(** The trailing [.+] only asks for one character other than a newline. *)
Lemma rmatch_tail cls x (s : text) :
  cls x = true -> Verp.rmatch [Verp.Many1 cls None] (x :: s) = Some [].
Proof.
  intros Hx. simpl. rewrite Hx.
  destruct (Verp.greedy _ _ _ s) as [gs|] eqn:Hg; [|done].
  apply greedy_Some_inv in Hg as (? & ? & _ & _ & _ & Hc). by rewrite <- Hc.
Qed.

Lemma shape_decode_Some s u d :
  Verp.verp_shape s u d -> Verp.decode s = Some (u, d).
Proof.
  intros (a & b & Ha & Hpa & Hu & Hpu & Hd & Hpd & (x & b' & -> & Hx) & ->).
  unfold Verp.decode, Verp.verp_re.
  rewrite !rmatch_many1_lit by done.
  rewrite rmatch_tail by by apply not_char_true.
  reflexivity.
Qed.

(** The expression accepts at most one reading of an address. *)
Lemma decode_None_shape s :
  Verp.decode s = None <-> ∀ u d, ¬ Verp.verp_shape s u d.
Proof.
  split.
  - intros Hn u d Hs%shape_decode_Some. congruence.
  - intros H. destruct (Verp.decode s) as [[u d]|] eqn:Hd; [|done].
    by apply decode_Some_shape, H in Hd.
Qed.

(** C3 (as amended): the VERP expression decodes an address to the pair
    (user, domain) exactly when the address reads [a+user=domain@b] with a
    non-empty [a] free of '+', a non-empty [user] free of '=', a non-empty
    [domain] free of '@' and a [b] that starts with a character other than
    a newline; the recovered recipient is then [user@domain].  Every other
    address decodes to nothing: the decoder is a total function into an
    option and raises nothing on a string. *)
Theorem verp_decode_exact (s : text) :
  (∀ u d, Verp.decode s = Some (u, d) <-> Verp.verp_shape s u d) ∧
  (Verp.decode s = None <-> ∀ u d, ¬ Verp.verp_shape s u d) ∧
  (∀ u d, Verp.verp_shape s u d ->
     Verp.recipient <$> Verp.decode s = Some (u ++ Verp.c_at :: d)).
Proof.
  split; [|split].
  - intros u d. split; [apply decode_Some_shape|apply shape_decode_Some].
  - apply decode_None_shape.
  - intros u d H%shape_decode_Some. by rewrite H.
Qed.

Lemma verp_decode_exact_witness :
  Verp.recipient <$> Verp.decode (txt "bounce+bob=example.org@example.net")
  = Some (txt "bob@example.org").
Proof.
  apply (proj2 (proj2 (verp_decode_exact
                         (txt "bounce+bob=example.org@example.net")))
           (txt "bob") (txt "example.org")).
  exists (txt "bounce"), (txt "example.net").
  repeat split; try done.
  - apply (bool_decide_unpack _). by vm_compute.
  - apply (bool_decide_unpack _). by vm_compute.
  - apply (bool_decide_unpack _). by vm_compute.
  - eexists _, _. split; [reflexivity|]. vm_compute. discriminate.
Defined.

(** C3 (as stated) fails: an address of the form
    [anything+user=domain@anything], all four parts non-empty, that the
    expression does not decode, because it starts with the separator. *)
Lemma verp_form_not_decoded :
  Verp.verp_form (txt "+x+bob=example.org@example.net") ∧
  Verp.decode (txt "+x+bob=example.org@example.net") = None.
Proof.
  split; [|reflexivity].
  exists (txt "+x"), (txt "bob"), (txt "example.org"), (txt "example.net").
  repeat split; done.
Qed.

Example decode_bounce :
  Verp.recipient <$> Verp.decode (txt "bounce+bob=example.org@example.net")
  = Some (txt "bob@example.org").
Proof. reflexivity. Qed.

(** ** Hard and soft bounces *)

Lemma startswith_5 (s : text) :
  startswith (txt "5") s = true <-> ∃ r, s = "5"%char :: r.
Proof.
  destruct s as [|x r]; simpl.
  - split; [done|]. by intros [? ?].
  - rewrite andb_true_r, bool_decide_eq_true. split.
    + intros ->. eauto.
    + by intros [? [= -> _]].
Qed.

(** The hard flag computed for a status [s] is true exactly when [s]
    starts with '5' and is not "5.2.2"; "5.2.2" is soft, every other
    status of class 5 is hard, every status of class 2 or 4 is soft. *)
Lemma is_hard_spec (s : text) :
  (is_hard s = true <-> (∃ r, s = "5"%char :: r) ∧ s ≠ txt "5.2.2") ∧
  is_hard (txt "5.2.2") = false ∧
  (∀ r, "5"%char :: r ≠ txt "5.2.2" -> is_hard ("5"%char :: r) = true) ∧
  (∀ r, is_hard ("2"%char :: r) = false) ∧
  (∀ r, is_hard ("4"%char :: r) = false).
Proof.
  unfold is_hard. split; [|split; [|split; [|split]]].
  - rewrite andb_true_iff, negb_true_iff, bool_decide_eq_false, startswith_5.
    done.
  - reflexivity.
  - intros r Hr. simpl. by rewrite bool_decide_eq_false_2.
  - reflexivity.
  - reflexivity.
Qed.

(** ** The suppression query *)

Lemma sum_case_hard (l : list bounce) :
  omap id (SubscribedQuerySet.case_hard <$> (Some <$> l))
  = (fun b => if bn_hard b then 1 else 0) <$> l.
Proof.
  induction l as [|b l IH]; [done|].
  csimpl. rewrite IH. by destruct (bn_hard b).
Qed.

Lemma sum_hard_count (l : list bounce) :
  foldr Z.add 0 ((fun b => if bn_hard b then 1 else 0) <$> l)
  = Z.of_nat (length (filter (fun b => bn_hard b = true) l)).
Proof.
  induction l as [|b l IH]; [done|].
  csimpl. rewrite IH, filter_cons.
  destruct (bn_hard b); case_decide; try done; simpl; lia.
Qed.

(** The annotation is never NULL, thanks to the outer join, and counts the
    hard bounces of the subscription. *)
Lemma num_hard_bounces_count bs s :
  SubscribedQuerySet.num_hard_bounces bs s
  = Some (Z.of_nat (length (hard_bounces bs s))).
Proof.
  unfold SubscribedQuerySet.num_hard_bounces, SubscribedQuerySet.join_bounces,
    hard_bounces, SubscribedQuerySet.sql_sum.
  destruct (filter _ bs) as [|b l] eqn:Hl; [done|].
  rewrite sum_case_hard, <- sum_hard_count. done.
Qed.

Lemma subscribed_filter bs qs :
  SubscribedQuerySet.subscribed bs qs = filter (sendable bs) qs.
Proof.
  unfold SubscribedQuerySet.subscribed. apply list_filter_iff.
  intros s. unfold sendable. rewrite num_hard_bounces_count.
  split; intros [? H]; (split; [done|]).
  - injection H. lia.
  - by rewrite H.
Qed.

Lemma filter_empty_iff {A} (P : A -> Prop) `{!∀ x, Decision (P x)} (l : list A) :
  filter P l = [] <-> ∀ x, x ∈ l -> ¬ P x.
Proof.
  split.
  - intros Hnil x Hin HP. eapply filter_nil_not_elem_of; eauto.
  - intros Hall. induction l as [|x l IH]; [done|].
    rewrite filter_cons_False by (apply Hall; left).
    apply IH. intros y Hy. apply Hall. by right.
Qed.

(** C4: for every newsletter the suppression query returns exactly its
    subscriptions with [subscribed] true and no hard bounce: one hard
    bounce excludes a subscription, soft bounces alone (or no bounce at
    all) never do. *)
Theorem subscribed_exact (d : DB) (nl : newsletter) :
  Newsletter.get_subscriptions d nl
  = filter (sendable (bounces d))
      (filter (fun s => sub_newsletter s = nl_pk nl) (rows (subscriptions d)))
  ∧ (∀ s, s ∈ Newsletter.get_subscriptions d nl <->
          s ∈ rows (subscriptions d) ∧ sub_newsletter s = nl_pk nl ∧
          sub_subscribed s = true ∧
          ∀ b, b ∈ bounces d -> Some (bn_subscription b) = sub_pk s ->
               bn_hard b = false).
Proof.
  unfold Newsletter.get_subscriptions. rewrite subscribed_filter.
  split; [done|]. intros s.
  rewrite !list_elem_of_filter. unfold sendable, hard_bounces.
  rewrite length_zero_iff_nil, list_filter_filter, filter_empty_iff.
  split.
  - intros [[Hs Hb] [Hn Hr]]. repeat split; try done.
    intros b Hin Hk. specialize (Hb b Hin). destruct (bn_hard b); naive_solver.
  - intros (Hr & Hn & Hs & Hb). repeat split; try done.
    intros b Hin [Hh Hk]. rewrite (Hb b Hin Hk) in Hh. done.
Qed.

(** The second subscriber has a hard bounce and is left out; the third
    has a soft one and stays. *)
Lemma subscribed_exact_witness :
  Newsletter.get_subscriptions Sample.db1 Sample.nl1
  = [Sample.sub 3 "cat@example.org"; Sample.sub 1 "ann@example.org"].
Proof.
  rewrite (proj1 (subscribed_exact Sample.db1 Sample.nl1)). reflexivity.
Defined.

(** ** Running methods *)

Ltac munfold :=
  unfold emit in *;
  unfold bindM, lift, ret, raise, self, world, set_self, set_world,
    now, get, modify, assert, call, try_finally, try_except in *.

Lemma with_pk_id s k : sub_pk s = Some k -> Subscription.with_pk k s = s.
Proof. destruct s. simpl. by intros ->. Qed.

Lemma set_subscriptions_id d : set_subscriptions (subscriptions d) d = d.
Proof. by destruct d. Qed.

Lemma set_db_id w : set_db (db w) w = w.
Proof. by destruct w. Qed.

(** ** The identity check of [Subscription.save] *)

(** Both identities or none: the first or the second [assert] fails, and
    nothing has been touched. *)
Lemma save_identity_rejected env w s :
  Subscription.has_user s = Subscription.has_email s ->
  Subscription.save env (w, s) = ((w, s), Raise AssertionError).
Proof.
  intros H. unfold Subscription.save. munfold. simpl.
  rewrite H. by destruct (Subscription.has_email s).
Qed.

(** A row that is stored with the same constrained columns is not
    refused. *)
Lemma refused_stored d k r i :
  subscriptions d !! k = Some r -> Subscription.identity r = i ->
  Subscription.refused d k i = false.
Proof.
  intros Hrow Hi. unfold Subscription.refused. rewrite Hrow.
  by rewrite bool_decide_eq_true_2.
Qed.

(** Past the identity check and the check of the key, a save brings the
    flags and dates of the instance up to date and hands it to the
    database, which writes the row or refuses it. *)
Lemma save_identity_passed env w s :
  Subscription.has_user s ≠ Subscription.has_email s ->
  (∀ k, sub_pk s = Some k -> is_Some (subscriptions (db w) !! k)) ->
  let k := default (fresh (dom (subscriptions (db w)))) (sub_pk s) in
  ∃ w1 s1,
    Subscription.save env (w, s)
    = (if Subscription.refused (db w) k (Subscription.identity s)
       then ((w1, s1), Raise IntegrityError)
       else ((set_db (set_subscriptions
                        (<[k := Subscription.with_pk k s1]>
                           (subscriptions (db w))) (db w)) w1,
              Subscription.with_pk k s1), Ok tt)) ∧
    db w1 = db w ∧ trace w1 = trace w ∧
    Subscription.identity s1 = Subscription.identity s.
Proof.
  intros Hid Hrow k. subst k. unfold Subscription.save. munfold. simpl.
  assert (Subscription.has_user s || Subscription.has_email s = true) as ->
    by (destruct (Subscription.has_user s), (Subscription.has_email s); done).
  assert (Subscription.has_user s && negb (Subscription.has_email s)
          || Subscription.has_email s && negb (Subscription.has_user s) = true)
    as -> by (destruct (Subscription.has_user s), (Subscription.has_email s);
              done).
  unfold Subscription._subscribe, Subscription._unsubscribe,
    Subscription.count_pk, Subscription.objects_get,
    Subscription.base_save. munfold. simpl.
  destruct (sub_pk s) as [k|] eqn:Hk.
  - destruct (Hrow k eq_refl) as [old Hold]. cbn [fst snd]. rewrite Hold.
    simpl.
    destruct (sub_subscribed s) eqn:Hs, (sub_unsubscribed s) eqn:Hu,
      (sub_subscribed old) eqn:Hos, (sub_unsubscribed old) eqn:Hou;
      simpl; rewrite ?Hk; simpl;
      (eexists _, _; split; [reflexivity|done]).
  - destruct (sub_subscribed s) eqn:Hs, (sub_unsubscribed s) eqn:Hu;
      simpl; rewrite ?Hk; simpl;
      (eexists _, _; split; [reflexivity|done]).
Qed.



(** A subscription to a newsletter that does not exist is refused. *)
Example save_missing_newsletter :
  Subscription.save (Sample.env0 []) (Sample.w0, Sample.stray_sub)
  = ((Sample.w0, Sample.stray_sub), Raise IntegrityError).
Proof. reflexivity. Qed.


(** ** Asking twice to subscribe *)

Lemma with_subscribed_id s :
  sub_subscribed s = true -> Subscription.with_subscribed true s = s.
Proof. destruct s. simpl. by intros ->. Qed.

(** A key without a row stops the save at the third [assert]. *)
Lemma save_missing_row env w s k :
  sub_pk s = Some k -> subscriptions (db w) !! k = None ->
  (Subscription.save env (w, s)).2 = Raise AssertionError.
Proof.
  intros Hk Hnone. unfold Subscription.save, Subscription.count_pk. munfold.
  simpl. rewrite Hk. cbn [fst snd]. rewrite Hnone. simpl.
  by destruct (Subscription.has_user s), (Subscription.has_email s).
Qed.

Lemma save_ok_inv env w s w' s' :
  Subscription.save env (w, s) = ((w', s'), Ok tt) ->
  Subscription.has_user s ≠ Subscription.has_email s ∧
  ∀ k, sub_pk s = Some k -> is_Some (subscriptions (db w) !! k).
Proof.
  intros Hsave. split.
  - intros Heq. rewrite save_identity_rejected in Hsave by done. done.
  - intros k Hk. destruct (subscriptions (db w) !! k) eqn:Hrow; [done|].
    pose proof (save_missing_row env w s k Hk Hrow) as H.
    rewrite Hsave in H. done.
Qed.

(** A saved subscription that is subscribed, asked to subscribe. *)
Lemma update_subscribed_noop env w s k :
  sub_pk s = Some k ->
  subscriptions (db w) !! k = Some s ->
  sub_subscribed s = true ->
  Subscription.has_user s ≠ Subscription.has_email s ->
  Subscription.update env (txt "subscribe") (w, s) = ((w, s), Ok tt).
Proof.
  intros Hk Hrow Hsub Hid.
  unfold Subscription.update, Subscription.save. munfold. simpl.
  rewrite with_subscribed_id by done.
  assert (Subscription.has_user s || Subscription.has_email s = true) as ->
    by (destruct (Subscription.has_user s), (Subscription.has_email s); done).
  assert (Subscription.has_user s && negb (Subscription.has_email s)
          || Subscription.has_email s && negb (Subscription.has_user s) = true)
    as -> by (destruct (Subscription.has_user s), (Subscription.has_email s);
              done).
  unfold Subscription.count_pk, Subscription.objects_get,
    Subscription.base_save.
  rewrite Hk. cbn [fst snd]. rewrite Hrow. simpl.
  rewrite Hsub. simpl. rewrite !andb_negb_r. simpl.
  rewrite Hk. simpl. rewrite (refused_stored _ k s) by done.
  rewrite with_pk_id by done.
  rewrite insert_id by done.
  by rewrite set_subscriptions_id, set_db_id.
Qed.

(** C9: once a request to subscribe has been saved and has left the
    subscription subscribed, a second request changes nothing: the
    instance, with its [subscribe_date], [subscribed] and [unsubscribed],
    and the database are what they were after the first request. *)
Theorem subscribe_twice env w0 s0 w1 s1 :
  Subscription.update env (txt "subscribe") (w0, s0) = ((w1, s1), Ok tt) ->
  sub_subscribed s1 = true ->
  Subscription.update env (txt "subscribe") (w1, s1) = ((w1, s1), Ok tt).
Proof.
  intros Hfirst Hsub.
  assert (Subscription.save env (w0, Subscription.with_subscribed true s0)
          = ((w1, s1), Ok tt)) as Hsave by exact Hfirst.
  destruct (save_ok_inv _ _ _ _ _ Hsave) as [Hid Hrow].
  destruct (save_identity_passed env _ _ Hid Hrow)
    as (w' & s' & Heq & _ & _ & Hi).
  rewrite Hsave in Heq.
  destruct (Subscription.refused _ _ _); [done|].
  injection Heq as -> ->.
  eapply update_subscribed_noop; [reflexivity| |done|].
  - cbn [db set_db subscriptions set_subscriptions].
    by rewrite lookup_insert_eq.
  - injection Hi as Hu He _.
    unfold Subscription.has_user, Subscription.has_email in *.
    cbn [sub_user sub_email_field Subscription.with_pk].
    rewrite Hu, He. exact Hid.
Qed.

Lemma subscribe_twice_witness :
  let st1 := (Subscription.update (Sample.env0 []) (txt "subscribe")
                (Sample.w0, Sample.new_sub)).1 in
  sub_subscribe_date st1.2 = Some 100 ∧
  Subscription.update (Sample.env0 []) (txt "subscribe") st1 = (st1, Ok tt).
Proof.
  intros st1. split; [reflexivity|].
  apply (subscribe_twice (Sample.env0 []) Sample.w0 Sample.new_sub
           st1.1 st1.2).
  - vm_compute. reflexivity.
  - vm_compute. reflexivity.
Defined.
(** ** The newsletter of a new message *)

(** C10 (as amended): the first save of a message (no primary key yet)
    replaces the newsletter the caller gave by [Newsletter.get_default()]:
    the first newsletter of the table, or [None] when the table is empty.
    It is under that newsletter that the message is handed to the
    database: the row is written there, unless the slug is in use in the
    default newsletter, and then the save fails with an [IntegrityError]
    and the database is left as it was, as it is when the table of
    newsletters is empty.  The save of a message that has a key leaves its
    newsletter alone. *)
Theorem message_save_default (w : World) (m : message) :
  let st := Message.save (w, m) in
  match msg_pk m with
  | None =>
      msg_newsletter st.1.2 = nl_pk <$> Newsletter.get_default (db w) ∧
      match newsletters (db w) with
      | nl :: _ =>
          msg_newsletter st.1.2 = Some (nl_pk nl) ∧
          ((∀ j r, messages (db w) !! j = Some r ->
                   msg_newsletter r = Some (nl_pk nl) ->
                   msg_slug r ≠ msg_slug m) ->
             st.2 = Ok tt ∧
             ∃ k, msg_pk st.1.2 = Some k ∧ messages (db w) !! k = None ∧
                  messages (db st.1.1) !! k = Some st.1.2) ∧
          (∀ j r, messages (db w) !! j = Some r ->
                  msg_newsletter r = Some (nl_pk nl) ->
                  msg_slug r = msg_slug m ->
             st.2 = Raise IntegrityError ∧ db st.1.1 = db w)
      | [] =>
          msg_newsletter st.1.2 = None ∧ st.2 = Raise IntegrityError ∧
          db st.1.1 = db w
      end
  | Some k =>
      msg_newsletter st.1.2 = msg_newsletter m ∧
      match st.2 with
      | Ok _ => messages (db st.1.1) !! k = Some st.1.2
      | Raise _ => db st.1.1 = db w
      end
  end.
Proof.
  unfold Message.save, Message.base_save, Newsletter.get_default. munfold.
  simpl. destruct (msg_pk m) as [k|] eqn:Hk; simpl.
  - destruct (msg_newsletter m) eqn:Hn; simpl; rewrite ?Hn; [|done].
    destruct (Message.refused _ _ _); simpl; [by rewrite Hn|].
    split; [done|]. rewrite Hk. simpl. by rewrite lookup_insert_eq.
  - destruct (newsletters (db w)) as [|nl rest] eqn:Hnls; simpl; [done|].
    rewrite Hk. cbn [default].
    set (k := fresh (dom (messages (db w)))).
    assert (messages (db w) !! k = None) as Hfresh
      by apply not_elem_of_dom, is_fresh.
    unfold Message.refused, Message.violates. rewrite Hfresh.
    change (Message.identity (Message.with_newsletter (Some (nl_pk nl)) m))
      with (msg_slug m, Some (nl_pk nl)).
    cbn [snd]. rewrite Hnls.
    rewrite (bool_decide_eq_false_2 (Forall _ (nl :: rest)))
      by (intros Hall; by inversion Hall).
    rewrite orb_false_r.
    case_bool_decide as Hclash; cbn [fst snd msg_newsletter msg_pk
      Message.with_pk Message.with_newsletter db set_db messages
      set_messages].
    + destruct Hclash as (j & r & Hr & _ & Hi). injection Hi as Hslug Hnl.
      split; [done|]. split; [done|]. split; [|done].
      intros Hfree. by destruct (Hfree j r Hr Hnl).
    + split; [done|]. split; [done|]. split.
      * intros _. split; [done|]. exists k. split; [done|].
        split; [done|]. by rewrite lookup_insert_eq.
      * intros j r Hr Hnl Hslug. destruct Hclash. exists j, r.
        split; [done|]. split; [congruence|].
        unfold Message.identity. by rewrite Hslug, Hnl.
Qed.

(** A message built for the second newsletter is saved under the first;
    with the slug of a message of the first newsletter, it is refused. *)
Lemma message_save_default_witness :
  (let st := Message.save (Sample.w0, Sample.new_msg) in
   msg_newsletter Sample.new_msg = Some 2%positive ∧
   msg_newsletter st.1.2 = Some 1%positive ∧ st.2 = Ok tt ∧
   ∃ k, msg_pk st.1.2 = Some k ∧ messages (db Sample.w0) !! k = None ∧
        messages (db st.1.1) !! k = Some st.1.2) ∧
  (let st := Message.save (Sample.w0, Sample.clashing_msg) in
   msg_newsletter st.1.2 = Some 1%positive ∧
   st.2 = Raise IntegrityError ∧ db st.1.1 = db Sample.w0).
Proof.
  pose proof (message_save_default Sample.w0 Sample.new_msg) as Hnew.
  pose proof (message_save_default Sample.w0 Sample.clashing_msg) as Hclash.
  cbn zeta in *. cbn [msg_pk Sample.new_msg Sample.clashing_msg] in *.
  destruct Hnew as (_ & Hnl & Hok & _).
  destruct Hclash as (_ & Hnl' & _ & Hrefused).
  split.
  - split; [reflexivity|]. split; [exact Hnl|]. apply Hok.
    intros j r Hr _. unfold Sample.w0, Sample.db0 in Hr.
    cbn [db messages] in Hr.
    apply lookup_singleton_Some in Hr as [_ <-]. vm_compute. discriminate.
  - split; [exact Hnl'|].
    apply (Hrefused 1%positive Sample.msg1); reflexivity.
Defined.

(** C10 (as stated) fails on "always persisted": the first save of a
    message whose slug is in use in the default newsletter is refused,
    although the message was built for another newsletter, where the
    slug is free. *)
Lemma message_save_not_persisted :
  let st := Message.save (Sample.w0, Sample.clashing_msg) in
  msg_pk Sample.clashing_msg = None ∧
  msg_newsletter Sample.clashing_msg = Some 2%positive ∧
  (∀ j r, messages (db Sample.w0) !! j = Some r ->
          ¬ (msg_slug r = msg_slug Sample.clashing_msg ∧
             msg_newsletter r = Some 2%positive)) ∧
  st.2 = Raise IntegrityError ∧
  messages (db st.1.1) = messages (db Sample.w0).
Proof.
  cbn zeta. split; [reflexivity|]. split; [reflexivity|].
  split; [|split; reflexivity].
  intros j r Hr [_ Hnl]. unfold Sample.w0, Sample.db0 in Hr.
  cbn [db messages] in Hr.
  apply lookup_singleton_Some in Hr as [_ <-]. discriminate.
Qed.

(** ** Sending one submission *)

Lemma sends_app tr1 tr2 : sends (tr1 ++ tr2) = sends tr1 ++ sends tr2.
Proof. unfold sends. apply omap_app. Qed.

Lemma calls_app tr1 tr2 : calls (tr1 ++ tr2) = calls tr1 ++ calls tr2.
Proof. unfold calls. apply filter_app. Qed.

Lemma logged_app tr1 tr2 : logged (tr1 ++ tr2) = logged tr1 ++ logged tr2.
Proof. unfold logged. apply omap_app. Qed.

(** What one [send_message] does when the templates render: one call of
    [message.send()], and a line in the log when it raised. *)
Lemma send_message_rendered env sub w s :
  render env s sub = None ->
  Submission.send_message env sub (w, s)
  = (({| db := db w;
         trace := trace w ++ MailSend sub ::
                    match transport env sub with
                    | Some e => [LogError e]
                    | None => []
                    end;
         ticks := ticks w |}, s), Ok tt).
Proof.
  intros Hr. unfold Submission.send_message, Submission.message_send.
  munfold. simpl. rewrite Hr. simpl.
  destruct (transport env sub); simpl; unfold emit_w; simpl.
  - by rewrite <- app_assoc.
  - done.
Qed.

(** When they do not, the exception leaves [send_message] before any
    mail is sent. *)
Lemma send_message_unrendered env sub w s e :
  render env s sub = Some e ->
  Submission.send_message env sub (w, s) = ((w, s), Raise e).
Proof.
  intros Hr. unfold Submission.send_message. munfold. simpl. by rewrite Hr.
Qed.

(** The loop over the recipients touches neither the database nor the
    instance nor the clock, whatever happens; when every message renders
    it sends to every recipient and returns. *)
Lemma send_loop env subs w s :
  ∃ w' r,
    for_each subs (Submission.send_message env) (w, s) = ((w', s), r) ∧
    db w' = db w ∧ ticks w' = ticks w ∧
    calls (trace w') = calls (trace w) ∧
    ((∀ sub, sub ∈ subs -> render env s sub = None) ->
       r = Ok tt ∧ sends (trace w') = sends (trace w) ++ subs ∧
       logged (trace w') = logged (trace w) ++ omap (transport env) subs).
Proof.
  revert w. induction subs as [|sub subs IH]; intros w.
  - exists w, (Ok tt).
    split; [done|]. split; [done|]. split; [done|]. split; [done|].
    intros _. by rewrite !app_nil_r.
  - simpl. unfold bindM at 1.
    destruct (render env s sub) as [e|] eqn:Hr.
    + rewrite (send_message_unrendered _ _ _ _ e) by done.
      exists w, (Raise e).
      split; [done|]. split; [done|]. split; [done|]. split; [done|].
      intros Hall. rewrite Hall in Hr by left. done.
    + rewrite send_message_rendered by done.
      match goal with |- context [for_each subs _ (?w1, s)] =>
        destruct (IH w1) as (w' & r & Hrun & Hdb & Hticks & Hcalls & Hok)
      end.
      exists w', r. rewrite Hrun. simpl in *.
      split; [done|]. split; [done|]. split; [done|]. split.
      * rewrite Hcalls, calls_app. simpl.
        destruct (transport env sub); simpl; by rewrite app_nil_r.
      * intros Hall. destruct Hok as (-> & Hs & Hl).
        { intros ? ?. apply Hall. by right. }
        split; [done|]. rewrite Hs, Hl, sends_app, logged_app. simpl.
        destruct (transport env sub); simpl;
          by rewrite <- !app_assoc, ?app_nil_r.
Qed.

(** [self.message.newsletter] reads the message table, the newsletter
    table and the foreign key only. *)
Lemma message_newsletter_ext d d' s s' :
  messages d = messages d' ∧ newsletters d = newsletters d' ->
  sm_message s = sm_message s' ->
  Submission.message_newsletter d s = Submission.message_newsletter d' s'.
Proof. unfold Submission.message_newsletter. by intros [-> ->] ->. Qed.

Lemma submit_runs env w s k d n :
  sm_pk s = Some k ->
  sm_publish_date s = Some d -> d < clock env (ticks w) ->
  Submission.message_newsletter (db w) s = Ok n ->
  ∃ w' s' r t',
    Submission.submit env (w, s) = ((w', s'), r) ∧
    sm_sending s' = false ∧ submissions (db w') !! k = Some s' ∧
    db w' = set_submissions t' (db w) ∧
    ticks w' = S (ticks w) ∧
    calls (trace w') = calls (trace w) ++ [CallSubmit s] ∧
    ((∀ s2 sub, sub ∈ Submission.recipients (db w) k ->
                render env s2 sub = None) ->
       r = Ok tt ∧ sm_sent s' = true ∧
       sends (trace w') = sends (trace w) ++ Submission.recipients (db w) k ∧
       logged (trace w')
       = logged (trace w)
         ++ omap (transport env) (Submission.recipients (db w) k)).
Proof.
  intros Hk Hd Hlt Hn.
  unfold Submission.submit. munfold. cbn [fst snd].
  rewrite Hk, Hd. cbn [Submission.date_lt]. rewrite bool_decide_eq_true_2 by done.
  cbn [fst snd emit_w tick db].
  unfold Submission.save at 1. munfold. cbn [fst snd db].
  rewrite (message_newsletter_ext _ (db w) _ s) by done.
  rewrite Hn. cbn [fst snd]. unfold Submission.base_save at 1.
  cbn [fst snd db ticks trace Submission.with_newsletter Submission.with_sending sm_pk default].
  rewrite Hk. cbn [default]. unfold id.
  set (s1 := Submission.with_pk k
               (Submission.with_newsletter n (Submission.with_sending true s))).
  set (w0 := tick (emit_w (CallSubmit s) w)).
  set (w1 := set_db (set_submissions (<[k:=s1]> (submissions (db w0))) (db w0))
                    w0).
  change (Submission.recipients (db w1) k)
    with (Submission.recipients (db w) k).
  destruct (send_loop env (Submission.recipients (db w) k) w1 s1)
    as (w2 & r0 & Hrun & Hdb & Hticks & Hcalls & Hok).
  rewrite Hrun.
  assert (∀ s3, sm_message s3 = sm_message s ->
            Submission.save (w2, s3)
            = ((set_db (set_submissions
                          (<[k:=Submission.with_pk k
                                  (Submission.with_newsletter n s3)]>
                             (submissions (db w2))) (db w2)) w2,
                Submission.with_pk k (Submission.with_newsletter n s3)),
               Ok tt) ∨ sm_pk s3 ≠ Some k) as Hsave.
  { intros s3 Hm. destruct (decide (sm_pk s3 = Some k)) as [Hk3|]; [left|by right].
    unfold Submission.save. munfold. cbn [fst snd].
    rewrite (message_newsletter_ext _ (db w) _ s); [|by rewrite Hdb|done].
    rewrite Hn. cbn [fst snd]. unfold Submission.base_save.
    cbn [Submission.with_newsletter sm_pk]. by rewrite Hk3. }
  assert (calls (trace w2) = calls (trace w) ++ [CallSubmit s]) as Hc2.
  { rewrite Hcalls. subst w1 w0. simpl. by rewrite calls_app. }
  destruct r0 as [[]|e]; cbn [fst snd].
  - destruct (Hsave (Submission.with_sending false
                       (Submission.with_sent true s1))) as [->|Hne];
      [done| |by destruct Hne].
    eexists _, _, _, _. split; [reflexivity|]. cbn [db set_db submissions set_submissions].
    split; [done|]. split; [by rewrite lookup_insert_eq|].
    split; [rewrite Hdb; subst w1 w0; simpl; reflexivity|].
    split; [simpl; by rewrite Hticks|]. split; [done|].
    intros Hall. split; [done|]. split; [done|].
    cbn [trace set_db]. destruct Hok as (_ & -> & ->); [by eauto|].
    subst w1 w0. simpl. rewrite sends_app, logged_app. simpl.
    by rewrite !app_nil_r.
  - destruct (Hsave (Submission.with_sending false s1)) as [->|Hne];
      [done| |by destruct Hne].
    eexists _, _, _, _. split; [reflexivity|]. cbn [db set_db submissions set_submissions].
    split; [done|]. split; [by rewrite lookup_insert_eq|].
    split; [rewrite Hdb; subst w1 w0; simpl; reflexivity|].
    split; [simpl; by rewrite Hticks|]. split; [done|].
    intros Hall. destruct Hok as [? _]; [by eauto|done].
Qed.

(** C1: a submission that is saved, due and whose message has a
    newsletter.  Whatever [message.send()] and the templates do, [submit]
    ends with [sending] false in the instance and in its row.  When the
    templates render, a failing [message.send()] stays inside
    [send_message]: [submit] returns, every recipient had its send
    attempted, in order, each failure was logged, and [sent] is true. *)
Theorem submit_isolation env w s k d n :
  sm_pk s = Some k ->
  sm_publish_date s = Some d -> d < clock env (ticks w) ->
  Submission.message_newsletter (db w) s = Ok n ->
  let st := Submission.submit env (w, s) in
  (sm_sending st.1.2 = false ∧ submissions (db st.1.1) !! k = Some st.1.2) ∧
  ((∀ s2 sub, sub ∈ Submission.recipients (db w) k ->
              render env s2 sub = None) ->
     st.2 = Ok tt ∧ sm_sent st.1.2 = true ∧
     sends (trace st.1.1)
     = sends (trace w) ++ Submission.recipients (db w) k ∧
     logged (trace st.1.1)
     = logged (trace w)
       ++ omap (transport env) (Submission.recipients (db w) k)).
Proof.
  intros Hk Hd Hlt Hn.
  destruct (submit_runs env w s k d n Hk Hd Hlt Hn)
    as (w' & s' & r & t' & -> & Hsending & Hrow & _ & _ & _ & Hok).
  simpl. split; [done|]. exact Hok.
Qed.

(** Three recipients, the second one's server refusing the message. *)
Lemma submit_isolation_witness :
  let st := Submission.submit (Sample.env0 [])
              (Sample.w0, Sample.sm 1 10 true) in
  (sm_sending st.1.2 = false ∧
   submissions (db st.1.1) !! 1%positive = Some st.1.2) ∧
  st.2 = Ok tt ∧ sm_sent st.1.2 = true ∧
  sends (trace st.1.1)
  = [Sample.sub 1 "ann@example.org"; Sample.sub 2 "bob@example.org";
     Sample.sub 3 "cat@example.org"] ∧
  logged (trace st.1.1) = [SMTPError].
Proof.
  destruct (submit_isolation (Sample.env0 []) Sample.w0 (Sample.sm 1 10 true)
              1%positive 10 1%positive eq_refl eq_refl eq_refl eq_refl)
    as [Hfinally Hsent].
  split; [exact Hfinally|]. apply Hsent. done.
Defined.

(** When the loop itself raises, here on the templates of the second
    recipient, [sending] is reset and saved all the same. *)
Example submit_loop_raises :
  let st := Submission.submit Sample.env_unrendered
              (Sample.w0, Sample.sm 1 10 true) in
  st.2 = Raise TemplateError ∧
  sends (trace st.1.1) = [Sample.sub 1 "ann@example.org"] ∧
  sm_sent st.1.2 = false ∧ sm_sending st.1.2 = false ∧
  submissions (db st.1.1) !! 1%positive = Some st.1.2.
Proof. vm_compute. repeat split. Qed.

(** ** The guard on the publication date *)

(** C6: a saved submission whose publication date is not strictly before
    the current time: [submit] raises [AssertionError], the database and
    the instance are what they were and no mail was sent. *)
Theorem submit_not_due env w s k d :
  sm_pk s = Some k ->
  sm_publish_date s = Some d -> ¬ d < clock env (ticks w) ->
  let st := Submission.submit env (w, s) in
  st.2 = Raise AssertionError ∧ db st.1.1 = db w ∧ st.1.2 = s ∧
  sends (trace st.1.1) = sends (trace w).
Proof.
  intros Hk Hd Hlt. unfold Submission.submit. munfold. cbn [fst snd].
  rewrite Hk, Hd. cbn [Submission.date_lt].
  rewrite bool_decide_eq_false_2 by done. simpl.
  split; [done|]. split; [done|]. split; [done|].
  rewrite sends_app. simpl. by rewrite app_nil_r.
Qed.

Lemma submit_not_due_witness :
  let st := Submission.submit (Sample.env0 [])
              (Sample.w0, Sample.sm 3 1000 true) in
  st.2 = Raise AssertionError ∧ db st.1.1 = db Sample.w0 ∧
  st.1.2 = Sample.sm 3 1000 true ∧ sends (trace st.1.1) = [].
Proof.
  apply (submit_not_due (Sample.env0 []) Sample.w0 (Sample.sm 3 1000 true)
           3%positive 1000 eq_refl eq_refl).
  vm_compute. discriminate.
Defined.

(** A submission without a publication date fails at the same place, on
    the comparison itself. *)
Lemma submit_no_date env w s k :
  sm_pk s = Some k -> sm_publish_date s = None ->
  let st := Submission.submit env (w, s) in
  st.2 = Raise TypeError ∧ db st.1.1 = db w ∧ st.1.2 = s ∧
  sends (trace st.1.1) = sends (trace w).
Proof.
  intros Hk Hd. unfold Submission.submit. munfold. cbn [fst snd].
  rewrite Hk, Hd. simpl.
  split; [done|]. split; [done|]. split; [done|].
  rewrite sends_app. simpl. by rewrite app_nil_r.
Qed.

(** ** Loops *)

(** A property of the state that every turn keeps holds when the loop is
    left, by its end or by an exception. *)
Lemma for_each_inv {S A} (P : S -> Prop) (body : A -> M S unit) xs s :
  P s ->
  (∀ x s, x ∈ xs -> P s -> P (body x s).1) ->
  P (for_each xs body s).1.
Proof.
  revert s. induction xs as [|x xs IH]; intros s Hs Hbody; [done|].
  simpl. unfold bindM.
  pose proof (Hbody x s ltac:(left) Hs) as Hx.
  destruct (body x s) as [s' [[]|e]]; [|done].
  apply IH; [done|]. intros y s'' Hy. apply Hbody. by right.
Qed.

(** ** The bounce scan leaves the submissions alone *)

Lemma create_bounce_frame subscr status raw w :
  let w' := (create_bounce subscr status raw w).1 in
  trace w' = trace w ∧
  ∃ new, db w' = set_bounces (bounces (db w) ++ new) (db w) ∧
         ticks w' = (ticks w + length new)%nat ∧
         ∀ b, b ∈ new ->
              bn_hard b = is_hard status ∧ bn_status_code b = status ∧
              bn_content b = raw ∧ sub_pk subscr = Some (bn_subscription b).
Proof.
  unfold create_bounce. destruct (sub_pk subscr) as [k|]; simpl.
  - split; [done|]. eexists [_]. split; [done|]. split; [simpl; lia|].
    intros b ->%list_elem_of_singleton. done.
  - split; [done|]. exists [].
    rewrite app_nil_r. split; [by destruct w as [[] ? ?]|].
    split; [simpl; lia|].
    intros b Hb. by apply not_elem_of_nil in Hb.
Qed.


Lemma create_bounces_frame subs status raw w :
  let w' := (for_each subs (fun subscr => create_bounce subscr status raw)
               w).1 in
  trace w' = trace w ∧
  ∃ new, db w' = set_bounces (bounces (db w) ++ new) (db w) ∧
         ticks w' = (ticks w + length new)%nat ∧
         ∀ b, b ∈ new -> created_for subs status raw b.
Proof.
  apply (for_each_inv (fun w' =>
    trace w' = trace w ∧
    ∃ new, db w' = set_bounces (bounces (db w) ++ new) (db w) ∧
           ticks w' = (ticks w + length new)%nat ∧
           ∀ b, b ∈ new -> created_for subs status raw b)).
  - split; [done|]. exists []. rewrite app_nil_r.
    split; [by destruct w as [[] ? ?]|]. split; [simpl; lia|].
    intros b Hb. by apply not_elem_of_nil in Hb.
  - intros subscr w1 Hin (Htr & new & Hdb & Hti & Hnew).
    destruct (create_bounce_frame subscr status raw w1)
      as (Htr' & new' & Hdb' & Hti' & Hnew').
    split; [congruence|].
    exists (new ++ new'). split; [|split].
    + rewrite Hdb', Hdb. simpl. by rewrite app_assoc.
    + rewrite Hti', Hti, length_app. lia.
    + intros b [Hb|Hb]%elem_of_app; [by apply Hnew|].
      destruct (Hnew' b Hb) as (? & ? & ? & ?).
      repeat split; try done. by exists subscr.
Qed.

Lemma handle_message_frame m w :
  let w' := (handle_message m w).1 in
  calls (trace w') = calls (trace w) ∧
  sends (trace w') = sends (trace w) ∧
  ∃ new, db w' = set_bounces (bounces (db w) ++ new) (db w) ∧
    ticks w' = (ticks w + length new)%nat ∧
    ∀ b, b ∈ new ->
      ∃ raw msgobj addr status,
        im_fetch m = Fetched raw msgobj ∧
        recover msgobj = Ok (Some addr, Some status) ∧
        created_for (subscriptions_for (db w) addr) status raw b.
Proof.
  assert (calls (trace w) = calls (trace w) ∧
          sends (trace w) = sends (trace w) ∧
          ∃ new, db w = set_bounces (bounces (db w) ++ new) (db w) ∧
            ticks w = (ticks w + length new)%nat ∧
            ∀ b, b ∈ new ->
              ∃ raw msgobj addr status,
                im_fetch m = Fetched raw msgobj ∧
                recover msgobj = Ok (Some addr, Some status) ∧
                created_for (subscriptions_for (db w) addr) status raw b)
    as Hsame.
  { split; [done|]. split; [done|]. exists [].
    rewrite app_nil_r. split; [by destruct w as [[] ? ?]|].
    split; [simpl; lia|].
    intros b Hb. by apply not_elem_of_nil in Hb. }
  unfold handle_message.
  destruct (im_fetch m) as [| |raw msgobj] eqn:Hf; try exact Hsame.
  munfold. destruct (recover msgobj) as [[[addr|] [status|]]|e] eqn:Hr;
    try exact Hsame.
  destruct (negb (truthy addr) || negb (truthy status)); [exact Hsame|].
  cbn [fst snd].
  pose proof (create_bounces_frame (subscriptions_for (db w) addr) status raw w)
    as (Htr & new & Hdb & Hti & Hnew).
  destruct (for_each _ _ w) as [w1 [[]|e]]; cbn [fst snd] in *.
  - assert (∃ tr, (match im_copy m with
                   | CopyRaises => fun s => (s, Raise IMAPError)
                   | CopyRefused => fun s => (s, Ok tt)
                   | CopyOK => fun s =>
                       match im_store m with
                       | StoreRaises => fun s => (s, Raise IMAPError)
                       | StoreRefused => fun s => (s, Ok tt)
                       | StoreOK => fun s =>
                           (emit_w (ImapDeleted (im_num m)) s, Ok tt)
                       end (emit_w (ImapCopy (im_num m)) s)
                   end w1).1
                  = {| db := db w1; trace := trace w1 ++ tr;
                       ticks := ticks w1 |}
                  ∧ calls tr = [] ∧ sends tr = []) as (tr & Heq & Hc & Hs).
    { destruct (im_copy m); simpl.
      - exists []. rewrite app_nil_r. by destruct w1.
      - exists []. rewrite app_nil_r. by destruct w1.
      - destruct (im_store m); simpl.
        + by exists [ImapCopy (im_num m)].
        + by exists [ImapCopy (im_num m)].
        + exists [ImapCopy (im_num m); ImapDeleted (im_num m)].
          unfold emit_w. simpl. by rewrite <- app_assoc. }
    match goal with |- context [calls (trace (?x).1)] =>
      replace x.1 with {| db := db w1; trace := trace w1 ++ tr;
                          ticks := ticks w1 |}
        by (rewrite <- Heq; destruct (im_copy m), (im_store m); reflexivity)
    end.
    simpl. rewrite calls_app, sends_app, Hc, Hs, !app_nil_r, Htr.
    split; [done|]. split; [done|].
    exists new. split; [done|]. split; [done|]. intros b Hb. eauto 10.
  - rewrite Htr. split; [done|]. split; [done|].
    exists new. split; [done|]. split; [done|]. intros b Hb. eauto 10.
Qed.

(** The whole scan: one call, no mail sent, bounce rows added, the clock
    read once for each, and nothing else written. *)
Lemma check_bounces_frame env w :
  let w' := (check_bounces env w).1 in
  calls (trace w') = calls (trace w) ++ [CallCheckBounces] ∧
  sends (trace w') = sends (trace w) ∧
  ∃ new, db w' = set_bounces (bounces (db w) ++ new) (db w) ∧
         ticks w' = (ticks w + length new)%nat ∧
         ∀ b, b ∈ new -> bn_hard b = is_hard (bn_status_code b).
Proof.
  set (P := fun w' : World =>
    calls (trace w') = calls (trace w) ++ [CallCheckBounces] ∧
    sends (trace w') = sends (trace w) ∧
    ∃ new, db w' = set_bounces (bounces (db w) ++ new) (db w) ∧
           ticks w' = (ticks w + length new)%nat ∧
           ∀ b, b ∈ new -> bn_hard b = is_hard (bn_status_code b)).
  assert (P (emit_w CallCheckBounces w)) as H0.
  { unfold P. simpl. rewrite calls_app, sends_app. simpl.
    rewrite app_nil_r. split; [done|]. split; [done|].
    exists []. rewrite app_nil_r. split; [by destruct w as [[] ? ?]|].
    split; [simpl; lia|].
    intros b Hb. by apply not_elem_of_nil in Hb. }
  assert (∀ e w1, ¬ is_call e = true -> (∀ to, e ≠ MailSend to) ->
            P w1 -> P (emit_w e w1)) as Hemit.
  { intros e w1 He Hm (Hc & Hs & Hdb). unfold P. simpl.
    assert (calls [e] = []) as Hce
      by (unfold calls; by rewrite filter_cons_False).
    assert (sends [e] = []) as Hse
      by (destruct e; try done; by destruct (Hm to)).
    rewrite calls_app, sends_app, Hc, Hs, Hce, Hse, !app_nil_r.
    done. }
  change (P (check_bounces env w).1).
  unfold check_bounces. munfold. cbn [fst snd].
  destruct (BOUNCE_ACCOUNT env) as [account|]; [|exact H0].
  destruct (login_ok (conn env)); cbn [fst snd];
    [|apply Hemit; [done|done|exact H0]].
  set (w1 := (if archive_exists (conn env)
              then (emit_w CallCheckBounces w, Ok tt)
              else (emit_w ImapCreate (emit_w CallCheckBounces w),
                    Ok tt)).1).
  assert (P w1) as H1.
  { subst w1. destruct (archive_exists (conn env)); [exact H0|].
    apply Hemit; [done|done|exact H0]. }
  assert (P (for_each (inbox (conn env)) handle_message w1).1) as H2.
  { apply for_each_inv; [exact H1|].
    intros m w2 _ (Hc & Hs & new & Hdb & Hti & Hnew).
    destruct (handle_message_frame m w2)
      as (Hc' & Hs' & new' & Hdb' & Hti' & Hnew').
    split; [congruence|]. split; [congruence|].
    exists (new ++ new'). split; [|split].
    - rewrite Hdb', Hdb. simpl. by rewrite app_assoc.
    - rewrite Hti', Hti, length_app. lia.
    - intros bo [Hb|Hb]%elem_of_app; [by apply Hnew|].
      destruct (Hnew' bo Hb) as (? & ? & ? & ? & _ & _ & Hh & Hcode & _).
      by rewrite Hh, Hcode. }
  destruct (archive_exists (conn env)); cbn [fst snd] in *.
  - destruct (for_each _ _ _) as [w2 [[]|e]]; cbn [fst snd] in *.
    + apply Hemit; [done|done|done].
    + destruct (is_imap_error e); cbn [fst snd]; [|done].
      apply Hemit; [done|done|done].
  - destruct (for_each _ _ _) as [w2 [[]|e]]; cbn [fst snd] in *.
    + apply Hemit; [done|done|done].
    + destruct (is_imap_error e); cbn [fst snd]; [|done].
      apply Hemit; [done|done|done].
Qed.
(** ** The queue *)

Lemma due_spec t s :
  Submission.due t s = true <->
  sm_prepared s = true ∧ sm_sent s = false ∧ sm_sending s = false ∧
  ∃ d, sm_publish_date s = Some d ∧ d < t.
Proof.
  unfold Submission.due.
  rewrite !andb_true_iff, !negb_true_iff.
  destruct (sm_publish_date s) as [d|].
  - rewrite bool_decide_eq_true. split.
    + intros [[[? ?] ?] ?]. eauto 10.
    + intros (? & ? & ? & d' & [= <-] & ?). done.
  - split; [by intros [_ ?]|]. by intros (_ & _ & _ & ? & ? & _).
Qed.

Lemma elem_of_rows {A} (t : gmap positive A) (x : A) :
  x ∈ rows t <-> ∃ k, t !! k = Some x.
Proof.
  unfold rows. rewrite list_elem_of_fmap. split.
  - intros [[k y] [-> Hin]]. exists k. by apply elem_of_map_to_list.
  - intros [k Hk]. exists (k, x). split; [done|].
    by apply elem_of_map_to_list.
Qed.

(** The loop of the queue: every submission picked is submitted, none of
    the assertions of [submit] can fail on a clock that does not run
    backwards. *)
Lemma queue_loop env (w0 : World) t todo :
  (∀ i j, (i ≤ j)%nat -> clock env i ≤ clock env j) ->
  (∀ s sub, render env s sub = None) ->
  (∀ s, s ∈ todo ->
     ∃ k d n, sm_pk s = Some k ∧ sm_publish_date s = Some d ∧ d < t ∧
              Submission.message_newsletter (db w0) s = Ok n) ->
  ∀ w, t ≤ clock env (ticks w) ->
       messages (db w) = messages (db w0) ∧
       newsletters (db w) = newsletters (db w0) ->
  ∃ w', for_each todo (fun s => call s (Submission.submit env)) w
        = (w', Ok tt) ∧
        calls (trace w') = calls (trace w) ++ (CallSubmit <$> todo).
Proof.
  intros Hmono Hrender. induction todo as [|s todo IH]; intros Htodo w Ht Hm.
  - exists w. split; [done|]. by rewrite app_nil_r.
  - destruct (Htodo s ltac:(left)) as (k & d & n & Hk & Hd & Hlt & Hn).
    destruct (submit_runs env w s k d n) as
      (w1 & s1 & r & t' & Hrun & _ & _ & Hdb & Hti & Hc & Hok); try done.
    { lia. }
    { by rewrite (message_newsletter_ext _ (db w0) _ s). }
    destruct Hok as [-> _]; [by eauto|].
    destruct (IH ltac:(intros; apply Htodo; by right) w1) as (w' & Hloop & Hc').
    { rewrite Hti. etrans; [exact Ht|]. apply Hmono. lia. }
    { rewrite Hdb. exact Hm. }
    exists w'. simpl. unfold bindM, call at 1. rewrite Hrun, Hloop.
    split; [done|]. rewrite Hc', Hc, <- app_assoc. done.
Qed.



(** The end-to-end scenario: of three submissions one is due; after the
    queue has run it is sent, not being sent, and one mail per subscriber
    was handed to the transport. *)
Example submit_queue_end_to_end :
  let w := (Submission.submit_queue (Sample.env0 []) Sample.w0).1 in
  (sm_sent <$> submissions (db w) !! 1%positive) = Some true ∧
  (sm_sending <$> submissions (db w) !! 1%positive) = Some false ∧
  (sm_sent <$> submissions (db w) !! 2%positive) = Some false ∧
  (sm_sent <$> submissions (db w) !! 3%positive) = Some false ∧
  length (sends (trace w)) = 3%nat.
Proof. vm_compute. repeat split. Qed.
(** ** Bounce rows *)

(** C2: every bounce row created while a message of the inbox is handled
    carries the status [s] recovered from that message, and its hard flag
    is true exactly when [s] starts with '5' and is not "5.2.2": "5.2.2"
    gives a soft bounce, every other status of class 5 a hard one, every
    status of class 2 or 4 a soft one. *)
Theorem bounce_classification (m : imap_message) (w : World) :
  (∃ new,
     bounces (db (handle_message m w).1) = bounces (db w) ++ new ∧
     ∀ b, b ∈ new ->
       ∃ raw msgobj addr s,
         im_fetch m = Fetched raw msgobj ∧
         recover msgobj = Ok (Some addr, Some s) ∧
         bn_status_code b = s ∧ bn_hard b = is_hard s ∧
         (bn_hard b = true <-> (∃ r, s = "5"%char :: r) ∧ s ≠ txt "5.2.2")) ∧
  is_hard (txt "5.2.2") = false ∧
  (∀ r, "5"%char :: r ≠ txt "5.2.2" -> is_hard ("5"%char :: r) = true) ∧
  (∀ r, is_hard ("2"%char :: r) = false) ∧
  (∀ r, is_hard ("4"%char :: r) = false).
Proof.
  split; [|apply (is_hard_spec [])].
  destruct (handle_message_frame m w) as (_ & _ & new & Hdb & _ & Hnew).
  exists new. split; [by rewrite Hdb|].
  intros b Hb.
  destruct (Hnew b Hb) as (raw & msgobj & addr & s & Hf & Hr & Hh & Hc & _).
  exists raw, msgobj, addr, s. repeat (split; [done|]).
  rewrite Hh. apply is_hard_spec.
Qed.

(** A notification with status 5.1.1 for a VERP-encoded recipient. *)
Lemma bounce_classification_witness :
  let m := {| im_num := 1; im_fetch := Fetched (txt "raw") Sample.dsn_verp;
              im_copy := CopyOK;
              im_store := StoreOK |} in
  bounces (db (handle_message m Sample.w0).1)
  = [{| bn_subscription := 2; bn_hard := true;
        bn_status_code := txt "5.1.1"; bn_content := txt "raw" |}] ∧
  ∃ new,
    bounces (db (handle_message m Sample.w0).1)
    = bounces (db Sample.w0) ++ new ∧
    ∀ b, b ∈ new ->
      ∃ raw msgobj addr s,
        im_fetch m = Fetched raw msgobj ∧
        recover msgobj = Ok (Some addr, Some s) ∧
        bn_status_code b = s ∧ bn_hard b = is_hard s ∧
        (bn_hard b = true <-> (∃ r, s = "5"%char :: r) ∧ s ≠ txt "5.2.2").
Proof.
  intros m. split; [reflexivity|].
  exact (proj1 (bounce_classification m Sample.w0)).
Defined.

(** ** Recovering the address and the status *)

(** An address decoded from the [To] header is kept: the delivery-status
    part is then read for the status only. *)
Lemma scan_subpart_keeps a status subpart :
  truthy a = true -> (scan_subpart (Some a, status) subpart).1 = Some a.
Proof.
  intros Ha. unfold scan_subpart. cbn [otruthy fst]. rewrite Ha. reflexivity.
Qed.

Lemma scan_subparts_keeps a status subparts :
  truthy a = true -> (scan_subparts (Some a, status) subparts).1 = Some a.
Proof.
  intros Ha. revert status.
  induction subparts as [|sp sps IH]; intros status; [done|].
  cbn [scan_subparts]. pose proof (scan_subpart_keeps a status sp Ha) as Hk.
  destruct (scan_subpart (Some a, status) sp) as [addr' status'].
  cbn [fst snd] in *. subst addr'. cbn [otruthy]. rewrite Ha.
  destruct (otruthy status'); [done|]. apply IH.
Qed.

Lemma recipient_truthy ud : truthy (Verp.recipient ud) = true.
Proof. unfold Verp.recipient. by destruct ud.1. Qed.

Lemma recover_verp msgobj to ud :
  header (txt "To") msgobj = Some to ->
  Verp.decode to = Some ud ->
  ∃ status, recover msgobj = Ok (Some (Verp.recipient ud), status).
Proof.
  intros Hto Hd. unfold recover, verp_address. rewrite Hto, Hd. simpl.
  unfold scan_parts. destruct (list_find _ _) as [[i part]|]; [|by eexists].
  pose proof (scan_subparts_keeps (Verp.recipient ud) None (walk part)
                (recipient_truthy ud)) as Hk.
  destruct (scan_subparts _ _) as [addr status]. simpl in Hk. subst addr.
  by eexists.
Qed.

(** Without an address from the [To] header, a sub-part gives its
    [Original-Recipient] field, and its [Final-Recipient] field only when
    it has no [Original-Recipient]; every "rfc822;" is cut out of a
    non-empty value. *)
Lemma scan_subpart_original addr status subpart v :
  otruthy addr = false ->
  header (txt "Original-Recipient") subpart = Some v ->
  (scan_subpart (addr, status) subpart).1 = Some (cut_rfc822 (strip v)).
Proof.
  intros Ha Hv. unfold scan_subpart, has_header, cut_rfc822. cbn [fst].
  rewrite Ha, Hv. cbn [negb fmap option_fmap option_map].
  rewrite bool_decide_eq_true_2 by done.
  by destruct (truthy (strip v) && contains RFC822 (strip v)).
Qed.

Lemma scan_subpart_final addr status subpart v :
  otruthy addr = false ->
  header (txt "Original-Recipient") subpart = None ->
  header (txt "Final-Recipient") subpart = Some v ->
  (scan_subpart (addr, status) subpart).1 = Some (cut_rfc822 (strip v)).
Proof.
  intros Ha Ho Hv. unfold scan_subpart, has_header, cut_rfc822. cbn [fst].
  rewrite Ha, Ho, Hv. cbn [negb fmap option_fmap option_map].
  rewrite bool_decide_eq_false_2 by (by intros [? ?]).
  rewrite bool_decide_eq_true_2 by done.
  by destruct (truthy (strip v) && contains RFC822 (strip v)).
Qed.

(** A message whose address or status cannot be recovered is left alone:
    no row, no copy, no flag. *)
Lemma handle_message_skip m w raw msgobj addr status :
  im_fetch m = Fetched raw msgobj ->
  recover msgobj = Ok (addr, status) ->
  otruthy addr && otruthy status = false ->
  handle_message m w = (w, Ok tt).
Proof.
  intros Hf Hr Hno. unfold handle_message. rewrite Hf. munfold. rewrite Hr.
  destruct addr as [a|], status as [s|]; try done.
  simpl in Hno. by destruct (truthy a), (truthy s).
Qed.

(** A message without a [To] header stops the scan with a [TypeError]. *)
Lemma handle_message_no_to m w raw msgobj :
  im_fetch m = Fetched raw msgobj ->
  header (txt "To") msgobj = None ->
  handle_message m w = (w, Raise TypeError).
Proof.
  intros Hf Hto. unfold handle_message, recover. rewrite Hf. munfold.
  by rewrite Hto.
Qed.


Lemma startswith_app p s : startswith p (p ++ s) = true.
Proof.
  induction p as [|c p IH]; [by destruct s|].
  simpl. by rewrite bool_decide_eq_true_2.
Qed.

Lemma remove_all_fuel_absent fuel p s :
  contains p s = false -> remove_all_fuel fuel p s = s.
Proof.
  revert s. induction fuel as [|fuel IH]; intros s Hs; [done|].
  destruct s as [|x s]; [done|].
  simpl in Hs. apply orb_false_iff in Hs as [Hstart Hrest].
  cbn [remove_all_fuel]. rewrite Hstart. by rewrite IH.
Qed.

Lemma startswith_contains p s :
  startswith p s = true -> contains p s = true.
Proof. intros H. destruct s; cbn [contains]; by rewrite H. Qed.

Lemma remove_all_prefix p s :
  p ≠ [] -> contains p s = false -> remove_all p (p ++ s) = s.
Proof.
  intros Hp Hs. destruct p as [|c p]; [done|].
  pose proof (startswith_app (c :: p) s) as Hstart.
  unfold remove_all. cbn [app length remove_all_fuel] in *.
  rewrite Hstart. cbn [drop]. rewrite drop_app_length.
  by apply remove_all_fuel_absent.
Qed.

(** [strip] removes Python's whitespace, the no-break space and the
    information separators included. *)
Example strip_python_whitespace :
  strip ([ascii_of_nat 160; ascii_of_nat 9] ++ txt "bob@example.org"
         ++ [ascii_of_nat 31; ascii_of_nat 133; ascii_of_nat 32])
  = txt "bob@example.org".
Proof. reflexivity. Qed.

(** A leading "rfc822;" is cut off. *)
Lemma cut_rfc822_prefix a :
  contains RFC822 a = false -> cut_rfc822 (RFC822 ++ a) = a.
Proof.
  intros Ha. unfold cut_rfc822.
  rewrite (startswith_contains _ _ (startswith_app RFC822 a)).
  replace (truthy (RFC822 ++ a)) with true by reflexivity.
  cbn [andb]. by apply remove_all_prefix.
Qed.

Example cut_final_recipient :
  cut_rfc822 (strip (txt "rfc822;bob@example.org ")) = txt "bob@example.org".
Proof. reflexivity. Qed.

(** C8: the two-tier recovery is not reached for a message without a [To]
    header.  A delivery-status notification for bob@example.org without
    that header, followed by a VERP-addressed one: matching the missing
    header raises a [TypeError] that [check_bounces] does not catch, the
    scan ends there and neither message is handled.  With a [To] header
    that is not VERP-encoded the same notification goes through the
    fallback. *)
Theorem scan_without_to_header :
  let st := check_bounces (Sample.env0 [Sample.dsn_no_to; Sample.dsn_verp])
              Sample.w0 in
  recover Sample.dsn_no_to = Raise TypeError ∧
  st.2 = Raise TypeError ∧ bounces (db st.1) = [] ∧
  trace st.1 = [CallCheckBounces] ∧
  recover Sample.dsn_plain
  = Ok (Some (txt "bob@example.org"), Some (txt "5.1.1")).
Proof. vm_compute. repeat split. Qed.

(** A mail that is no bounce, handled by [handle_message_skip]: the world
    after the scan differs by the record of the call and of the purge. *)
Example scan_not_a_bounce :
  let st := check_bounces (Sample.env0 [Sample.not_a_bounce]) Sample.w0 in
  st.2 = Ok tt ∧ db st.1 = db Sample.w0 ∧
  trace st.1 = [CallCheckBounces; ImapExpunge].
Proof. vm_compute. repeat split. Qed.

(** When the templates fail for a recipient the exception leaves
    [submit_queue]: the bounce scan is not reached in that run. *)
Example submit_queue_unrendered :
  let st := Submission.submit_queue Sample.env_unrendered Sample.w0 in
  st.2 = Raise TemplateError ∧
  calls (trace st.1) = [CallSubmit (Sample.sm 1 10 true)].
Proof. vm_compute. repeat split. Qed.

(** * More properties *)

(** ** [Subscription.save] and [Subscription.update] *)

Lemma fresh_key_unused {A} (t : gmap positive A) : t !! fresh (dom t) = None.
Proof. apply not_elem_of_dom, is_fresh. Qed.

(** The shape of a save that returned: one row written under the key of
    the instance, a key not in use when the instance was new, and no
    other table touched. *)
Lemma save_ok_shape env w s w' s' :
  Subscription.save env (w, s) = ((w', s'), Ok tt) ->
  ∃ k,
    sub_pk s' = Some k ∧
    db w' = set_subscriptions (<[k := s']> (subscriptions (db w))) (db w) ∧
    trace w' = trace w ∧
    (sub_pk s = Some k ∨
     (sub_pk s = None ∧ subscriptions (db w) !! k = None)) ∧
    ((∀ old, subscriptions (db w) !! k = Some old ->
             ¬ (sub_subscribed old = true ∧ sub_unsubscribed old = true)) ->
     ¬ (sub_subscribed s' = true ∧ sub_unsubscribed s' = true)).
Proof.
  intros Hsave.
  destruct (save_ok_inv _ _ _ _ _ Hsave) as [Hid Hrow].
  revert Hsave. unfold Subscription.save. munfold. simpl.
  assert (Subscription.has_user s || Subscription.has_email s = true) as ->
    by (destruct (Subscription.has_user s), (Subscription.has_email s); done).
  assert (Subscription.has_user s && negb (Subscription.has_email s)
          || Subscription.has_email s && negb (Subscription.has_user s) = true)
    as -> by (destruct (Subscription.has_user s), (Subscription.has_email s);
              done).
  unfold Subscription._subscribe, Subscription._unsubscribe,
    Subscription.count_pk, Subscription.objects_get,
    Subscription.base_save. munfold. simpl.
  destruct (sub_pk s) as [k|] eqn:Hk.
  - destruct (Hrow k eq_refl) as [old Hold]. cbn [fst snd]. rewrite Hold.
    simpl.
    destruct (sub_subscribed s) eqn:Hs, (sub_unsubscribed s) eqn:Hu,
      (sub_subscribed old) eqn:Hos, (sub_unsubscribed old) eqn:Hou;
      simpl; rewrite ?Hk; simpl;
      (destruct (Subscription.refused _ _ _); [done|]);
      intros [= <- <-]; exists k; simpl;
      (split; [done|]); (split; [done|]); (split; [done|]);
      (split; [by left|]); intros Hex; rewrite ?Hs, ?Hu;
      try (by intros [? ?]);
      specialize (Hex old Hold); rewrite Hos, Hou in Hex; by destruct Hex.
  - destruct (sub_subscribed s) eqn:Hs, (sub_unsubscribed s) eqn:Hu;
      simpl; rewrite ?Hk; simpl;
      (destruct (Subscription.refused _ _ _); [done|]);
      intros [= <- <-];
      eexists; simpl;
      (split; [done|]); (split; [done|]); (split; [done|]);
      (split; [right; split; [done|apply fresh_key_unused]|]);
      intros _; rewrite ?Hs, ?Hu; by intros [? ?].
Qed.

(** X1: a save never makes a row both subscribed and unsubscribed: when no
    stored row has both flags, none has after a save that returned,
    whatever flags the saved instance carried. *)
Theorem save_keeps_flags_exclusive env w s w' s' :
  flags_exclusive (subscriptions (db w)) ->
  Subscription.save env (w, s) = ((w', s'), Ok tt) ->
  flags_exclusive (subscriptions (db w')) ∧
  ¬ (sub_subscribed s' = true ∧ sub_unsubscribed s' = true).
Proof.
  intros Hex Hsave.
  destruct (save_ok_shape _ _ _ _ _ Hsave) as (k & Hk & Hdb & _ & _ & Hflags).
  assert (¬ (sub_subscribed s' = true ∧ sub_unsubscribed s' = true)) as Hs'
    by (apply Hflags; intros old Hold; by apply (Hex k)).
  split; [|done]. rewrite Hdb. simpl. intros j r.
  rewrite lookup_insert. case_decide.
  - by intros [= <-].
  - apply Hex.
Qed.

Lemma save_keeps_flags_exclusive_witness :
  let st := Subscription.save (Sample.env0 [])
              (Sample.w0,
               Subscription.with_unsubscribed true
                 (Sample.sub 2 "bob@example.org")) in
  flags_exclusive (subscriptions (db st.1.1)) ∧
  ¬ (sub_subscribed st.1.2 = true ∧ sub_unsubscribed st.1.2 = true).
Proof.
  intros st.
  apply (save_keeps_flags_exclusive (Sample.env0 []) Sample.w0
           (Subscription.with_unsubscribed true
              (Sample.sub 2 "bob@example.org")) st.1.1 st.1.2).
  - intros k s H. unfold Sample.w0, Sample.db0 in H.
    cbn [db subscriptions] in H.
    repeat (apply lookup_insert_Some in H as [[<- <-]|[? H]];
            [by intros [? ?]|]).
    by rewrite lookup_empty in H.
  - vm_compute. reflexivity.
Defined.

(** X2: a save that returned wrote the row of the instance and nothing
    else: every other subscription row, every other table and the trace
    are as before, and a new instance got a key that was not in use. *)
Theorem save_writes_one_row env w s w' s' :
  Subscription.save env (w, s) = ((w', s'), Ok tt) ->
  ∃ k,
    sub_pk s' = Some k ∧ subscriptions (db w') !! k = Some s' ∧
    (∀ j, j ≠ k -> subscriptions (db w') !! j = subscriptions (db w) !! j) ∧
    (sub_pk s = None -> subscriptions (db w) !! k = None) ∧
    set_subscriptions (subscriptions (db w)) (db w') = db w ∧
    trace w' = trace w.
Proof.
  intros Hsave.
  destruct (save_ok_shape _ _ _ _ _ Hsave)
    as (k & Hk & Hdb & Htr & Hkey & _).
  exists k. rewrite Hdb. simpl.
  split; [done|]. split; [by rewrite lookup_insert_eq|].
  split; [intros j Hj; by rewrite lookup_insert_ne|].
  split; [|split; [by destruct (db w)|done]].
  intros Hnone. destruct Hkey as [Hsome|[_ ?]]; [congruence|done].
Qed.

Lemma save_writes_one_row_witness :
  let st := Subscription.save (Sample.env0 []) (Sample.w0, Sample.new_sub) in
  ∃ k,
    sub_pk st.1.2 = Some k ∧
    subscriptions (db st.1.1) !! k = Some st.1.2 ∧
    (∀ j, j ≠ k -> subscriptions (db st.1.1) !! j
                   = subscriptions (db Sample.w0) !! j) ∧
    (sub_pk Sample.new_sub = None ->
     subscriptions (db Sample.w0) !! k = None) ∧
    set_subscriptions (subscriptions (db Sample.w0)) (db st.1.1)
    = db Sample.w0 ∧
    trace st.1.1 = trace Sample.w0.
Proof.
  intros st.
  apply (save_writes_one_row (Sample.env0 []) Sample.w0 Sample.new_sub
           st.1.1 st.1.2).
  vm_compute. reflexivity.
Defined.

(** X3: an action other than 'subscribe', 'update' and 'unsubscribe' is
    refused with an [AssertionError] before the instance or the database
    is touched. *)
Theorem update_unknown_action env w s action :
  action ∉ [txt "subscribe"; txt "update"; txt "unsubscribe"] ->
  Subscription.update env action (w, s) = ((w, s), Raise AssertionError).
Proof.
  intros Hno. unfold Subscription.update. munfold.
  by rewrite bool_decide_eq_false_2.
Qed.

Lemma update_unknown_action_witness :
  Subscription.update (Sample.env0 []) (txt "delete")
    (Sample.w0, Sample.sub 1 "ann@example.org")
  = ((Sample.w0, Sample.sub 1 "ann@example.org"), Raise AssertionError).
Proof.
  apply update_unknown_action.
  apply (bool_decide_unpack _). by vm_compute.
Defined.

Lemma with_unsubscribed_id s :
  sub_unsubscribed s = true -> Subscription.with_unsubscribed true s = s.
Proof. destruct s. simpl. by intros ->. Qed.

(** X4: asking to unsubscribe a saved subscription that is not
    unsubscribed clears [subscribed], sets [unsubscribed], stamps
    [unsubscribe_date] with the current time, keeps [subscribe_date] and
    writes the row. *)
Theorem update_unsubscribe env w s k :
  sub_pk s = Some k ->
  subscriptions (db w) !! k = Some s ->
  Subscription.has_user s ≠ Subscription.has_email s ->
  sub_unsubscribed s = false ->
  let st := Subscription.update env (txt "unsubscribe") (w, s) in
  st.2 = Ok tt ∧
  sub_subscribed st.1.2 = false ∧ sub_unsubscribed st.1.2 = true ∧
  sub_unsubscribe_date st.1.2 = Some (clock env (ticks w)) ∧
  sub_subscribe_date st.1.2 = sub_subscribe_date s ∧
  subscriptions (db st.1.1) !! k = Some st.1.2.
Proof.
  intros Hk Hrow Hid Hu.
  unfold Subscription.update, Subscription.save. munfold. simpl.
  replace (Subscription.has_user (Subscription.with_unsubscribed true s))
    with (Subscription.has_user s) by done.
  replace (Subscription.has_email (Subscription.with_unsubscribed true s))
    with (Subscription.has_email s) by done.
  assert (Subscription.has_user s || Subscription.has_email s = true) as ->
    by (destruct (Subscription.has_user s), (Subscription.has_email s); done).
  assert (Subscription.has_user s && negb (Subscription.has_email s)
          || Subscription.has_email s && negb (Subscription.has_user s) = true)
    as -> by (destruct (Subscription.has_user s), (Subscription.has_email s);
              done).
  unfold Subscription._subscribe, Subscription._unsubscribe,
    Subscription.count_pk, Subscription.objects_get,
    Subscription.base_save. munfold. simpl.
  rewrite Hk. cbn [fst snd]. rewrite Hrow. simpl. rewrite Hu. simpl.
  rewrite andb_negb_r. simpl. rewrite Hk. simpl.
  rewrite (refused_stored _ k s) by done. simpl.
  by rewrite lookup_insert_eq.
Qed.

Lemma update_unsubscribe_witness :
  let st := Subscription.update (Sample.env0 []) (txt "unsubscribe")
              (Sample.w0, Sample.sub 2 "bob@example.org") in
  st.2 = Ok tt ∧
  sub_subscribed st.1.2 = false ∧ sub_unsubscribed st.1.2 = true ∧
  sub_unsubscribe_date st.1.2 = Some 100 ∧
  sub_subscribe_date st.1.2 = Some 5 ∧
  subscriptions (db st.1.1) !! 2%positive = Some st.1.2.
Proof.
  apply (update_unsubscribe (Sample.env0 []) Sample.w0
           (Sample.sub 2 "bob@example.org") 2%positive);
    try reflexivity.
  vm_compute. discriminate.
Defined.

(** X5: asking to subscribe (or to update) a saved subscription that is
    not subscribed, never subscribed or unsubscribed, sets [subscribed],
    clears [unsubscribed], stamps [subscribe_date] with the current time,
    keeps [unsubscribe_date] and writes the row. *)
Theorem update_subscribe env w s k action :
  action = txt "subscribe" ∨ action = txt "update" ->
  sub_pk s = Some k ->
  subscriptions (db w) !! k = Some s ->
  Subscription.has_user s ≠ Subscription.has_email s ->
  sub_subscribed s = false ->
  let st := Subscription.update env action (w, s) in
  st.2 = Ok tt ∧
  sub_subscribed st.1.2 = true ∧ sub_unsubscribed st.1.2 = false ∧
  sub_subscribe_date st.1.2 = Some (clock env (ticks w)) ∧
  sub_unsubscribe_date st.1.2 = sub_unsubscribe_date s ∧
  subscriptions (db st.1.1) !! k = Some st.1.2.
Proof.
  intros Hact Hk Hrow Hid Hs.
  assert (Subscription.update env action (w, s)
          = Subscription.save env (w, Subscription.with_subscribed true s))
    as -> by (by destruct Hact as [-> | ->]).
  unfold Subscription.save. munfold. simpl.
  replace (Subscription.has_user (Subscription.with_subscribed true s))
    with (Subscription.has_user s) by done.
  replace (Subscription.has_email (Subscription.with_subscribed true s))
    with (Subscription.has_email s) by done.
  assert (Subscription.has_user s || Subscription.has_email s = true) as ->
    by (destruct (Subscription.has_user s), (Subscription.has_email s); done).
  assert (Subscription.has_user s && negb (Subscription.has_email s)
          || Subscription.has_email s && negb (Subscription.has_user s) = true)
    as -> by (destruct (Subscription.has_user s), (Subscription.has_email s);
              done).
  unfold Subscription._subscribe, Subscription._unsubscribe,
    Subscription.count_pk, Subscription.objects_get,
    Subscription.base_save. munfold. simpl.
  rewrite Hk. cbn [fst snd]. rewrite Hrow. simpl. rewrite Hs. simpl.
  rewrite Hk. simpl. rewrite (refused_stored _ k s) by done. simpl.
  by rewrite lookup_insert_eq.
Qed.

(** Unsubscribing and subscribing again: the new subscription date is the
    time of the second request, the date of the unsubscription stays. *)
Lemma update_subscribe_witness :
  let st1 := (Subscription.update (Sample.env0 []) (txt "unsubscribe")
                (Sample.w0, Sample.sub 2 "bob@example.org")).1 in
  let st := Subscription.update (Sample.env0 []) (txt "subscribe") st1 in
  st.2 = Ok tt ∧
  sub_subscribed st.1.2 = true ∧ sub_unsubscribed st.1.2 = false ∧
  sub_subscribe_date st.1.2 = Some 101 ∧
  sub_unsubscribe_date st.1.2 = Some 100 ∧
  subscriptions (db st.1.1) !! 2%positive = Some st.1.2.
Proof.
  intros st1.
  apply (update_subscribe (Sample.env0 []) st1.1 st1.2 2%positive
           (txt "subscribe")); try reflexivity.
  - by left.
  - vm_compute. discriminate.
Defined.

(** X6: saving an instance whose key has no row fails on the third
    [assert]; nothing is written and the instance keeps its fields. *)
Theorem save_key_without_row env w s k :
  sub_pk s = Some k -> subscriptions (db w) !! k = None ->
  Subscription.save env (w, s) = ((w, s), Raise AssertionError).
Proof.
  intros Hk Hnone. unfold Subscription.save, Subscription.count_pk. munfold.
  simpl. rewrite Hk. cbn [fst snd]. rewrite Hnone. simpl.
  by destruct (Subscription.has_user s), (Subscription.has_email s).
Qed.

Lemma save_key_without_row_witness :
  Subscription.save (Sample.env0 [])
    (Sample.w0, Sample.sub 9 "zoe@example.org")
  = ((Sample.w0, Sample.sub 9 "zoe@example.org"), Raise AssertionError).
Proof.
  by apply (save_key_without_row _ _ _ 9%positive).
Defined.

(** ** The address of a subscription *)

Lemma iequal_empty a : truthy a = true -> iequal [] a = false.
Proof. by destruct a. Qed.

(** X7: for a subscription that passes the identity check, and whose
    linked account exists, the bounce scan matches a non-empty address
    exactly when it is, up to case, the address [get_email] returns: the
    one mail to the subscriber is sent to. *)
Theorem matches_get_email d s addr :
  Subscription.has_user s ≠ Subscription.has_email s ->
  (∀ k, sub_user s = Some k -> is_Some (users d !! k)) ->
  truthy addr = true ->
  ∃ e, Subscription_get_email d s = Ok (Some e) ∧
       matches_address d addr s = iequal e addr.
Proof.
  intros Hid Huser Haddr.
  unfold Subscription.has_user, Subscription.has_email in Hid.
  unfold Subscription_get_email, matches_address.
  destruct (sub_user s) as [k|] eqn:Hu.
  - destruct (Huser k eq_refl) as [u Hk]. rewrite Hk.
    exists (user_email u). split; [done|].
    rewrite bool_decide_eq_true_2 in Hid by done.
    destruct (sub_email_field s) as [e|]; simpl in *.
    + destruct e; [|done]. by rewrite iequal_empty, orb_false_r.
    + by rewrite orb_false_r.
  - rewrite bool_decide_eq_false_2 in Hid by (by intros [? ?]).
    destruct (sub_email_field s) as [e|]; simpl in *; [|done].
    by exists e.
Qed.

Lemma matches_get_email_witness :
  ∃ e, Subscription_get_email Sample.db0 (Sample.sub 2 "bob@example.org")
       = Ok (Some e) ∧
       matches_address Sample.db0 (txt "Bob@Example.ORG")
         (Sample.sub 2 "bob@example.org")
       = iequal e (txt "Bob@Example.ORG").
Proof.
  apply matches_get_email.
  - vm_compute. discriminate.
  - intros k. vm_compute. discriminate.
  - reflexivity.
Defined.

(** X8: [set_email] followed by [get_email] gives the address back when no
    account is linked, and the account's address, unchanged, when one
    is. *)
Theorem set_get_email d s e :
  (∀ k, sub_user s = Some k -> is_Some (users d !! k)) ->
  Subscription_get_email d (Subscription_set_email e s)
  = match sub_user s with
    | Some k => Ok (user_email <$> users d !! k)
    | None => Ok (Some e)
    end.
Proof.
  intros Huser.
  unfold Subscription_set_email, Subscription_get_email,
    Subscription.has_user.
  destruct (sub_user s) as [k|] eqn:Hu.
  - rewrite bool_decide_eq_true_2 by done. rewrite Hu.
    by destruct (Huser k eq_refl) as [u ->].
  - rewrite bool_decide_eq_false_2 by (by intros [? ?]). simpl.
    by rewrite Hu.
Qed.

Lemma set_get_email_witness :
  Subscription_get_email Sample.db0
    (Subscription_set_email (txt "new@example.org") Sample.both_sub)
  = Ok (Some (txt "eve@example.org")).
Proof.
  rewrite set_get_email; [reflexivity|].
  intros k [= <-]. by eexists.
Defined.

(** ** [Submission.save] and [Submission.submit] *)



(** A submission whose message points to a newsletter that has no row:
    following the foreign key raises, nothing is written. *)
Example submission_save_dangling_newsletter :
  let stray := {| msg_pk := Some 1%positive; msg_title := txt "Issue 1";
                  msg_slug := txt "issue-1";
                  msg_newsletter := Some 9%positive |} in
  let w := set_db (set_messages {[ 1%positive := stray ]} Sample.db0)
                  Sample.w0 in
  Submission.save (w, Sample.sm 1 10 true)
  = ((w, Sample.sm 1 10 true), Raise DoesNotExist).
Proof. reflexivity. Qed.

(** What a run of [submit] leaves in the database: the row of the
    submission, rewritten, and nothing else. *)
Lemma submit_effect env w s k d n :
  sm_pk s = Some k ->
  sm_publish_date s = Some d -> d < clock env (ticks w) ->
  Submission.message_newsletter (db w) s = Ok n ->
  ∃ w' s' r,
    Submission.submit env (w, s) = ((w', s'), r) ∧
    db w' = set_submissions (<[k := s']> (submissions (db w))) (db w) ∧
    sm_pk s' = Some k ∧ sm_sending s' = false ∧
    sm_message s' = sm_message s ∧
    sm_publish_date s' = sm_publish_date s ∧
    sm_prepared s' = sm_prepared s ∧ sm_publish s' = sm_publish s ∧
    sm_newsletter s' = Some n ∧
    sm_sent s' = match r with Ok _ => true | Raise _ => sm_sent s end.
Proof.
  intros Hk Hd Hlt Hn.
  unfold Submission.submit. munfold. cbn [fst snd].
  rewrite Hk, Hd. cbn [Submission.date_lt].
  rewrite bool_decide_eq_true_2 by done.
  cbn [fst snd emit_w tick db].
  unfold Submission.save at 1. munfold. cbn [fst snd db].
  rewrite (message_newsletter_ext _ (db w) _ s) by done.
  rewrite Hn. cbn [fst snd]. unfold Submission.base_save at 1.
  cbn [fst snd db ticks trace Submission.with_newsletter
       Submission.with_sending sm_pk default].
  rewrite Hk. cbn [default]. unfold id.
  set (s1 := Submission.with_pk k
               (Submission.with_newsletter n (Submission.with_sending true s))).
  set (w0 := tick (emit_w (CallSubmit s) w)).
  set (w1 := set_db (set_submissions (<[k:=s1]> (submissions (db w0))) (db w0))
                    w0).
  change (Submission.recipients (db w1) k)
    with (Submission.recipients (db w) k).
  destruct (send_loop env (Submission.recipients (db w) k) w1 s1)
    as (w2 & r0 & Hrun & Hdb & _).
  rewrite Hrun.
  assert (∀ s3, sm_message s3 = sm_message s -> sm_pk s3 = Some k ->
            Submission.save (w2, s3)
            = ((set_db (set_submissions
                          (<[k:=Submission.with_pk k
                                  (Submission.with_newsletter n s3)]>
                             (submissions (db w2))) (db w2)) w2,
                Submission.with_pk k (Submission.with_newsletter n s3)),
               Ok tt)) as Hsave.
  { intros s3 Hm Hk3.
    unfold Submission.save. munfold. cbn [fst snd].
    rewrite (message_newsletter_ext _ (db w) _ s); [|by rewrite Hdb|done].
    rewrite Hn. cbn [fst snd]. unfold Submission.base_save.
    cbn [Submission.with_newsletter sm_pk]. by rewrite Hk3. }
  destruct r0 as [[]|e]; cbn [fst snd]; rewrite Hsave by done;
    eexists _, _, _; (split; [reflexivity|]);
    cbn [db set_db submissions set_submissions]; rewrite Hdb;
    subst w1 w0; simpl; rewrite insert_insert_eq; done.
Qed.

(** X10: a run of [submit] on a saved, due submission writes the row of
    that submission and nothing else: the other submissions, the
    subscriptions, the bounces, the messages and the links are as before,
    and of the row itself only [newsletter], [sent] and [sending] can have
    changed. *)
Theorem submit_writes_own_row env w s k d n :
  sm_pk s = Some k ->
  sm_publish_date s = Some d -> d < clock env (ticks w) ->
  Submission.message_newsletter (db w) s = Ok n ->
  let st := Submission.submit env (w, s) in
  set_submissions (submissions (db w)) (db st.1.1) = db w ∧
  (∀ j, j ≠ k -> submissions (db st.1.1) !! j = submissions (db w) !! j) ∧
  submissions (db st.1.1) !! k = Some st.1.2 ∧
  sm_message st.1.2 = sm_message s ∧
  sm_publish_date st.1.2 = sm_publish_date s ∧
  sm_prepared st.1.2 = sm_prepared s ∧ sm_publish st.1.2 = sm_publish s.
Proof.
  intros Hk Hd Hlt Hn.
  destruct (submit_effect env w s k d n Hk Hd Hlt Hn)
    as (w' & s' & r & -> & Hdb & _ & _ & ? & ? & ? & ? & _).
  cbn [fst snd]. rewrite Hdb. simpl.
  split; [by destruct (db w)|].
  split; [intros j Hj; by rewrite lookup_insert_ne|].
  by rewrite lookup_insert_eq.
Qed.

Lemma submit_writes_own_row_witness :
  let st := Submission.submit (Sample.env0 [])
              (Sample.w0, Sample.sm 1 10 true) in
  set_submissions (submissions (db Sample.w0)) (db st.1.1) = db Sample.w0 ∧
  (∀ j, j ≠ 1%positive ->
        submissions (db st.1.1) !! j = submissions (db Sample.w0) !! j) ∧
  submissions (db st.1.1) !! 1%positive = Some st.1.2 ∧
  sm_message st.1.2 = Some 1%positive ∧
  sm_publish_date st.1.2 = Some 10 ∧
  sm_prepared st.1.2 = true ∧ sm_publish st.1.2 = true.
Proof.
  exact (submit_writes_own_row (Sample.env0 []) Sample.w0
           (Sample.sm 1 10 true) 1%positive 10 1%positive
           eq_refl eq_refl eq_refl eq_refl).
Defined.



(** ** The queue, once more *)

(** A row that is sent and not being sent. *)
Lemma sent_row_kept env w s k d n j :
  sm_pk s = Some k ->
  sm_publish_date s = Some d -> d < clock env (ticks w) ->
  Submission.message_newsletter (db w) s = Ok n ->
  (∀ s2 sub, render env s2 sub = None) ->
  let w' := (Submission.submit env (w, s)).1.1 in
  (j = k ∨ ∃ r, submissions (db w) !! j = Some r ∧
                sm_sent r = true ∧ sm_sending r = false) ->
  ∃ r, submissions (db w') !! j = Some r ∧
       sm_sent r = true ∧ sm_sending r = false.
Proof.
  intros Hk Hd Hlt Hn Hrender.
  destruct (submit_effect env w s k d n Hk Hd Hlt Hn)
    as (w' & s' & r & Hrun & Hdb & _ & Hsending & _ & _ & _ & _ & _ & Hsent).
  destruct (submit_runs env w s k d n Hk Hd Hlt Hn)
    as (w2 & s2 & r2 & t2 & Hrun2 & _ & _ & _ & _ & _ & Hok).
  rewrite Hrun in Hrun2. simplify_eq.
  destruct Hok as [-> _]; [by eauto|].
  rewrite Hrun. cbn [fst snd]. rewrite Hdb. simpl.
  intros Hj. destruct (decide (j = k)) as [->|Hne].
  - exists s2. by rewrite lookup_insert_eq.
  - rewrite lookup_insert_ne by done. by destruct Hj.
Qed.

Lemma queue_loop_sent env (w0 : World) t todo :
  (∀ i j, (i ≤ j)%nat -> clock env i ≤ clock env j) ->
  (∀ s sub, render env s sub = None) ->
  (∀ s, s ∈ todo ->
     ∃ k d n, sm_pk s = Some k ∧ sm_publish_date s = Some d ∧ d < t ∧
              Submission.message_newsletter (db w0) s = Ok n) ->
  ∀ w j, t ≤ clock env (ticks w) ->
       messages (db w) = messages (db w0) ∧
       newsletters (db w) = newsletters (db w0) ->
       ((∃ s, s ∈ todo ∧ sm_pk s = Some j) ∨
        ∃ r, submissions (db w) !! j = Some r ∧
             sm_sent r = true ∧ sm_sending r = false) ->
  ∃ r, submissions
         (db (for_each todo (fun s => call s (Submission.submit env)) w).1)
         !! j = Some r ∧
       sm_sent r = true ∧ sm_sending r = false.
Proof.
  intros Hmono Hrender.
  induction todo as [|s todo IH]; intros Htodo w j Ht Hm Hj.
  - destruct Hj as [(s & Hin & _)|Hj]; [|done].
    by apply not_elem_of_nil in Hin.
  - destruct (Htodo s ltac:(left)) as (k & d & n & Hk & Hd & Hlt & Hn).
    assert (d < clock env (ticks w)) as Hlt' by lia.
    assert (Submission.message_newsletter (db w) s = Ok n) as Hn'
      by (by rewrite (message_newsletter_ext _ (db w0) _ s)).
    destruct (submit_runs env w s k d n Hk Hd Hlt' Hn') as
      (w1 & s1 & r & t' & Hrun & _ & _ & Hdb & Hti & _ & Hok).
    destruct Hok as [-> _]; [by eauto|].
    pose proof (sent_row_kept env w s k d n j Hk Hd Hlt' Hn' Hrender) as Hkeep.
    rewrite Hrun in Hkeep. cbn [fst snd] in Hkeep.
    simpl. unfold bindM, call at 1. rewrite Hrun.
    apply IH.
    + intros s' Hs'. apply Htodo. by right.
    + rewrite Hti. etrans; [exact Ht|]. apply Hmono. lia.
    + rewrite Hdb. exact Hm.
    + destruct Hj as [(s' & [->|Hin]%elem_of_cons & Hpk)|Hj].
      * right. apply Hkeep. left. congruence.
      * left. eauto.
      * right. apply Hkeep. by right.
Qed.

(** X12: under the conditions of the queue (a clock that does not run
    backwards, submissions keyed by their primary key with a message that
    has a newsletter, templates that render), every submission that was
    due is, once [submit_queue] is through, stored as sent and not being
    sent: no later run of the queue picks it again. *)
Theorem submit_queue_marks_sent env w :
  (∀ i j, (i ≤ j)%nat -> clock env i ≤ clock env j) ->
  (∀ k s, submissions (db w) !! k = Some s ->
          sm_pk s = Some k ∧
          ∃ n, Submission.message_newsletter (db w) s = Ok n) ->
  (∀ s sub, render env s sub = None) ->
  ∀ k s, submissions (db w) !! k = Some s ->
         Submission.due (clock env (ticks w)) s = true ->
  ∃ r, submissions (db (Submission.submit_queue env w).1) !! k = Some r ∧
       sm_sent r = true ∧ sm_sending r = false ∧
       ∀ t, Submission.due t r = false.
Proof.
  intros Hmono Hdb Hrender k s Hrow Hdue.
  set (t := clock env (ticks w)) in *.
  set (todo := filter (fun s => Submission.due t s = true)
                      (rows (submissions (db w)))).
  assert (∃ r, submissions (db (Submission.submit_queue env w).1) !! k
               = Some r ∧ sm_sent r = true ∧ sm_sending r = false)
    as (r & Hr & Hsent & Hsending).
  { unfold Submission.submit_queue, bindM, get.
    change (call () (now env) w) with (tick w, Ok t). cbn [db tick].
    fold todo.
    destruct (queue_loop env w t todo Hmono Hrender) with (w := tick w)
      as (w' & Hloop & _).
    - intros s0 [Hdue0 [k0 Hrow0]%elem_of_rows]%list_elem_of_filter.
      apply due_spec in Hdue0 as (_ & _ & _ & d & Hd & Hlt).
      destruct (Hdb k0 s0 Hrow0) as (Hk & n & Hn). eauto 10.
    - simpl. apply Hmono. lia.
    - done.
    - destruct (queue_loop_sent env w t todo Hmono Hrender) with
        (w := tick w) (j := k) as (r & Hr & Hs).
      + intros s0 [Hdue0 [k0 Hrow0]%elem_of_rows]%list_elem_of_filter.
        apply due_spec in Hdue0 as (_ & _ & _ & d & Hd & Hlt).
        destruct (Hdb k0 s0 Hrow0) as (Hk & n & Hn). eauto 10.
      + simpl. apply Hmono. lia.
      + done.
      + left. exists s. split; [|by apply Hdb].
        apply list_elem_of_filter. split; [done|]. apply elem_of_rows. eauto.
      + rewrite Hloop in Hr |- *. cbn [fst] in Hr.
        destruct (check_bounces_frame env w') as (_ & _ & new & Hcb & _).
        destruct (check_bounces env w') as [w'' r']. cbn [fst] in *.
        exists r. by rewrite Hcb. }
  exists r. repeat (split; [done|]).
  intros t'. unfold Submission.due. rewrite Hsent. simpl.
  by rewrite andb_false_r.
Qed.

Lemma submit_queue_marks_sent_witness :
  ∃ r, submissions
         (db (Submission.submit_queue (Sample.env0 []) Sample.w0).1)
         !! 1%positive = Some r ∧
       sm_sent r = true ∧ sm_sending r = false ∧
       ∀ t, Submission.due t r = false.
Proof.
  apply (submit_queue_marks_sent (Sample.env0 []) Sample.w0) with
    (s := Sample.sm 1 10 true).
  - intros i j Hij. simpl. lia.
  - intros k s H. unfold Sample.w0, Sample.db0 in H. cbn [db submissions] in H.
    repeat (apply lookup_insert_Some in H as [[<- <-]|[? H]];
            [split; [reflexivity|by eexists]|]).
    by rewrite lookup_empty in H.
  - done.
  - reflexivity.
  - reflexivity.
Defined.

(** ** [Submission.from_message] *)

Lemma subscribed_idempotent bs qs :
  SubscribedQuerySet.subscribed bs (SubscribedQuerySet.subscribed bs qs)
  = SubscribedQuerySet.subscribed bs qs.
Proof.
  unfold SubscribedQuerySet.subscribed. rewrite list_filter_filter.
  apply list_filter_iff. tauto.
Qed.

(** Linking rows of a keyed table and reading the links back gives the
    rows. *)
Lemma linked_assigned (t : gmap positive subscription) subs pks
    (k : positive) (through : list (positive * positive)) :
  keyed t ->
  (∀ s, s ∈ subs -> s ∈ rows t) ->
  mapM sub_pk subs = Some pks ->
  omap (fun '(sm, sb) =>
          if bool_decide (sm = k) then t !! sb else None)
       (filter (fun l : positive * positive => l.1 ≠ k) through
        ++ ((fun p => (k, p)) <$> pks))
  = subs.
Proof.
  intros Hkeyed Hrows Hpks. rewrite omap_app.
  assert (omap (fun '(sm, sb) =>
                  if bool_decide (sm = k) then t !! sb else None)
               (filter (fun l : positive * positive => l.1 ≠ k) through)
          = []) as ->.
  { induction through as [|[sm sb] through IH]; [done|].
    rewrite filter_cons. case_decide as Hne; [|done]. simpl in Hne.
    csimpl. by rewrite bool_decide_eq_false_2 by done. }
  simpl. apply mapM_Some in Hpks.
  induction Hpks as [|s p subs pks Hp _ IH]; [done|].
  simpl. rewrite bool_decide_eq_true_2 by done.
  assert (t !! p = Some s) as ->.
  { destruct (proj1 (elem_of_rows t s) (Hrows s ltac:(left))) as [j Hj].
    pose proof (Hkeyed j s Hj). congruence. }
  simpl. f_equal. apply IH. intros s' Hs'. apply Hrows. by right.
Qed.

Lemma keyed_mapM (t : gmap positive subscription) subs :
  keyed t -> (∀ s, s ∈ subs -> s ∈ rows t) ->
  ∃ pks, mapM sub_pk subs = Some pks.
Proof.
  intros Hkeyed Hrows. induction subs as [|s subs IH]; [by eexists|].
  destruct IH as [pks Hpks]; [intros ? ?; apply Hrows; by right|].
  destruct (proj1 (elem_of_rows t s) (Hrows s ltac:(left))) as [j Hj].
  exists (j :: pks). simpl. rewrite (Hkeyed j s Hj). simpl.
  by rewrite Hpks.
Qed.

Lemma get_subscriptions_rows d nl s :
  s ∈ Newsletter.get_subscriptions d nl -> s ∈ rows (subscriptions d).
Proof.
  unfold Newsletter.get_subscriptions, SubscribedQuerySet.subscribed.
  by intros [_ [_ ?]%list_elem_of_filter]%list_elem_of_filter.
Qed.

Lemma Message_newsletter_pk d m nl :
  Message_newsletter d m = Ok nl -> msg_newsletter m = Some (nl_pk nl).
Proof.
  unfold Message_newsletter. destruct (msg_newsletter m) as [k|]; [|done].
  destruct (list_find _ _) as [[i n]|] eqn:Hf; [|done].
  intros [= <-]. apply list_find_Some in Hf as (_ & -> & _). done.
Qed.

Lemma Message_newsletter_found d m nl :
  Message_newsletter d m = Ok nl ->
  ∃ i, list_find (fun n => nl_pk n = nl_pk nl) (newsletters d) = Some (i, nl).
Proof.
  unfold Message_newsletter. destruct (msg_newsletter m) as [k|]; [|done].
  destruct (list_find _ _) as [[i n]|] eqn:Hf; [|done].
  intros [= <-]. exists i.
  pose proof Hf as (_ & -> & _)%list_find_Some. done.
Qed.

(** X13: [from_message] on a saved message whose newsletter exists files a
    new submission under a key not in use, bound to the message and to
    its newsletter, dated now and not prepared, so that no run of the
    queue picks it as it is; its recipients, read back at once, are the
    subscriptions [get_subscriptions] gives for the newsletter. *)
Theorem from_message_snapshot env w message km nl :
  msg_pk message = Some km ->
  messages (db w) !! km = Some message ->
  Message_newsletter (db w) message = Ok nl ->
  keyed (subscriptions (db w)) ->
  ∃ w' s' k,
    Submission_from_message env message w = (w', Ok s') ∧
    sm_pk s' = Some k ∧ submissions (db w) !! k = None ∧
    submissions (db w') !! k = Some s' ∧
    sm_message s' = Some km ∧ sm_newsletter s' = Some (nl_pk nl) ∧
    sm_publish_date s' = Some (clock env (ticks w)) ∧
    (∀ t, Submission.due t s' = false) ∧
    Submission.recipients (db w') k
    = Newsletter.get_subscriptions (db w) nl.
Proof.
  intros Hkm Hrow Hnl Hkeyed.
  pose proof (Message_newsletter_pk _ _ _ Hnl) as Hn.
  destruct (Message_newsletter_found _ _ _ Hnl) as [i Hfound].
  destruct (keyed_mapM (subscriptions (db w))
              (Newsletter.get_subscriptions (db w) nl) Hkeyed
              (get_subscriptions_rows _ _)) as [pks Hpks].
  unfold Submission_from_message, Submission_new, assign_subscriptions,
    Submission.save, Submission.base_save, Submission.message_newsletter.
  munfold. cbn [fst snd db tick with_message sm_message sm_pk
                Submission.with_newsletter default].
  rewrite Hnl. cbn [fst snd db tick with_message sm_message sm_pk
                    Submission.with_newsletter default].
  rewrite Hkm, Hrow, Hn, Hfound.
  cbn [fst snd db tick set_db set_submissions Submission.with_pk sm_pk
       subscriptions bounces newsletters].
  change (Newsletter.get_subscriptions
            (set_submissions _ (db w)) nl)
    with (Newsletter.get_subscriptions (db w) nl).
  rewrite Hpks. cbn [fst snd].
  eexists _, _, _. split; [reflexivity|].
  cbn [sm_pk sm_message sm_newsletter sm_publish_date db set_db submissions
       set_submission_subscriptions set_submissions Submission.with_pk].
  split; [done|]. split; [apply fresh_key_unused|].
  split; [by rewrite lookup_insert_eq|].
  split; [done|]. split; [done|]. split; [done|]. split; [done|].
  unfold Submission.recipients, Submission.linked.
  cbn [bounces subscriptions submission_subscriptions
       set_submission_subscriptions set_submissions].
  rewrite (linked_assigned (subscriptions (db w))
             (Newsletter.get_subscriptions (db w) nl) pks); try done.
  - apply subscribed_idempotent.
  - apply get_subscriptions_rows.
Qed.

Lemma from_message_snapshot_witness :
  ∃ w' s' k,
    Submission_from_message (Sample.env0 []) Sample.msg1 Sample.w0
    = (w', Ok s') ∧
    sm_pk s' = Some k ∧ submissions (db Sample.w0) !! k = None ∧
    submissions (db w') !! k = Some s' ∧
    sm_message s' = Some 1%positive ∧
    sm_newsletter s' = Some (nl_pk Sample.nl1) ∧
    sm_publish_date s' = Some (clock (Sample.env0 []) (ticks Sample.w0)) ∧
    (∀ t, Submission.due t s' = false) ∧
    Submission.recipients (db w') k
    = Newsletter.get_subscriptions (db Sample.w0) Sample.nl1.
Proof.
  apply (from_message_snapshot (Sample.env0 []) Sample.w0 Sample.msg1
           1%positive Sample.nl1); try reflexivity.
  intros k s H. unfold Sample.w0, Sample.db0 in H.
  cbn [db subscriptions] in H.
  repeat (apply lookup_insert_Some in H as [[<- <-]|[? H]]; [reflexivity|]).
  by rewrite lookup_empty in H.
Defined.

(** ** The bounce scan *)

(** An exception that leaves a loop was raised by one of its turns. *)
Lemma for_each_raises {S A} (body : A -> M S unit) xs s e :
  (for_each xs body s).2 = Raise e ->
  ∃ x s', x ∈ xs ∧ (body x s').2 = Raise e.
Proof.
  revert s. induction xs as [|x xs IH]; intros s; [done|].
  simpl. unfold bindM. destruct (body x s) as [s1 [[]|e1]] eqn:Hx.
  - intros (y & s' & Hy & Hr)%IH. exists y, s'. split; [by right|done].
  - intros [= ->]. exists x, s. split; [by left|]. by rewrite Hx.
Qed.

Lemma copies_app tr1 tr2 : copies (tr1 ++ tr2) = copies tr1 ++ copies tr2.
Proof. unfold copies. apply omap_app. Qed.

Lemma deletions_app tr1 tr2 :
  deletions (tr1 ++ tr2) = deletions tr1 ++ deletions tr2.
Proof. unfold deletions. apply omap_app. Qed.

(** Handling one message adds to the trace nothing, or the copy of the
    message, followed by its deletion flag when the server set it. *)
Lemma handle_message_trace m w :
  ∃ tr, trace (handle_message m w).1 = trace w ++ tr ∧
        (tr = [] ∨ tr = [ImapCopy (im_num m)] ∨
         tr = [ImapCopy (im_num m); ImapDeleted (im_num m)]) ∧
        (im_store m = StoreOK -> tr ≠ [ImapCopy (im_num m)]).
Proof.
  assert (∃ tr, trace w = trace w ++ tr ∧
            (tr = [] ∨ tr = [ImapCopy (im_num m)] ∨
             tr = [ImapCopy (im_num m); ImapDeleted (im_num m)]) ∧
            (im_store m = StoreOK -> tr ≠ [ImapCopy (im_num m)])) as Hsame.
  { exists []. rewrite app_nil_r. split; [done|]. split; [by left|done]. }
  unfold handle_message.
  destruct (im_fetch m) as [| |raw msgobj]; try exact Hsame.
  munfold. destruct (recover msgobj) as [[[addr|] [status|]]|e];
    try exact Hsame.
  destruct (negb (truthy addr) || negb (truthy status)); [exact Hsame|].
  cbn [fst snd].
  pose proof (create_bounces_frame (subscriptions_for (db w) addr) status raw w)
    as (Htr & _).
  destruct (for_each _ _ w) as [w1 [[]|e]]; cbn [fst snd] in *;
    [|rewrite Htr; exact Hsame].
  destruct (im_copy m); cbn [fst snd]; try (rewrite Htr; exact Hsame).
  destruct (im_store m) eqn:Hst; cbn [fst snd emit_w trace]; rewrite Htr.
  - exists [ImapCopy (im_num m)]. split; [done|]. split; [by right; left|done].
  - exists [ImapCopy (im_num m)]. split; [done|]. split; [by right; left|done].
  - exists [ImapCopy (im_num m); ImapDeleted (im_num m)].
    rewrite <- app_assoc. split; [done|]. split; [by right; right|done].
Qed.



(** X15: the scan only adds bounce rows: the rows that were there, in
    their order, and every other table are kept; it sends no mail; every
    row it adds has its hard flag computed from its status code, and the
    clock is read once for each of them, for its [date_create]. *)
Theorem check_bounces_only_appends env w :
  let w' := (check_bounces env w).1 in
  ∃ new,
    db w' = set_bounces (bounces (db w) ++ new) (db w) ∧
    (∀ b, b ∈ new -> bn_hard b = is_hard (bn_status_code b)) ∧
    sends (trace w') = sends (trace w) ∧
    ticks w' = (ticks w + length new)%nat.
Proof.
  destruct (check_bounces_frame env w) as (_ & Hs & new & Hdb & Hti & Hnew).
  exists new. done.
Qed.

(** Two notifications for the same subscriber: two rows, two readings of
    the clock. *)
Lemma check_bounces_only_appends_witness :
  let w' := (check_bounces (Sample.env0 [Sample.dsn_verp; Sample.dsn_plain])
               Sample.w0).1 in
  length (bounces (db w')) = 2%nat ∧ ticks w' = 2%nat ∧
  ∃ new,
    db w' = set_bounces (bounces (db Sample.w0) ++ new) (db Sample.w0) ∧
    (∀ b, b ∈ new -> bn_hard b = is_hard (bn_status_code b)) ∧
    sends (trace w') = sends (trace Sample.w0) ∧
    ticks w' = (ticks Sample.w0 + length new)%nat.
Proof.
  split; [reflexivity|]. split; [reflexivity|].
  exact (check_bounces_only_appends
           (Sample.env0 [Sample.dsn_verp; Sample.dsn_plain]) Sample.w0).
Defined.

(** X16: a message is flagged as deleted only once it has been copied to
    the archive folder: the messages the scan flags are among those it
    copies, in the same order, and they are all of them when the server
    accepts every store command. *)
Theorem check_bounces_flags_only_copied env w :
  let w' := (check_bounces env w).1 in
  ∃ cs ds,
    copies (trace w') = copies (trace w) ++ cs ∧
    deletions (trace w') = deletions (trace w) ++ ds ∧
    ds `sublist_of` cs ∧
    ((∀ m, m ∈ inbox (conn env) -> im_store m = StoreOK) -> ds = cs).
Proof.
  cbn zeta.
  set (P := fun w' : World =>
    ∃ cs ds,
      copies (trace w') = copies (trace w) ++ cs ∧
      deletions (trace w') = deletions (trace w) ++ ds ∧
      ds `sublist_of` cs ∧
      ((∀ m, m ∈ inbox (conn env) -> im_store m = StoreOK) -> ds = cs)).
  assert (P w) as Hw.
  { exists [], []. by rewrite !app_nil_r. }
  assert (∀ e w1, copies [e] = [] -> deletions [e] = [] ->
            P w1 -> P (emit_w e w1)) as Hemit.
  { intros e w1 Hc Hd (cs & ds & Hcs & Hds & Hsub & Hall).
    exists cs, ds. simpl.
    by rewrite copies_app, deletions_app, Hc, Hd, !app_nil_r. }
  change (P (check_bounces env w).1).
  unfold check_bounces. munfold. cbn [fst snd].
  assert (P (emit_w CallCheckBounces w)) as H1 by (by apply Hemit).
  destruct (BOUNCE_ACCOUNT env) as [account|]; [|done].
  destruct (login_ok (conn env)); cbn [fst snd]; [|by apply Hemit].
  assert (∀ w1, P w1 ->
            P (for_each (inbox (conn env)) handle_message w1).1) as Hloop.
  { intros w1 Hw1. apply for_each_inv; [done|].
    intros m w2 Hm (cs & ds & Hcs & Hds & Hsub & Hall). unfold P.
    destruct (handle_message_trace m w2) as (tr & -> & Htr & Hok).
    rewrite copies_app, deletions_app, Hcs, Hds, <- !app_assoc.
    destruct Htr as [-> | [-> | ->]]; simpl.
    - exists cs, ds. by rewrite !app_nil_r.
    - exists (cs ++ [im_num m]), ds. split; [done|].
      split; [by rewrite app_nil_r|].
      split; [by apply sublist_inserts_r|].
      intros Hstore. by destruct (Hok (Hstore m Hm)).
    - exists (cs ++ [im_num m]), (ds ++ [im_num m]).
      split; [done|]. split; [done|].
      split; [by apply sublist_app|].
      intros Hstore. by rewrite (Hall Hstore). }
  destruct (archive_exists (conn env)); cbn [fst snd].
  - specialize (Hloop _ H1).
    destruct (for_each _ _ _) as [w2 [[]|e]]; cbn [fst snd] in *.
    + by apply Hemit.
    + destruct (is_imap_error e); cbn [fst snd]; [by apply Hemit|done].
  - specialize (Hloop (emit_w ImapCreate (emit_w CallCheckBounces w))
                  ltac:(by apply Hemit)).
    destruct (for_each _ _ _) as [w2 [[]|e]]; cbn [fst snd] in *.
    + by apply Hemit.
    + destruct (is_imap_error e); cbn [fst snd]; [by apply Hemit|done].
Qed.

(** A server that accepts every store: what is copied is flagged. *)
Lemma check_bounces_flags_only_copied_witness :
  let env := Sample.env0 [Sample.not_a_bounce; Sample.dsn_verp;
                          Sample.dsn_plain] in
  let w' := (check_bounces env Sample.w0).1 in
  copies (trace w') = [2%nat; 3%nat] ∧
  ∃ cs, copies (trace w') = copies (trace Sample.w0) ++ cs ∧
        deletions (trace w') = deletions (trace Sample.w0) ++ cs.
Proof.
  intros env. split; [reflexivity|].
  destruct (check_bounces_flags_only_copied env Sample.w0)
    as (cs & ds & Hc & Hd & _ & Hall).
  exists cs. split; [exact Hc|]. rewrite <- Hall; [exact Hd|].
  intros m Hm. cbn in Hm.
  repeat (apply elem_of_cons in Hm as [-> | Hm]; [reflexivity|]).
  by apply not_elem_of_nil in Hm.
Defined.

(** Three messages, the second copied but not flagged: the server
    refuses its store command. *)
Example scan_store_refused :
  let server :=
    {| login_ok := true; archive_exists := true;
       inbox := [ {| im_num := 1;
                     im_fetch := Fetched (txt "raw") Sample.not_a_bounce;
                     im_copy := CopyOK; im_store := StoreOK |};
                  {| im_num := 2;
                     im_fetch := Fetched (txt "raw") Sample.dsn_verp;
                     im_copy := CopyOK; im_store := StoreRefused |};
                  {| im_num := 3;
                     im_fetch := Fetched (txt "raw") Sample.dsn_plain;
                     im_copy := CopyOK; im_store := StoreOK |} ] |} in
  let env := {| clock := clock (Sample.env0 []);
                BOUNCE_ACCOUNT := Some Sample.account;
                render := render (Sample.env0 []);
                transport := transport (Sample.env0 []);
                conn := server |} in
  let st := check_bounces env Sample.w0 in
  st.2 = Ok tt ∧ copies (trace st.1) = [2%nat; 3%nat] ∧
  deletions (trace st.1) = [3%nat].
Proof. vm_compute. done. Qed.







(** ** From a bounce to the next submission *)

Lemma hard_bounces_app bs new s :
  hard_bounces (bs ++ new) s = hard_bounces bs s ++ hard_bounces new s.
Proof. unfold hard_bounces. by rewrite !filter_app. Qed.



(** X19: a message with a soft status, mailbox full included, changes the
    result of [get_subscriptions] for no newsletter. *)
Theorem soft_bounce_keeps m w raw msgobj addr status :
  im_fetch m = Fetched raw msgobj ->
  recover msgobj = Ok (Some addr, Some status) ->
  is_hard status = false ->
  ∀ nl, Newsletter.get_subscriptions (db (handle_message m w).1) nl
        = Newsletter.get_subscriptions (db w) nl.
Proof.
  intros Hf Hr Hsoft nl.
  destruct (handle_message_frame m w) as (_ & _ & new & Hdb & _ & Hnew).
  rewrite Hdb. unfold Newsletter.get_subscriptions.
  cbn [bounces subscriptions set_bounces]. rewrite !subscribed_filter.
  apply list_filter_iff. intros s. unfold sendable.
  rewrite hard_bounces_app, length_app.
  assert (hard_bounces new s = []) as ->; [|by rewrite Nat.add_0_r].
  unfold hard_bounces. apply filter_empty_iff.
  intros b [_ Hb]%list_elem_of_filter.
  destruct (Hnew b Hb) as (raw' & msgobj' & addr' & status' & Hf' & Hr' & Hh & _).
  rewrite Hf in Hf'. injection Hf' as <- <-.
  rewrite Hr in Hr'. injection Hr' as <- <-.
  by rewrite Hh, Hsoft.
Qed.

Lemma soft_bounce_keeps_witness :
  let full := Email [(txt "To", txt "bounce+bob=example.org@example.net")]
                (txt "multipart/report")
                [ Email [] DELIVERY_STATUS
                    [ Email [(txt "Status", txt "5.2.2")]
                            (txt "text/plain") [] ] ] in
  let m := {| im_num := 7; im_fetch := Fetched (txt "raw") full;
              im_copy := CopyOK;
              im_store := StoreOK |} in
  length (bounces (db (handle_message m Sample.w0).1)) = 1%nat ∧
  Newsletter.get_subscriptions (db (handle_message m Sample.w0).1) Sample.nl1
  = Newsletter.get_subscriptions (db Sample.w0) Sample.nl1.
Proof.
  intros full m. split; [reflexivity|].
  by apply (soft_bounce_keeps m Sample.w0 (txt "raw") full
              (txt "bob@example.org") (txt "5.2.2")).
Defined.

(** ** The text of a status code *)

Lemma codes_of_class_5 :
  Forall (fun kv : text * text => startswith (txt "5") kv.1 = true)
         SMTP_ERROR_CODES.
Proof. apply (bool_decide_unpack _). by vm_compute. Qed.

Lemma codes_hard :
  Forall (fun kv : text * text => kv.1 ≠ MAILBOX_FULL -> is_hard kv.1 = true)
         SMTP_ERROR_CODES.
Proof.
  eapply Forall_impl; [apply codes_of_class_5|].
  intros [code text] Hs Hne. unfold is_hard. simpl in *.
  by rewrite Hs, bool_decide_eq_false_2.
Qed.

(** X20: the table of status texts and the classification agree: every
    code of the table other than "5.2.2" is a hard one, and a soft bounce
    other than a full mailbox has no text: its [status_string] is
    'Unknown error code'. *)
Theorem soft_status_unknown (b : bounce) :
  (∀ code text, (code, text) ∈ SMTP_ERROR_CODES -> code ≠ MAILBOX_FULL ->
                is_hard code = true) ∧
  (bn_hard b = is_hard (bn_status_code b) -> bn_hard b = false ->
   bn_status_code b ≠ MAILBOX_FULL ->
   status_string b = txt "Unknown error code").
Proof.
  split.
  - intros code text Hin.
    by apply (proj1 (Forall_forall _ _) codes_hard (code, text)).
  - intros Hh Hsoft Hne. unfold status_string.
    destruct (list_find _ _) as [[i [code text]]|] eqn:Hf; [|done].
    apply list_find_Some in Hf as (Hi & Hcode & _). simpl in Hcode.
    apply list_elem_of_lookup_2 in Hi.
    pose proof (proj1 (Forall_forall _ _) codes_hard _ Hi) as Hhard.
    simpl in Hhard. rewrite Hcode in Hhard.
    rewrite Hhard in Hh by done. congruence.
Qed.

Lemma soft_status_unknown_witness :
  status_string {| bn_subscription := 1; bn_hard := false;
                   bn_status_code := txt "4.2.2"; bn_content := [] |}
  = txt "Unknown error code".
Proof.
  apply (proj2 (soft_status_unknown _)); [reflexivity|reflexivity|].
  vm_compute. discriminate.
Defined.

(** ** The sort order of articles *)

Lemma max_sortorder_bound (t : articles_table) post j b n :
  t !! j = Some b -> art_post b = post -> art_sortorder b = Some n ->
  ∃ m, max_sortorder t post = Some m ∧ (n ≤ m)%nat.
Proof.
  intros Hj Hpost Hn. unfold max_sortorder.
  assert (n ∈ omap (fun a => if bool_decide (art_post a = post)
                             then art_sortorder a else None) (rows t))
    as Hin.
  { apply list_elem_of_omap. exists b. split; [apply elem_of_rows; eauto|].
    by rewrite bool_decide_eq_true_2. }
  destruct (omap _ (rows t)) as [|x l] eqn:Hl;
    [by apply not_elem_of_nil in Hin|].
  eexists. split; [done|]. by apply max_list_elem_of_le.
Qed.

Lemma next_sortorder_greater (t : articles_table) post j b n :
  t !! j = Some b -> art_post b = post -> art_sortorder b = Some n ->
  (n < get_next_article_sortorder t post)%nat.
Proof.
  intros Hj Hpost Hn.
  destruct (max_sortorder_bound t post j b n Hj Hpost Hn) as (m & Hm & Hle).
  unfold get_next_article_sortorder. rewrite Hm. destruct m; lia.
Qed.

(** X21: when the save of an article without a sort order returns, the
    article has got the next sort order of its message: 10 more than the
    largest in use (10 for the first article or when the largest is 0),
    hence larger than every sort order of the message, and the sort
    orders of a message stay distinct.  Whether the database accepts the
    row (the range of the column, the message the article points to) is
    no part of the statement. *)
Theorem article_save_next_sortorder (t t' : articles_table) (a a' : article) :
  art_sortorder a = None ->
  Article_save (t, a) = ((t', a'), Ok tt) ->
  let next := get_next_article_sortorder t (art_post a) in
  art_sortorder a' = Some next ∧
  (∃ k, art_pk a' = Some k ∧ t' !! k = Some a') ∧
  (∀ j b n, t !! j = Some b -> art_post b = art_post a ->
            art_sortorder b = Some n -> (n < next)%nat) ∧
  (max_sortorder t (art_post a) = None -> next = 10%nat) ∧
  (sortorders_unique t -> sortorders_unique t').
Proof.
  intros Hnone Hsave next.
  assert (∀ j b n, t !! j = Some b -> art_post b = art_post a ->
                   art_sortorder b = Some n -> (n < next)%nat) as Hgt
    by (intros j b n; apply next_sortorder_greater).
  revert Hsave. unfold Article_save, Article_base_save. munfold.
  cbn [fst snd].
  rewrite Hnone. cbn [fst snd with_sortorder art_sortorder art_pk].
  fold next.
  set (k := default (fresh (dom t)) (art_pk a)).
  set (a1 := with_sortorder next a).
  destruct (sortorder_taken t k a1); [done|].
  intros [= <- <-].
  split; [done|].
  split; [exists k; split; [done|by rewrite lookup_insert_eq]|].
  split; [done|].
  split; [intros Hmax; subst next; unfold get_next_article_sortorder;
          by rewrite Hmax|].
  intros Huniq j1 j2 b1 b2.
  rewrite !lookup_insert. repeat case_decide; subst; try done.
  - intros [= <-] Hj2 Hpost Hso. simpl in *.
    specialize (Hgt j2 b2 next Hj2 (eq_sym Hpost) (eq_sym Hso)). lia.
  - intros Hj1 [= <-] Hpost Hso. simpl in *.
    specialize (Hgt j1 b1 next Hj1 Hpost Hso). lia.
  - apply Huniq.
Qed.

(** The third article of a message. *)
Lemma article_save_next_sortorder_witness :
  let a := {| art_pk := None; art_sortorder := None; art_title := txt "t";
              art_text := txt "x"; art_post := 1%positive |} in
  let t1 := (Article_save (∅, a)).1.1 in
  let t2 := (Article_save (t1, a)).1.1 in
  (art_sortorder <$> rows t2) = [Some 20%nat; Some 10%nat] ∧
  (Article_save (t2, a)).2 = Ok tt ∧
  art_sortorder (Article_save (t2, a)).1.2 = Some 30%nat.
Proof.
  intros a t1 t2. split; [reflexivity|]. split; [reflexivity|].
  destruct (article_save_next_sortorder t2 (Article_save (t2, a)).1.1
              a (Article_save (t2, a)).1.2 eq_refl eq_refl) as (Hso & _).
  rewrite Hso. reflexivity.
Defined.

(** X22: an article saved with a sort order that another article of the
    same message has is refused with an [IntegrityError]; its sort order
    is not replaced and the table is left as it was. *)
Theorem article_save_duplicate (t : articles_table) (a : article) j b n :
  art_sortorder a = Some n ->
  t !! j = Some b -> art_pk a ≠ Some j ->
  art_post b = art_post a -> art_sortorder b = Some n ->
  Article_save (t, a) = ((t, a), Raise IntegrityError).
Proof.
  intros Hn Hj Hne Hpost Hso.
  unfold Article_save, Article_base_save. munfold. cbn [fst snd].
  rewrite Hn. cbn [fst snd]. rewrite Hn.
  assert (sortorder_taken t (default (fresh (dom t)) (art_pk a)) a = true)
    as ->; [|done].
  apply bool_decide_eq_true.
  exists j, b. split; [done|]. split; [|by rewrite Hn].
  destruct (art_pk a) as [k|]; simpl; [congruence|].
  intros ->. by rewrite fresh_key_unused in Hj.
Qed.

Lemma article_save_duplicate_witness :
  let a := {| art_pk := None; art_sortorder := Some 10%nat;
              art_title := txt "t"; art_text := txt "x";
              art_post := 1%positive |} in
  let t1 := (Article_save (∅, a)).1.1 in
  Article_save (t1, a) = ((t1, a), Raise IntegrityError).
Proof.
  intros a t1.
  apply (article_save_duplicate t1 a 1%positive
           {| art_pk := Some 1%positive; art_sortorder := Some 10%nat;
              art_title := txt "t"; art_text := txt "x";
              art_post := 1%positive |} 10%nat); done.
Defined.

(** ** A scan cut short *)

Lemma for_each_app_raises {S A} (body : A -> M S unit) pre x rest s s1 s2 e :
  for_each pre body s = (s1, Ok tt) ->
  body x s1 = (s2, Raise e) ->
  for_each (pre ++ x :: rest) body s = (s2, Raise e).
Proof.
  revert s. induction pre as [|y pre IH]; intros s.
  - simpl. intros [= <-] Hx. unfold bindM. by rewrite Hx.
  - simpl. unfold bindM. destruct (body y s) as [s' [[]|e']]; [|done].
    apply IH.
Qed.

(** X23: when the server fails on fetching a message, the scan stops
    there without raising: the error is logged, what the messages before
    it gave (bounce rows, copies, deletion flags) is kept, the messages
    after it are not read and the deleted messages are not expunged. *)
Theorem check_bounces_cut_short env w account pre m rest w1 :
  BOUNCE_ACCOUNT env = Some account ->
  login_ok (conn env) = true -> archive_exists (conn env) = true ->
  inbox (conn env) = pre ++ m :: rest ->
  for_each pre handle_message (emit_w CallCheckBounces w) = (w1, Ok tt) ->
  im_fetch m = FetchRaises ->
  check_bounces env w = (emit_w (LogError IMAPError) w1, Ok tt).
Proof.
  intros Hacc Hlogin Harch Hinbox Hpre Hfetch.
  unfold check_bounces. munfold. cbn [fst snd].
  rewrite Hacc, Hlogin, Harch, Hinbox. cbn [fst snd].
  rewrite (for_each_app_raises handle_message pre m rest _ w1 w1 IMAPError
             Hpre); [done|].
  unfold handle_message. by rewrite Hfetch.
Qed.

Lemma check_bounces_cut_short_witness :
  let broken := {| im_num := 2; im_fetch := FetchRaises;
                   im_copy := CopyOK;
                   im_store := StoreOK |} in
  let good n := {| im_num := n; im_fetch := Fetched (txt "raw")
                                              Sample.dsn_verp;
                   im_copy := CopyOK;
                   im_store := StoreOK |} in
  let env := {| clock := fun n => 100 + Z.of_nat n;
                BOUNCE_ACCOUNT := Some Sample.account;
                render := fun _ _ => None;
                transport := fun _ => None;
                conn := {| login_ok := true; archive_exists := true;
                           inbox := [good 1%nat; broken; good 3%nat] |} |} in
  let st := check_bounces env Sample.w0 in
  st.2 = Ok tt ∧ length (bounces (db st.1)) = 1%nat ∧
  trace st.1 = [CallCheckBounces; ImapCopy 1; ImapDeleted 1;
                LogError IMAPError].
Proof.
  intros broken good env.
  rewrite (check_bounces_cut_short env Sample.w0 Sample.account
             [good 1%nat] broken [good 3%nat]
             (for_each [good 1%nat] handle_message
                (emit_w CallCheckBounces Sample.w0)).1);
    try reflexivity.
  repeat split.
Defined.

(** ** What the scan recovers from a notification *)

Lemma scan_subpart_known a st p :
  truthy a = true ->
  scan_subpart (Some a, st) p
  = (Some a, if has_header (txt "Status") p
             then header (txt "Status") p else st).
Proof.
  intros Ha. unfold scan_subpart. cbn [otruthy]. by rewrite Ha.
Qed.

Lemma scan_status_verp a st0 pre sp rest v :
  truthy a = true -> otruthy st0 = false ->
  (∀ p, p ∈ pre -> otruthy (header (txt "Status") p) = false) ->
  header (txt "Status") sp = Some v -> truthy v = true ->
  scan_subparts (Some a, st0) (pre ++ sp :: rest) = (Some a, Some v).
Proof.
  intros Ha Hst0 Hpre Hv Htv. revert st0 Hst0.
  induction pre as [|p pre IH]; intros st0 Hst0.
  - cbn [app scan_subparts]. rewrite (scan_subpart_known a st0 sp Ha).
    unfold has_header. rewrite Hv.
    rewrite bool_decide_eq_true_2 by done. cbn [fst snd otruthy].
    by rewrite Ha, Htv.
  - cbn [app scan_subparts]. rewrite (scan_subpart_known a st0 p Ha).
    cbn [fst snd otruthy]. rewrite Ha. cbn [andb].
    pose proof (Hpre p ltac:(left)) as Hp.
    assert (otruthy (if has_header (txt "Status") p
                     then header (txt "Status") p else st0) = false) as Hs
      by (by destruct (has_header (txt "Status") p)).
    rewrite Hs. apply IH; [intros ? ?; apply Hpre; by right|done].
Qed.

(** X24: when the [To] header is VERP-encoded, the address recovered is the
    decoded one, whatever recipient fields the notification carries, and
    the status is the first non-empty [Status] field met in the first
    part of type message/delivery-status. *)
Theorem recover_verp_status msgobj to ud i part pre sp rest v :
  header (txt "To") msgobj = Some to ->
  Verp.decode to = Some ud ->
  list_find (fun part => get_content_type part = DELIVERY_STATUS)
            (walk msgobj) = Some (i, part) ->
  walk part = pre ++ sp :: rest ->
  (∀ p, p ∈ pre -> otruthy (header (txt "Status") p) = false) ->
  header (txt "Status") sp = Some v -> truthy v = true ->
  recover msgobj = Ok (Some (Verp.recipient ud), Some v).
Proof.
  intros Hto Hd Hfind Hwalk Hpre Hv Htv.
  unfold recover, verp_address. rewrite Hto, Hd.
  cbn [mbind result_bind fmap option_fmap option_map].
  unfold scan_parts. rewrite Hfind, Hwalk.
  by rewrite (scan_status_verp _ None pre sp rest v (recipient_truthy ud)).
Qed.

Lemma recover_verp_status_witness :
  recover (Sample.dsn [(txt "To", txt "bounce+eve=example.com@example.net")])
  = Ok (Some (txt "eve@example.com"), Some (txt "5.1.1")).
Proof.
  apply (recover_verp_status
           (Sample.dsn [(txt "To", txt "bounce+eve=example.com@example.net")])
           (txt "bounce+eve=example.com@example.net")
           (txt "eve", txt "example.com") 2%nat
           (Email [] DELIVERY_STATUS
              [ Email [(txt "Reporting-MTA", txt "dns; mx.example.org")]
                      (txt "text/plain") [];
                Email [(txt "Final-Recipient", txt "rfc822;bob@example.org");
                       (txt "Status", txt "5.1.1")]
                      (txt "text/plain") [] ])
           [Email [] DELIVERY_STATUS
              [ Email [(txt "Reporting-MTA", txt "dns; mx.example.org")]
                      (txt "text/plain") [];
                Email [(txt "Final-Recipient", txt "rfc822;bob@example.org");
                       (txt "Status", txt "5.1.1")]
                      (txt "text/plain") [] ];
            Email [(txt "Reporting-MTA", txt "dns; mx.example.org")]
                  (txt "text/plain") []]
           (Email [(txt "Final-Recipient", txt "rfc822;bob@example.org");
                   (txt "Status", txt "5.1.1")]
                  (txt "text/plain") [])
           [] (txt "5.1.1")); try reflexivity.
  intros p Hp. apply elem_of_cons in Hp as [->|Hp]; [reflexivity|].
  apply list_elem_of_singleton in Hp as ->. reflexivity.
Defined.

Lemma scan_subpart_blank p :
  recipient_field p = None -> header (txt "Status") p = None ->
  scan_subpart (None, None) p = (None, None).
Proof.
  unfold recipient_field, scan_subpart, has_header. intros Hr Hs.
  destruct (header (txt "Original-Recipient") p) eqn:Ho; [done|].
  rewrite Hr, Hs. cbn [otruthy negb].
  by rewrite !bool_decide_eq_false_2 by (by intros [? ?]).
Qed.

Lemma scan_subpart_recipient st sp v :
  recipient_field sp = Some v ->
  (scan_subpart (None, st) sp).1 = Some (cut_rfc822 (strip v)).
Proof.
  unfold recipient_field, scan_subpart, has_header, cut_rfc822.
  intros Hr. cbn [otruthy negb fst].
  destruct (header (txt "Original-Recipient") sp) as [o|] eqn:Ho.
  - simplify_eq. rewrite bool_decide_eq_true_2 by done.
    cbn [fmap option_fmap option_map].
    by destruct (truthy (strip v) && contains RFC822 (strip v)).
  - rewrite Hr. rewrite bool_decide_eq_false_2 by (by intros [? ?]).
    rewrite bool_decide_eq_true_2 by done.
    cbn [fmap option_fmap option_map].
    by destruct (truthy (strip v) && contains RFC822 (strip v)).
Qed.

Lemma scan_subpart_status a st sp s :
  header (txt "Status") sp = Some s ->
  (scan_subpart (a, st) sp).2 = Some s.
Proof.
  unfold scan_subpart, has_header. intros Hs. cbn [snd]. rewrite Hs.
  by rewrite bool_decide_eq_true_2 by done.
Qed.

(** X25: when the [To] header is not VERP-encoded, the address comes from
    the first delivery-status sub-part that has a recipient field,
    [Original-Recipient] before [Final-Recipient], stripped and with every
    "rfc822;" cut out; with a non-empty [Status] in the same sub-part the
    scan stops there. *)
Theorem recover_fallback msgobj to i part pre sp rest v s :
  header (txt "To") msgobj = Some to ->
  Verp.decode to = None ->
  list_find (fun part => get_content_type part = DELIVERY_STATUS)
            (walk msgobj) = Some (i, part) ->
  walk part = pre ++ sp :: rest ->
  (∀ p, p ∈ pre ->
        recipient_field p = None ∧ header (txt "Status") p = None) ->
  recipient_field sp = Some v ->
  truthy (cut_rfc822 (strip v)) = true ->
  header (txt "Status") sp = Some s -> truthy s = true ->
  recover msgobj = Ok (Some (cut_rfc822 (strip v)), Some s).
Proof.
  intros Hto Hd Hfind Hwalk Hpre Hv Htv Hs Hts.
  unfold recover, verp_address. rewrite Hto, Hd.
  cbn [mbind result_bind fmap option_fmap option_map].
  unfold scan_parts. rewrite Hfind, Hwalk. f_equal.
  clear Hwalk Hfind. induction pre as [|p pre IH].
  - cbn [app scan_subparts].
    pose proof (scan_subpart_recipient None sp v Hv) as H1.
    pose proof (scan_subpart_status None None sp s Hs) as H2.
    destruct (scan_subpart (None, None) sp) as [a st].
    cbn [fst snd] in *. subst a st. cbn [otruthy]. by rewrite Htv, Hts.
  - cbn [app scan_subparts].
    destruct (Hpre p ltac:(left)) as [Hr Hst].
    rewrite (scan_subpart_blank p Hr Hst). cbn [fst snd otruthy andb].
    apply IH. intros q Hq. apply Hpre. by right.
Qed.

Lemma recover_fallback_witness :
  recover (Sample.dsn [(txt "To", txt "news@example.net")])
  = Ok (Some (txt "bob@example.org"), Some (txt "5.1.1")).
Proof.
  apply (recover_fallback
           (Sample.dsn [(txt "To", txt "news@example.net")])
           (txt "news@example.net") 2%nat
           (Email [] DELIVERY_STATUS
              [ Email [(txt "Reporting-MTA", txt "dns; mx.example.org")]
                      (txt "text/plain") [];
                Email [(txt "Final-Recipient", txt "rfc822;bob@example.org");
                       (txt "Status", txt "5.1.1")]
                      (txt "text/plain") [] ])
           [Email [] DELIVERY_STATUS
              [ Email [(txt "Reporting-MTA", txt "dns; mx.example.org")]
                      (txt "text/plain") [];
                Email [(txt "Final-Recipient", txt "rfc822;bob@example.org");
                       (txt "Status", txt "5.1.1")]
                      (txt "text/plain") [] ];
            Email [(txt "Reporting-MTA", txt "dns; mx.example.org")]
                  (txt "text/plain") []]
           (Email [(txt "Final-Recipient", txt "rfc822;bob@example.org");
                   (txt "Status", txt "5.1.1")]
                  (txt "text/plain") [])
           [] (txt "rfc822;bob@example.org") (txt "5.1.1")); try reflexivity.
  intros p Hp. apply elem_of_cons in Hp as [->|Hp]; [by split|].
  apply list_elem_of_singleton in Hp as ->. by split.
Defined.

(** ** Mails that are no delivery reports *)

(** X26: a fetched mail with a [To] header and no part of type
    message/delivery-status is left alone: no bounce row, no copy to the
    archive folder, no deletion flag. *)
Theorem handle_message_not_a_report m w raw msgobj to :
  im_fetch m = Fetched raw msgobj ->
  header (txt "To") msgobj = Some to ->
  (∀ part, part ∈ walk msgobj -> get_content_type part ≠ DELIVERY_STATUS) ->
  handle_message m w = (w, Ok tt).
Proof.
  intros Hf Hto Hno.
  assert (list_find (fun part => get_content_type part = DELIVERY_STATUS)
                    (walk msgobj) = None) as Hfind.
  { apply list_find_None, Forall_forall. intros p Hp. by apply Hno. }
  apply (handle_message_skip m w raw msgobj
           (Verp.recipient <$> Verp.decode to) None Hf).
  - unfold recover, verp_address, scan_parts. by rewrite Hto, Hfind.
  - apply andb_false_r.
Qed.

Lemma handle_message_not_a_report_witness :
  handle_message {| im_num := 1; im_fetch := Fetched (txt "raw")
                                               Sample.not_a_bounce;
                    im_copy := CopyOK;
                    im_store := StoreOK |} Sample.w0
  = (Sample.w0, Ok tt).
Proof.
  apply (handle_message_not_a_report _ Sample.w0 (txt "raw")
           Sample.not_a_bounce (txt "bounce@example.net"));
    [reflexivity|reflexivity|].
  intros part Hp. apply list_elem_of_singleton in Hp as ->.
  vm_compute. discriminate.
Defined.

(** ** Submitting without a publication date *)

(** X27: [publish_date] is nullable; submitting a saved submission that has
    none raises [TypeError] at the comparison with the current time, before
    the submission is marked as being sent: nothing is written and no mail
    goes out. *)
Theorem submit_null_date env w s k :
  sm_pk s = Some k -> sm_publish_date s = None ->
  let st := Submission.submit env (w, s) in
  st.2 = Raise TypeError ∧ db st.1.1 = db w ∧ st.1.2 = s ∧
  sends (trace st.1.1) = sends (trace w).
Proof.
  intros Hk Hd. unfold Submission.submit. munfold. cbn [fst snd].
  rewrite Hk, Hd. simpl.
  split; [done|]. split; [done|]. split; [done|].
  rewrite sends_app. simpl. by rewrite app_nil_r.
Qed.

Lemma submit_null_date_witness :
  let s := {| sm_pk := Some 1%positive; sm_newsletter := Some 1%positive;
              sm_message := Some 1%positive; sm_publish_date := None;
              sm_publish := true; sm_prepared := true; sm_sent := false;
              sm_sending := false |} in
  let st := Submission.submit (Sample.env0 []) (Sample.w0, s) in
  st.2 = Raise TypeError ∧ db st.1.1 = db Sample.w0 ∧ st.1.2 = s ∧
  sends (trace st.1.1) = sends (trace Sample.w0).
Proof.
  apply (submit_null_date (Sample.env0 []) Sample.w0
           {| sm_pk := Some 1%positive; sm_newsletter := Some 1%positive;
              sm_message := Some 1%positive; sm_publish_date := None;
              sm_publish := true; sm_prepared := true; sm_sent := false;
              sm_sending := false |}
           1%positive); reflexivity.
Defined.

(** ** A submission interrupted by a template error *)

Lemma send_loop_interrupted env pre sub rest w s e :
  (∀ x, x ∈ pre -> render env s x = None) ->
  render env s sub = Some e ->
  ∃ w',
    for_each (pre ++ sub :: rest) (Submission.send_message env) (w, s)
    = ((w', s), Raise e) ∧
    db w' = db w ∧ ticks w' = ticks w ∧
    sends (trace w') = sends (trace w) ++ pre.
Proof.
  intros Hpre He. revert w. induction pre as [|x pre IH]; intros w.
  - exists w. cbn [app for_each]. unfold bindM.
    rewrite (send_message_unrendered _ _ _ _ e) by done.
    split; [done|]. split; [done|]. split; [done|]. by rewrite app_nil_r.
  - cbn [app for_each]. unfold bindM at 1.
    rewrite send_message_rendered by (apply Hpre; by left).
    match goal with |- context [for_each _ _ (?w1, s)] =>
      destruct (IH ltac:(intros ? ?; apply Hpre; by right) w1)
        as (w' & Hrun & Hdb & Hticks & Hs)
    end.
    exists w'. rewrite Hrun. cbn [db ticks trace] in *.
    split; [done|]. split; [done|]. split; [done|].
    rewrite Hs, sends_app. cbn [sends omap].
    destruct (transport env x); cbn; by rewrite <- app_assoc.
Qed.

(** X28: when the templates fail for one recipient, [submit] has sent to
    exactly the recipients before it, in order, and to none after it; the
    exception leaves [submit], but not before the [finally] block has
    cleared [sending] and saved the row, with [sent] as it was. *)
Theorem submit_interrupted env w s k d n pre sub rest e :
  sm_pk s = Some k ->
  sm_publish_date s = Some d -> d < clock env (ticks w) ->
  Submission.message_newsletter (db w) s = Ok n ->
  Submission.recipients (db w) k = pre ++ sub :: rest ->
  (∀ s' x, x ∈ pre -> render env s' x = None) ->
  (∀ s', render env s' sub = Some e) ->
  let st := Submission.submit env (w, s) in
  st.2 = Raise e ∧
  sends (trace st.1.1) = sends (trace w) ++ pre ∧
  sm_sent st.1.2 = sm_sent s ∧ sm_sending st.1.2 = false ∧
  submissions (db st.1.1) !! k = Some st.1.2.
Proof.
  intros Hk Hd Hlt Hn Hrec Hpre He.
  cut (∃ w' s', Submission.submit env (w, s) = ((w', s'), Raise e) ∧
         sends (trace w') = sends (trace w) ++ pre ∧
         sm_sent s' = sm_sent s ∧ sm_sending s' = false ∧
         submissions (db w') !! k = Some s').
  { intros (w' & s' & -> & H). exact (conj eq_refl H). }
  unfold Submission.submit. munfold. cbn [fst snd].
  rewrite Hk, Hd. cbn [Submission.date_lt].
  rewrite bool_decide_eq_true_2 by done.
  cbn [fst snd emit_w tick db].
  unfold Submission.save at 1. munfold. cbn [fst snd db].
  rewrite (message_newsletter_ext _ (db w) _ s) by done.
  rewrite Hn. cbn [fst snd]. unfold Submission.base_save at 1.
  cbn [fst snd db ticks trace Submission.with_newsletter
       Submission.with_sending sm_pk default].
  rewrite Hk. cbn [default]. unfold id.
  set (s1 := Submission.with_pk k
               (Submission.with_newsletter n (Submission.with_sending true s))).
  set (w0 := tick (emit_w (CallSubmit s) w)).
  set (w1 := set_db (set_submissions (<[k:=s1]> (submissions (db w0))) (db w0))
                    w0).
  change (Submission.recipients (db w1) k)
    with (Submission.recipients (db w) k).
  rewrite Hrec.
  destruct (send_loop_interrupted env pre sub rest w1 s1 e
              (fun x Hx => Hpre s1 x Hx) (He s1))
    as (w2 & Hrun & Hdb & _ & Hsends).
  rewrite Hrun. cbn [fst snd].
  unfold Submission.save. munfold. cbn [fst snd].
  rewrite (message_newsletter_ext _ (db w) _ s); [|by rewrite Hdb|done].
  rewrite Hn. cbn [fst snd]. unfold Submission.base_save.
  cbn [Submission.with_newsletter Submission.with_sending sm_pk s1
       Submission.with_pk].
  eexists _, _. split; [reflexivity|].
  cbn [fst snd db set_db submissions set_submissions sm_sent sm_sending
       trace].
  split.
  { rewrite Hsends. subst w1 w0. cbn [trace set_db tick emit_w].
    rewrite sends_app. cbn. by rewrite app_nil_r. }
  split; [done|]. split; [done|].
  by rewrite lookup_insert_eq.
Qed.

Lemma submit_interrupted_witness :
  let st := Submission.submit Sample.env_unrendered
              (Sample.w0, Sample.sm 1 10 true) in
  st.2 = Raise TemplateError ∧
  sends (trace st.1.1)
  = sends (trace Sample.w0) ++ [Sample.sub 1 "ann@example.org"] ∧
  sm_sent st.1.2 = sm_sent (Sample.sm 1 10 true) ∧
  sm_sending st.1.2 = false ∧
  submissions (db st.1.1) !! 1%positive = Some st.1.2.
Proof.
  apply (submit_interrupted Sample.env_unrendered Sample.w0
           (Sample.sm 1 10 true) 1%positive 10 1%positive
           [Sample.sub 1 "ann@example.org"] (Sample.sub 2 "bob@example.org")
           [Sample.sub 3 "cat@example.org"] TemplateError);
    try reflexivity.
  intros s' x Hx. apply list_elem_of_singleton in Hx as ->. reflexivity.
Defined.
